(** * wecare-app: the Google Drive metadata layer (GoogleDriveService)

    A shallow embedding of [utils/googleDriveService.ts]: the folder
    bootstrap, upload with sidecar write, listing with fallback records,
    metadata update and deletion, followed by the properties of the design
    document that concern them.

    The service is an [async] TypeScript class.  Its methods are embedded as
    computations of a state-and-exception monad over a [World]: the fields of
    the service object, the state of everything outside the process (the
    storage provider, the network, the clock) and the trace of the HTTP
    requests issued so far.  A thrown exception keeps the state reached when
    it was thrown, as in JavaScript.  Every [await] is sequential: one call
    of the service runs alone.  [console.log] lines are left out.

    Values that come back from the provider are untyped at run time
    ([makeRequest] returns [any]), so they are embedded as JSON documents
    ([JSValue]) with JavaScript's rules for truthiness, property access,
    indexing and conversion to string.  Numbers are integers. *)

From Stdlib Require Import String Ascii List ZArith Lia Bool DecimalString.
Import ListNotations.
Open Scope string_scope.
Open Scope Z_scope.

(** ** JavaScript values *)

#[warnings="-register-all"]
Inductive JSValue : Type :=
| JUndefined
| JNull
| JBool (b : bool)
| JNum (n : Z)
| JStr (s : string)
| JArr (items : list JSValue)
| JObj (fields : list (string * JSValue)).

(** An object literal: its properties in insertion order. *)
Definition JSObject := list (string * JSValue).

(** Exceptions are [Error] instances: [name] and [message]. *)
Record Exn : Type := mkExn { exn_name : string; exn_message : string }.

(** [new Error(msg)] *)
Definition Error (msg : string) : Exn := mkExn "Error" msg.
Definition TypeError (msg : string) : Exn := mkExn "TypeError" msg.

(** ['...' + error]: [Error.prototype.toString]. *)
Definition exn_toString (e : Exn) : string :=
  if String.eqb (exn_name e) "" then exn_message e
  else if String.eqb (exn_message e) "" then exn_name e
  else exn_name e ++ ": " ++ exn_message e.

Inductive Result (A : Type) : Type :=
| Ok (a : A)
| Throw (e : Exn).
Arguments Ok {A} a.
Arguments Throw {A} e.

(** Straight-line code that may throw: the rest runs when nothing was
    thrown. *)
Definition rbind {A B} (r : Result A) (k : A -> Result B) : Result B :=
  match r with
  | Ok a => k a
  | Throw e => Throw e
  end.

Notation "'let?' x := r 'in' k" := (rbind r (fun x => k))
  (at level 10, x name, r at level 100, k at level 200).

Definition string_of_Z (n : Z) : string := NilZero.string_of_int (Z.to_int n).
Definition string_of_nat (n : nat) : string := NilZero.string_of_uint (Nat.to_uint n).

(** [!!v] *)
Definition truthy (v : JSValue) : bool :=
  match v with
  | JUndefined | JNull => false
  | JBool b => b
  | JNum n => negb (n =? 0)
  | JStr s => negb (String.eqb s "")
  | JArr _ | JObj _ => true
  end.

(** [a || b] *)
Definition js_or (a b : JSValue) : JSValue := if truthy a then a else b.

(** [`${v}`]: conversion to string in a template literal. *)
Fixpoint js_toString (v : JSValue) : string :=
  match v with
  | JUndefined => "undefined"
  | JNull => "null"
  | JBool true => "true"
  | JBool false => "false"
  | JNum n => string_of_Z n
  | JStr s => s
  | JArr l =>
      (fix join (l : list JSValue) : string :=
         match l with
         | [] => ""
         | x :: r =>
             let sx := match x with
                       | JUndefined | JNull => ""
                       | _ => js_toString x
                       end in
             match r with
             | [] => sx
             | _ :: _ => sx ++ "," ++ join r
             end
         end) l
  | JObj _ => "[object Object]"
  end.

Fixpoint obj_get (o : JSObject) (k : string) : JSValue :=
  match o with
  | [] => JUndefined
  | (k', v) :: r => if String.eqb k' k then v else obj_get r k
  end.

Fixpoint obj_has (o : JSObject) (k : string) : bool :=
  match o with
  | [] => false
  | (k', _) :: r => if String.eqb k' k then true else obj_has r k
  end.

(** [o[k] = v] on an object: an existing key keeps its place, a new one is
    appended. *)
Fixpoint obj_set (o : JSObject) (k : string) (v : JSValue) : JSObject :=
  match o with
  | [] => [(k, v)]
  | (k', v') :: r =>
      if String.eqb k' k then (k', v) :: r else (k', v') :: obj_set r k v
  end.

(** [{...a, ...b}] *)
Definition obj_spread (a b : JSObject) : JSObject :=
  fold_left (fun o kv => obj_set o (fst kv) (snd kv)) b a.

Fixpoint string_chars (s : string) : list JSValue :=
  match s with
  | EmptyString => []
  | String c r => JStr (String c EmptyString) :: string_chars r
  end.

Fixpoint index_from (i : nat) (l : list JSValue) : JSObject :=
  match l with
  | [] => []
  | x :: r => (string_of_nat i, x) :: index_from (S i) r
  end.

(** The own enumerable properties that [{...v}] copies. *)
Definition js_own_fields (v : JSValue) : JSObject :=
  match v with
  | JObj f => f
  | JArr l => index_from 0 l
  | JStr s => index_from 0 (string_chars s)
  | _ => []
  end.

(** [v.k]; reading a property of [undefined] or [null] throws. *)
Definition js_get (v : JSValue) (k : string) : Result JSValue :=
  match v with
  | JUndefined =>
      Throw (TypeError ("Cannot read properties of undefined (reading '" ++ k ++ "')"))
  | JNull =>
      Throw (TypeError ("Cannot read properties of null (reading '" ++ k ++ "')"))
  | JObj f => Ok (obj_get f k)
  | JArr l => if String.eqb k "length" then Ok (JNum (Z.of_nat (List.length l)))
              else Ok JUndefined
  | JStr s => if String.eqb k "length" then Ok (JNum (Z.of_nat (String.length s)))
              else Ok JUndefined
  | JBool _ | JNum _ => Ok JUndefined
  end.

(** [v[0]] *)
Definition js_index0 (v : JSValue) : Result JSValue :=
  match v with
  | JUndefined => Throw (TypeError "Cannot read properties of undefined (reading '0')")
  | JNull => Throw (TypeError "Cannot read properties of null (reading '0')")
  | JArr l => Ok (nth 0 l JUndefined)
  | JStr s => Ok (nth 0 (string_chars s) JUndefined)
  | JObj f => Ok (obj_get f "0")
  | JBool _ | JNum _ => Ok JUndefined
  end.

(** [v > 0]: [v] is converted to a number first.  A string counts when it is
    a decimal literal; any other text is NaN, for which the test is false. *)
Definition js_gt0 (v : JSValue) : bool :=
  match v with
  | JNum n => 0 <? n
  | JBool b => b
  | JUndefined | JNull => false
  | JStr _ | JArr _ =>
      match NilZero.uint_of_string (js_toString v) with
      | Some u => 0 <? Z.of_uint u
      | None => false
      end
  | JObj _ => false
  end.

(** [v === 0] *)
Definition js_is0 (v : JSValue) : bool :=
  match v with
  | JNum n => n =? 0
  | _ => false
  end.

(** [a !== b].  Two arrays or objects are equal only when they are the same
    reference; a value given by the caller and one parsed from a response
    never are. *)
Definition js_strict_neq (a b : JSValue) : bool :=
  match a, b with
  | JUndefined, JUndefined => false
  | JNull, JNull => false
  | JBool x, JBool y => negb (Bool.eqb x y)
  | JNum x, JNum y => negb (x =? y)
  | JStr x, JStr y => negb (String.eqb x y)
  | _, _ => true
  end.

(** [v.k = x] in strict mode (the file is an ES module): creating a property
    on a primitive throws.  A named property put on an array is not an
    element and is left out of the model. *)
Definition js_set (v : JSValue) (k : string) (x : JSValue) : Result JSValue :=
  match v with
  | JObj f => Ok (JObj (obj_set f k x))
  | JArr l => Ok (JArr l)
  | JUndefined | JNull =>
      Throw (TypeError ("Cannot set properties of " ++ js_toString v
                        ++ " (setting '" ++ k ++ "')"))
  | _ => Throw (TypeError ("Cannot create property '" ++ k ++ "' on "
                           ++ js_toString v))
  end.

(** [for (const x of v)]: arrays and strings are iterable. *)
Definition js_iter (v : JSValue) : Result (list JSValue) :=
  match v with
  | JArr l => Ok l
  | JStr s => Ok (string_chars s)
  | _ => Throw (TypeError (js_toString v ++ " is not iterable"))
  end.

(** [s.includes(sub)] *)
Fixpoint includes (s sub : string) : bool :=
  if String.prefix sub s then true
  else match s with
       | EmptyString => false
       | String _ r => includes r sub
       end.

(** [undefined] or [null] *)
Definition nullish (v : JSValue) : bool :=
  match v with
  | JUndefined | JNull => true
  | _ => false
  end.

(** [v.k] where it cannot throw. *)
Definition js_prop (v : JSValue) (k : string) : JSValue :=
  match js_get v k with
  | Ok x => x
  | Throw _ => JUndefined
  end.

(** The fallback record of a content file, from its native attributes:
    what [fallbackMetadata] of [listFiles] builds for a file entry that is
    not [undefined] or [null]. *)
Definition fallback_record (file : JSValue) : JSValue :=
  JObj [ ("id", js_prop file "id");
         ("name", js_prop file "name");
         ("mimeType", js_prop file "mimeType");
         ("size", js_or (js_prop file "size") (JNum 0));
         ("createdTime", js_prop file "createdTime");
         ("modifiedTime", js_prop file "modifiedTime");
         ("description", JStr "");
         ("tags", JArr []);
         ("category", JStr "others");
         ("fileUrl",
          js_or (js_prop file "webViewLink")
                (JStr ("https://drive.google.com/file/d/"
                       ++ js_toString (js_prop file "id") ++ "/view"))) ].

(** ** HTTP requests and responses *)

Inductive Method := GET | POST | PATCH | DELETE.

(** The URLs the service builds, by their template.  [API_BASE] is
    [https://www.googleapis.com/drive/v3] and [UPLOAD_BASE] is
    [https://www.googleapis.com/upload/drive/v3]. *)
Inductive Url : Type :=
| FilesQuery (query fields : string)
    (* `${API_BASE}/files?q=${encodeURIComponent(query)}&fields=${fields}` *)
| FilesCollection                 (* `${API_BASE}/files` *)
| FileById (id : string)          (* `${API_BASE}/files/${id}` *)
| FileMedia (id : string)         (* `${API_BASE}/files/${id}?alt=media` *)
| UploadMultipart                 (* `${UPLOAD_BASE}/files?uploadType=multipart` *)
| AboutUser.                      (* `${API_BASE}/about?fields=user` *)

(** The [file] part of a multipart upload. *)
Inductive FilePart : Type :=
| NativeFile (uri name type : string)       (* { uri, name, type } *)
| JsonBlob (content : JSValue) (filename : string)
    (* new Blob([JSON.stringify(content, null, 2)]), filename *)
| RawBytes (bytes : string).                (* String.fromCharCode(...bytes) *)

Inductive Body : Type :=
| NoBody
| JsonBody (v : JSValue)                            (* JSON.stringify(v) *)
| Multipart (metadata : JSValue) (file : FilePart). (* metadata part, file part *)

Record Request : Type := mkRequest {
  req_url : Url;
  req_method : Method;
  req_bearer : string;     (* Authorization: `Bearer ${this.accessToken}` *)
  req_body : Body
}.

Record Response : Type := mkResponse {
  resp_ok : bool;                      (* response.ok *)
  resp_status : Z;                     (* response.status *)
  resp_content_type : option string;   (* response.headers.get('content-type') *)
  resp_text : string;                  (* await response.text() *)
  resp_json : Result JSValue           (* await response.json() *)
}.

(** The request is a [GET]. *)
Definition is_get (r : Request) : bool :=
  match req_method r with
  | GET => true
  | _ => false
  end.

(** What [await fetch(...)] does: it resolves to a response or rejects. *)
Inductive FetchOutcome : Type :=
| Resolves (r : Response)
| Rejects (e : Exn).

(** ** The service object *)

Record Service : Type := mkService {
  accessToken : option string;     (* string | null *)
  rootFolderId : JSValue;
  docsFolderId : JSValue;
  metadataFolderId : JSValue;
  settingsFolderId : JSValue
}.

Definition ROOT_FOLDER_NAME := "wecare".
Definition DOCS_FOLDER_NAME := "docs".
Definition METADATA_FOLDER_NAME := "metadata".
Definition SETTINGS_FOLDER_NAME := "settings".
Definition MAX_FILE_SIZE : Z := 100 * 1024 * 1024.

Definition new_service : Service := mkService None JNull JNull JNull JNull.

(** [!!this.accessToken] *)
Definition has_token (s : Service) : bool :=
  match accessToken s with
  | Some t => negb (String.eqb t "")
  | None => false
  end.

(** [`${this.accessToken}`] *)
Definition bearer (s : Service) : string :=
  match accessToken s with
  | Some t => t
  | None => "null"
  end.

Definition setAccessToken (token : string) (s : Service) : Service :=
  mkService (Some token) (rootFolderId s) (docsFolderId s)
            (metadataFolderId s) (settingsFolderId s).

Definition clearAccessToken (s : Service) : Service :=
  mkService None JNull JNull JNull JNull.

Definition getFolderStatus (s : Service) : JSObject :=
  [ ("hasAccessToken", JBool (has_token s));
    ("rootFolderId", rootFolderId s);
    ("docsFolderId", docsFolderId s);
    ("metadataFolderId", metadataFolderId s);
    ("settingsFolderId", settingsFolderId s) ].

Definition set_rootFolderId (v : JSValue) (s : Service) : Service :=
  mkService (accessToken s) v (docsFolderId s) (metadataFolderId s) (settingsFolderId s).
Definition set_docsFolderId (v : JSValue) (s : Service) : Service :=
  mkService (accessToken s) (rootFolderId s) v (metadataFolderId s) (settingsFolderId s).
Definition set_metadataFolderId (v : JSValue) (s : Service) : Service :=
  mkService (accessToken s) (rootFolderId s) (docsFolderId s) v (settingsFolderId s).
Definition set_settingsFolderId (v : JSValue) (s : Service) : Service :=
  mkService (accessToken s) (rootFolderId s) (docsFolderId s) (metadataFolderId s) v.

(** ** Inputs and results of [uploadFile] *)

(** [File | { uri, name, type, size }]: a browser [File], whose bytes are
    read with [arrayBuffer()] (which may reject), or a React Native file
    reference. *)
Inductive FileSource : Type :=
| WebFile (bytes : Result string)
| NativeUri (uri : string).

(** [String.fromCharCode.apply(null, Array.from(fileBytes))]: the bytes as
    a binary string.  The call passes one argument per byte, and an engine
    refuses a call with more arguments than it can take, with a
    [RangeError].  How many it takes depends on the engine and on its stack:
    [max_arguments] is a parameter. *)
Definition fromCharCode_apply (max_arguments : nat) (fileBytes : string)
  : Result string :=
  if (max_arguments <? String.length fileBytes)%nat
  then Throw (mkExn "RangeError" "Maximum call stack size exceeded")
  else Ok fileBytes.

Record FileInput : Type := mkFileInput {
  file_name : string;
  file_type : string;
  file_size : Z;
  file_source : FileSource
}.

Record UploadResult : Type := mkUploadResult {
  success : bool;
  fileId : JSValue;        (* undefined when absent *)
  metadataId : JSValue;
  error : option string
}.

(** [result.fileId] of a run that returned. *)
Definition fileId_of {W : Type} (run : Result UploadResult * W) : JSValue :=
  match fst run with
  | Ok r => fileId r
  | Throw _ => JUndefined
  end.

(** ** The service's methods

    Everything outside the process is a parameter: a state [Env], the way it
    answers one HTTP request ([serve]) and the way it answers
    [new Date().toISOString()] ([clock]).  Nothing is assumed about them, so a
    statement proved here holds whatever the provider and the network do.
    The engine that runs the program is a parameter too, as far as the
    program can tell engines apart: the number of arguments it accepts in
    one call ([max_arguments]). *)

Section GoogleDriveService.

Variable Env : Type.
Variable serve : Env -> Request -> Env * FetchOutcome.
Variable clock : Env -> Env * string.
Variable max_arguments : nat.

Record World : Type := mkWorld {
  svc : Service;              (* the fields of [this] *)
  env : Env;                  (* the provider, the network, the clock *)
  calls : list Request        (* the requests sent so far, oldest first *)
}.

(** The world after one more request. *)
Definition sent (w : World) (e' : Env) (r : Request) : World :=
  mkWorld (svc w) e' (calls w ++ [r]).

(** A computation: it ends with a value or a thrown exception, and a world. *)
Definition M (A : Type) : Type := World -> Result A * World.

Definition ret {A} (a : A) : M A := fun w => (Ok a, w).

Definition throw {A} (e : Exn) : M A := fun w => (Throw e, w).

Definition bind {A B} (m : M A) (k : A -> M B) : M B :=
  fun w => match m w with
           | (Ok a, w') => k a w'
           | (Throw e, w') => (Throw e, w')
           end.

(** [try { m } catch (error) { h error }] *)
Definition try_catch {A} (m : M A) (h : Exn -> M A) : M A :=
  fun w => match m w with
           | (Ok a, w') => (Ok a, w')
           | (Throw e, w') => h e w'
           end.

Notation "x <- m ;; k" := (bind m (fun x => k))
  (at level 61, m at next level, right associativity).
Notation "m ;; k" := (bind m (fun _ => k))
  (at level 61, right associativity).

(** A JavaScript operation that may throw, run inside a method. *)
Definition lift {A} (r : Result A) : M A := fun w => (r, w).

(** [this] *)
Definition this : M Service := fun w => (Ok (svc w), w).

Definition assign (f : Service -> Service) : M unit :=
  fun w => (Ok tt, mkWorld (f (svc w)) (env w) (calls w)).

(** [new Date().toISOString()] *)
Definition now : M string :=
  fun w => let (e', t) := clock (env w) in (Ok t, mkWorld (svc w) e' (calls w)).

(** [await fetch(url, { method, headers, body })] *)
Definition fetch (r : Request) : M Response :=
  fun w => let (e', out) := serve (env w) r in
           let w' := mkWorld (svc w) e' (calls w ++ [r]) in
           match out with
           | Resolves resp => (Ok resp, w')
           | Rejects e => (Throw e, w')
           end.

(** [{ success: true }], what [makeRequest] returns when there is no body
    to parse. *)
Definition success_marker : JSValue := JObj [("success", JBool true)].

Definition api_error (status : Z) (text : string) : Exn :=
  Error ("Google Drive API error: " ++ string_of_Z status ++ " - " ++ text).

(** How [makeRequest] reads a successful response, by method: nothing for
    [DELETE]; JSON for [PATCH] when the response declares it; JSON otherwise;
    the success marker whenever the body does not parse. *)
Definition parse_response (method : Method) (response : Response) : JSValue :=
  match method with
  | DELETE => success_marker
  | PATCH =>
      match resp_content_type response with
      | Some contentType =>
          if includes contentType "application/json" then
            match resp_json response with
            | Ok responseData => responseData
            | Throw _ => success_marker
            end
          else success_marker
      | None => success_marker
      end
  | _ =>
      match resp_json response with
      | Ok responseData => responseData
      | Throw _ => success_marker
      end
  end.

Definition makeRequest (url : Url) (method : Method) (body : Body) : M JSValue :=
  s <- this ;;
  if negb (has_token s) then throw (Error "No access token available")
  else
    response <- fetch (mkRequest url method (bearer s) body) ;;
    if negb (resp_ok response) then
      throw (api_error (resp_status response) (resp_text response))
    else ret (parse_response method response).

(** The search queries, by their template. *)
Definition name_in_parent_query (name parent : string) : string :=
  "name='" ++ name ++ "' and '" ++ parent ++ "' in parents and trashed=false".

Definition children_query (parent : string) : string :=
  "'" ++ parent ++ "' in parents and trashed=false".

Definition folder_query (folderName : string) (parentId : JSValue) : string :=
  if truthy parentId then name_in_parent_query folderName (js_toString parentId)
  else name_in_parent_query folderName "root".

Definition folderMetadata (folderName : string) (parentId : JSValue) : JSValue :=
  JObj ([ ("name", JStr folderName);
          ("mimeType", JStr "application/vnd.google-apps.folder") ]
        ++ (if truthy parentId then [("parents", JArr [parentId])] else [])).

(** [searchResponse.files && searchResponse.files.length > 0] *)
Definition has_files (searchResponse : JSValue) : Result bool :=
  let? files := js_get searchResponse "files" in
  if truthy files
  then let? len := js_get files "length" in Ok (js_gt0 len)
  else Ok false.

(** [!searchResponse.files || searchResponse.files.length === 0] *)
Definition no_files (searchResponse : JSValue) : Result bool :=
  let? files := js_get searchResponse "files" in
  if negb (truthy files) then Ok true
  else let? len := js_get files "length" in Ok (js_is0 len).

(** [searchResponse.files[0].id] *)
Definition first_file_id (searchResponse : JSValue) : Result JSValue :=
  let? files := js_get searchResponse "files" in
  let? first := js_index0 files in
  js_get first "id".

Definition folder_search (s : Service) (folderName : string) (parentId : JSValue)
  : Request :=
  mkRequest (FilesQuery (folder_query folderName parentId) "files(id,name)")
            GET (bearer s) NoBody.

Definition folder_create (s : Service) (folderName : string) (parentId : JSValue)
  : Request :=
  mkRequest FilesCollection POST (bearer s)
            (JsonBody (folderMetadata folderName parentId)).

(** [parentId] is [undefined] when the argument is omitted. *)
Definition findOrCreateFolder (folderName : string) (parentId : JSValue) : M JSValue :=
  searchResponse <-
    makeRequest (FilesQuery (folder_query folderName parentId) "files(id,name)")
                GET NoBody ;;
  found <- lift (has_files searchResponse) ;;
  if (found : bool) then lift (first_file_id searchResponse)
  else
    createResponse <-
      makeRequest FilesCollection POST (JsonBody (folderMetadata folderName parentId)) ;;
    lift (js_get createResponse "id").

Definition initializeFolderStructure : M bool :=
  try_catch
    (s <- this ;;
     if negb (has_token s) then
       throw (Error "No access token available for folder initialization")
     else
       root <- findOrCreateFolder ROOT_FOLDER_NAME JUndefined ;;
       assign (set_rootFolderId root) ;;
       s <- this ;;
       docs <- findOrCreateFolder DOCS_FOLDER_NAME (rootFolderId s) ;;
       assign (set_docsFolderId docs) ;;
       s <- this ;;
       meta <- findOrCreateFolder METADATA_FOLDER_NAME (rootFolderId s) ;;
       assign (set_metadataFolderId meta) ;;
       s <- this ;;
       settings <- findOrCreateFolder SETTINGS_FOLDER_NAME (rootFolderId s) ;;
       assign (set_settingsFolderId settings) ;;
       ret true)
    (fun error =>
       throw (Error ("Failed to initialize folder structure: " ++ exn_toString error))).

Definition sidecar_name (fileId : JSValue) : string :=
  js_toString fileId ++ "_metadata.json".

(** The request that writes a sidecar: a multipart upload of the record,
    serialised, under the sidecar's name in the metadata folder. *)
Definition sidecar_upload (s : Service) (fileId : JSValue) (record : JSValue) : Request :=
  mkRequest UploadMultipart POST (bearer s)
    (Multipart (JObj [ ("name", JStr (sidecar_name fileId));
                       ("parents", JArr [metadataFolderId s]) ])
               (JsonBlob record (sidecar_name fileId))).

(** It returns [{ metadataId: result.id }]; the value is that [metadataId]. *)
Definition saveMetadata (fileId : JSValue) (metadata : JSValue) : M JSValue :=
  s <- this ;;
  if negb (truthy (metadataFolderId s)) then
    throw (Error "Metadata folder not initialized")
  else
    response <- fetch (sidecar_upload s fileId metadata) ;;
    if negb (resp_ok response) then throw (Error "Failed to save metadata")
    else
      result <- lift (resp_json response) ;;
      lift (js_get result "id").

Definition sidecar_query (s : Service) (fileId : JSValue) : string :=
  name_in_parent_query (sidecar_name fileId) (js_toString (metadataFolderId s)).

Definition getFileMetadata (fileId : JSValue) : M JSValue :=
  try_catch
    (s <- this ;;
     if negb (truthy (metadataFolderId s)) then
       throw (Error "Metadata folder not initialized")
     else
       searchResponse <-
         makeRequest (FilesQuery (sidecar_query s fileId) "files(id,name)") GET NoBody ;;
       none <- lift (no_files searchResponse) ;;
       if (none : bool) then ret JNull
       else
         metadataFileId <- lift (first_file_id searchResponse) ;;
         makeRequest (FileMedia (js_toString metadataFileId)) GET NoBody)
    (fun error =>
       throw (Error ("Failed to get file metadata: " ++ exn_toString error))).

Definition about_request (s : Service) : Request :=
  mkRequest AboutUser GET (bearer s) NoBody.

Definition validateToken : M bool :=
  try_catch
    (s <- this ;;
     if negb (has_token s) then ret false
     else
       response <- fetch (about_request s) ;;
       if resp_ok response then ret true else ret false)
    (fun error =>
       throw (Error ("Error validating token: " ++ exn_toString error))).


Definition size_limit_message : string :=
  "File size exceeds limit of " ++ string_of_Z (MAX_FILE_SIZE / (1024 * 1024)) ++ "MB".

(** [fileMetadata] of [uploadFile]: the metadata part of the content upload. *)
Definition fileMetadata (s : Service) (file : FileInput) (metadata : JSObject)
  : JSValue :=
  JObj [ ("name", js_or (obj_get metadata "documentName") (JStr (file_name file)));
         ("parents", JArr [docsFolderId s]);
         ("description", js_or (obj_get metadata "description") (JStr ""));
         ("mimeType", JStr (file_type file)) ].

(** The request that uploads the content.  A React Native file goes as form
    data; a browser file as a hand-built [multipart/related] body, whose
    random boundary is not part of the model. *)
Definition content_upload (s : Service) (file : FileInput) (metadata : JSObject)
    (part : FilePart) : Request :=
  mkRequest UploadMultipart POST (bearer s)
            (Multipart (fileMetadata s file metadata) part).

(** [fileMetadataObj] of [uploadFile]: the record written to the sidecar. *)
Definition fileMetadataObj (fileId : JSValue) (file : FileInput)
    (metadata : JSObject) (created modified : string) : JSValue :=
  JObj [ ("id", fileId);
         ("name", JStr (file_name file));
         ("mimeType", JStr (file_type file));
         ("size", JNum (file_size file));
         ("createdTime", JStr created);
         ("modifiedTime", JStr modified);
         ("description", obj_get metadata "description");
         ("tags", js_or (obj_get metadata "tags") (JArr []));
         ("category", obj_get metadata "category") ].

(** What both branches of [uploadFile] do with the upload response (the
    source repeats these lines in each branch). *)
Definition afterUpload (file : FileInput) (metadata : JSObject)
    (uploadResponse : Response) : M UploadResult :=
  if negb (resp_ok uploadResponse) then
    throw (Error ("Upload failed: " ++ string_of_Z (resp_status uploadResponse)
                  ++ " - " ++ resp_text uploadResponse))
  else
    uploadedFile <- lift (resp_json uploadResponse) ;;
    id <- lift (js_get uploadedFile "id") ;;
    if negb (truthy id) then throw (Error "Upload response missing file ID")
    else
      created <- now ;;
      modified <- now ;;
      metadataId <- saveMetadata id (fileMetadataObj id file metadata created modified) ;;
      ret (mkUploadResult true id metadataId None).

Definition uploadFile (file : FileInput) (metadata : JSObject) : M UploadResult :=
  try_catch
    (s <- this ;;
     (if negb (truthy (docsFolderId s)) then
        initSuccess <- initializeFolderStructure ;;
        if negb initSuccess
        then throw (Error "Failed to initialize Google Drive folders")
        else ret tt
      else ret tt) ;;
     if MAX_FILE_SIZE <? file_size file then
       ret (mkUploadResult false JUndefined JUndefined (Some size_limit_message))
     else
       s <- this ;;
       match file_source file with
       | NativeUri uri =>
           uploadResponse <-
             fetch (content_upload s file metadata
                      (NativeFile uri (file_name file) (file_type file))) ;;
           afterUpload file metadata uploadResponse
       | WebFile buffer =>
           fileBytes <- lift buffer ;;
           bytes <- lift (fromCharCode_apply max_arguments fileBytes) ;;
           uploadResponse <-
             fetch (content_upload s file metadata (RawBytes bytes)) ;;
           afterUpload file metadata uploadResponse
       end)
    (fun error => throw (Error ("Upload failed: " ++ exn_message error))).

(** [file.webViewLink || `https://drive.google.com/file/d/${file.id}/view`] *)
Definition view_url (file : JSValue) : Result JSValue :=
  let? link := js_get file "webViewLink" in
  if truthy link then Ok link
  else
    let? id := js_get file "id" in
    Ok (JStr ("https://drive.google.com/file/d/" ++ js_toString id ++ "/view")).

(** [fallbackMetadata] of [listFiles], with its [fileUrl]. *)
Definition fallbackMetadata (file : JSValue) : Result JSValue :=
  let? id := js_get file "id" in
  let? name := js_get file "name" in
  let? mimeType := js_get file "mimeType" in
  let? size := js_get file "size" in
  let? createdTime := js_get file "createdTime" in
  let? modifiedTime := js_get file "modifiedTime" in
  let? fileUrl := view_url file in
  Ok (JObj [ ("id", id);
              ("name", name);
              ("mimeType", mimeType);
              ("size", js_or size (JNum 0));
              ("createdTime", createdTime);
              ("modifiedTime", modifiedTime);
              ("description", JStr "");
              ("tags", JArr []);
              ("category", JStr "others");
              ("fileUrl", fileUrl) ]).

(** The body of the loop of [listFiles]; the value is what it pushes. *)
Definition processFile (file : JSValue) : M JSValue :=
  try_catch
    (id <- lift (js_get file "id") ;;
     metadata <- getFileMetadata id ;;
     if truthy metadata then
       fileUrl <- lift (view_url file) ;;
       lift (js_set metadata "fileUrl" fileUrl)
     else lift (fallbackMetadata file))
    (fun _ => lift (fallbackMetadata file)).

(** [for (const file of response.files) { ...; files.push(...) }] *)
Fixpoint forEachFile (rest : list JSValue) (files : list JSValue)
  : M (list JSValue) :=
  match rest with
  | [] => ret files
  | file :: rest' =>
      pushed <- processFile file ;;
      forEachFile rest' (files ++ [pushed])
  end.

Definition session_expired_message : string :=
  "Access token is expired or invalid. Please log in again.".

Definition list_fields : string :=
  "files(id,name,mimeType,size,createdTime,modifiedTime,webViewLink,webContentLink)".

Definition list_request (s : Service) : Request :=
  mkRequest (FilesQuery (children_query (js_toString (docsFolderId s))) list_fields)
            GET (bearer s) NoBody.

Definition listFiles : M (list JSValue) :=
  try_catch
    (s <- this ;;
     if negb (has_token s) then throw (Error "No access token available")
     else
       isTokenValid <- validateToken ;;
       if negb isTokenValid then throw (Error session_expired_message)
       else
         s <- this ;;
         (if negb (truthy (docsFolderId s)) then
            initSuccess <- initializeFolderStructure ;;
            if negb initSuccess
            then throw (Error "Failed to initialize folder structure")
            else ret tt
          else ret tt) ;;
         s <- this ;;
         response <-
           makeRequest (FilesQuery (children_query (js_toString (docsFolderId s)))
                                   list_fields) GET NoBody ;;
         responseFiles <- lift (js_get response "files") ;;
         entries <- lift (js_iter responseFiles) ;;
         forEachFile entries [])
    (fun error => throw error).

Definition content_delete (s : Service) (fileId : string) : Request :=
  mkRequest (FileById fileId) DELETE (bearer s) NoBody.

Definition sidecar_search (s : Service) (fileId : JSValue) : Request :=
  mkRequest (FilesQuery (sidecar_query s fileId) "files(id,name)") GET (bearer s) NoBody.

Definition deleteFile (fileId : string) : M bool :=
  try_catch
    (s <- this ;;
     if negb (has_token s) then ret false
     else
       makeRequest (FileById fileId) DELETE NoBody ;;
       s <- this ;;
       (if truthy (metadataFolderId s) then
          searchResponse <-
            makeRequest (FilesQuery (sidecar_query s (JStr fileId)) "files(id,name)")
                        GET NoBody ;;
          found <- lift (has_files searchResponse) ;;
          if (found : bool) then
            metadataFileId <- lift (first_file_id searchResponse) ;;
            makeRequest (FileById (js_toString metadataFileId)) DELETE NoBody ;;
            ret tt
          else ret tt
        else ret tt) ;;
       ret true)
    (fun error => throw (Error ("Failed to delete file: " ++ exn_toString error))).

Definition rename_request (s : Service) (fileId : string) (newName : JSValue)
  : Request :=
  mkRequest (FileById fileId) PATCH (bearer s) (JsonBody (JObj [("name", newName)])).

Definition updateFileName (fileId : string) (newName : JSValue) : M bool :=
  try_catch
    (makeRequest (FileById fileId) PATCH (JsonBody (JObj [("name", newName)])) ;;
     ret true)
    (fun error =>
       throw (Error ("Failed to update file name: " ++ exn_toString error))).

(** [{ ...existingMetadata, ...metadata, modifiedTime: new Date().toISOString() }] *)
Definition updatedMetadata (existingMetadata : JSValue) (metadata : JSObject)
    (modified : string) : JSValue :=
  JObj (obj_set (obj_spread (js_own_fields existingMetadata) metadata)
                "modifiedTime" (JStr modified)).

(** [metadata.name && metadata.name !== existingMetadata.name];
    [existingMetadata] is truthy where this is evaluated. *)
Definition name_is_updated (metadata : JSObject) (existingMetadata : JSValue)
  : Result bool :=
  if truthy (obj_get metadata "name") then
    let? existingName := js_get existingMetadata "name" in
    Ok (js_strict_neq (obj_get metadata "name") existingName)
  else Ok false.

(** The first step of [updateMetadata] after the read: the content file is
    renamed when the name is being updated, and the update goes on whether
    or not that worked. *)
Definition renameContentFile (fileId : string) (metadata : JSObject)
    (existingMetadata : JSValue) : M unit :=
  renaming <- lift (name_is_updated metadata existingMetadata) ;;
  if (renaming : bool) then
    try_catch
      (updateFileName fileId (obj_get metadata "name") ;; ret tt)
      (fun _ => ret tt)
  else ret tt.

(** The rest of [updateMetadata]: the merged record replaces the sidecar,
    the old object deleted and a new one created. *)
Definition replaceSidecar (fileId : string) (metadata : JSObject)
    (existingMetadata : JSValue) : M bool :=
  modified <- now ;;
  let updated := updatedMetadata existingMetadata metadata modified in
  s <- this ;;
  searchResponse <-
    makeRequest (FilesQuery (sidecar_query s (JStr fileId)) "files(id,name)")
                GET NoBody ;;
  found <- lift (has_files searchResponse) ;;
  (if (found : bool) then
     oldMetadataFileId <- lift (first_file_id searchResponse) ;;
     makeRequest (FileById (js_toString oldMetadataFileId)) DELETE NoBody ;;
     ret tt
   else ret tt) ;;
  s <- this ;;
  response <- fetch (sidecar_upload s (JStr fileId) updated) ;;
  if negb (resp_ok response) then
    throw (Error ("Failed to update metadata: "
                  ++ string_of_Z (resp_status response) ++ " - "
                  ++ resp_text response))
  else ret true.

Definition updateMetadata (fileId : string) (metadata : JSObject) : M bool :=
  try_catch
    (s <- this ;;
     if negb (truthy (metadataFolderId s)) then
       throw (Error "Metadata folder not initialized")
     else
       existingMetadata <- getFileMetadata (JStr fileId) ;;
       if negb (truthy existingMetadata) then throw (Error "File metadata not found")
       else
         renameContentFile fileId metadata existingMetadata ;;
         replaceSidecar fileId metadata existingMetadata)
    (fun error =>
       throw (Error ("Failed to update metadata: " ++ exn_toString error))).

(** The request that downloads an object's content. *)
Definition content_download (s : Service) (id : JSValue) : Request :=
  mkRequest (FileMedia (js_toString id)) GET (bearer s) NoBody.

(** The request that writes the profile: a multipart upload of the data,
    serialised, as [profile.json] in the settings folder. *)
Definition profile_upload (s : Service) (profileData : JSValue) : Request :=
  mkRequest UploadMultipart POST (bearer s)
    (Multipart (JObj [ ("name", JStr "profile.json");
                       ("parents", JArr [settingsFolderId s]) ])
               (JsonBlob profileData "profile.json")).

Definition saveProfile (profileData : JSValue) : M bool :=
  try_catch
    (s <- this ;;
     if negb (truthy (settingsFolderId s)) then
       throw (Error "Settings folder not initialized")
     else
       response <- fetch (profile_upload s profileData) ;;
       ret (resp_ok response))
    (fun error =>
       throw (Error ("Failed to save profile: " ++ exn_toString error))).

Definition profile_query (s : Service) : string :=
  name_in_parent_query "profile.json" (js_toString (settingsFolderId s)).

Definition profile_search (s : Service) : Request :=
  mkRequest (FilesQuery (profile_query s) "files(id,name)") GET (bearer s) NoBody.

Definition getProfile : M JSValue :=
  try_catch
    (s <- this ;;
     if negb (truthy (settingsFolderId s)) then
       throw (Error "Settings folder not initialized")
     else
       searchResponse <-
         makeRequest (FilesQuery (profile_query s) "files(id,name)") GET NoBody ;;
       none <- lift (no_files searchResponse) ;;
       if (none : bool) then ret JNull
       else
         profileFileId <- lift (first_file_id searchResponse) ;;
         makeRequest (FileMedia (js_toString profileFileId)) GET NoBody)
    (fun error =>
       throw (Error ("Failed to get profile: " ++ exn_toString error))).

(** *** Worlds met in the statements *)

(** The world in which [uploadFile] reaches its upload request: the world
    of the call when the documents folder is resolved, and otherwise the one
    the folder bootstrap leaves. *)
Definition provisioned (w w0 : World) : Prop :=
  if truthy (docsFolderId (svc w)) then w0 = w
  else initializeFolderStructure w = (Ok true, w0).

(** The sidecar of [file] is missing (the read returns nothing) or
    unreadable (the read fails), in the world [w]. *)
Definition sidecar_unavailable (file : JSValue) (w : World) : Prop :=
  match fst (getFileMetadata (js_prop file "id") w) with
  | Ok metadata => truthy metadata = false
  | Throw _ => True
  end.

(** From [w] to [w'] the service object is unchanged and every request
    sent is a [GET]. *)
Definition reads_only (w w' : World) : Prop :=
  svc w' = svc w
  /\ exists added,
       calls w' = (calls w ++ added)%list /\ forallb is_get added = true.

(** The world after the loop of [listFiles] has gone through [entries]. *)
Fixpoint worldAfter (entries : list JSValue) (w : World) : World :=
  match entries with
  | [] => w
  | file :: rest => worldAfter rest (snd (processFile file w))
  end.

End GoogleDriveService.

Arguments mkWorld {Env} svc env calls.
Arguments svc {Env} w.
Arguments env {Env} w.
Arguments calls {Env} w.
Arguments sent {Env} w e' r.
Arguments reads_only {Env} w w'.

(** The methods are unfolded by hand in the proofs. *)
Arguments name_in_parent_query : simpl never.
Arguments children_query : simpl never.
Arguments sidecar_name : simpl never.
Arguments sidecar_query : simpl never.
Arguments folder_query : simpl never.
Arguments fetch : simpl never.
Arguments now : simpl never.
Arguments makeRequest : simpl never.
Arguments findOrCreateFolder : simpl never.
Arguments initializeFolderStructure : simpl never.
Arguments saveMetadata : simpl never.
Arguments getFileMetadata : simpl never.
Arguments validateToken : simpl never.
Arguments afterUpload : simpl never.
Arguments uploadFile : simpl never.
Arguments processFile : simpl never.
Arguments listFiles : simpl never.
Arguments deleteFile : simpl never.
Arguments updateFileName : simpl never.
Arguments renameContentFile : simpl never.
Arguments replaceSidecar : simpl never.
Arguments updateMetadata : simpl never.
Arguments saveProfile : simpl never.
Arguments getProfile : simpl never.
Arguments profile_query : simpl never.

(** ** The authentication context

    [contexts/AuthContext.tsx]: login, logout and the check made when the
    application starts.  They drive the service above, keep the token, the
    refresh token and the user's information in [AsyncStorage], and hold the
    state the screens read ([useState]).  [AsyncStorage] and the token
    endpoint of the identity provider are outside the process, like the
    storage provider: the environment answers each operation, and may make
    it fail.  [JSON.parse] and [JSON.stringify] are parameters too. *)

Inductive StorageOp : Type :=
| GetItem (key : string)                      (* AsyncStorage.getItem(key) *)
| SetItem (key : string) (value : JSValue)    (* AsyncStorage.setItem(key, value) *)
| MultiRemove (keys : list string).           (* AsyncStorage.multiRemove(keys) *)

(** The state of [AuthProvider]. *)
Record AuthState : Type := mkAuthState {
  isAuthenticated : bool;
  isLoading : bool;
  userToken : JSValue;     (* string | null *)
  userInfo : JSValue       (* { name, email } | null *)
}.

(** [useState(false)], [useState(true)], [useState(null)], [useState(null)] *)
Definition initial_auth : AuthState := mkAuthState false true JNull JNull.

Definition set_isAuthenticated (b : bool) (a : AuthState) : AuthState :=
  mkAuthState b (isLoading a) (userToken a) (userInfo a).
Definition set_isLoading (b : bool) (a : AuthState) : AuthState :=
  mkAuthState (isAuthenticated a) b (userToken a) (userInfo a).
Definition set_userToken (v : JSValue) (a : AuthState) : AuthState :=
  mkAuthState (isAuthenticated a) (isLoading a) v (userInfo a).
Definition set_userInfo (v : JSValue) (a : AuthState) : AuthState :=
  mkAuthState (isAuthenticated a) (isLoading a) (userToken a) v.

(** What [logout] removes from the storage. *)
Definition removal : StorageOp := MultiRemove ["userToken"; "refreshToken"; "userInfo"].

Section AuthContext.

Variable Env : Type.
Variable serve : Env -> Request -> Env * FetchOutcome.
Variable storage : Env -> StorageOp -> Env * Result JSValue.
Variable token_endpoint : Env -> string -> Env * FetchOutcome.
Variable JSON_parse : string -> Result JSValue.
Variable JSON_stringify : JSValue -> string.

(** The application: the service and its world, the state of the context,
    and the traces of the storage operations and of the refresh tokens sent
    to the token endpoint. *)
Record App : Type := mkApp {
  service : World Env;
  auth : AuthState;
  stored : list StorageOp;
  refreshes : list string
}.

Definition A (X : Type) : Type := App -> Result X * App.

Definition aret {X} (x : X) : A X := fun a => (Ok x, a).

Definition athrow {X} (e : Exn) : A X := fun a => (Throw e, a).

Definition abind {X Y} (m : A X) (k : X -> A Y) : A Y :=
  fun a => match m a with
           | (Ok x, a') => k x a'
           | (Throw e, a') => (Throw e, a')
           end.

(** [try { m } catch (error) { h error }] *)
Definition atry {X} (m : A X) (h : Exn -> A X) : A X :=
  fun a => match m a with
           | (Ok x, a') => (Ok x, a')
           | (Throw e, a') => h e a'
           end.

(** [try { m } finally { f }], for an [f] that does not throw. *)
Definition afinally {X} (m : A X) (f : App -> App) : A X :=
  fun a => let (r, a') := m a in (r, f a').

Notation "x <- m ;; k" := (abind m (fun x => k))
  (at level 61, m at next level, right associativity).
Notation "m ;; k" := (abind m (fun _ => k))
  (at level 61, right associativity).

Definition alift {X} (r : Result X) : A X := fun a => (r, a).

(** [await AsyncStorage....] *)
Definition AsyncStorage (op : StorageOp) : A JSValue :=
  fun a =>
    let (e', r) := storage (env (service a)) op in
    (r, mkApp (mkWorld (svc (service a)) e' (calls (service a)))
              (auth a) (stored a ++ [op]) (refreshes a)).

(** [await googleDriveService....] *)
Definition onService {X} (m : M Env X) : A X :=
  fun a => let (r, w') := m (service a) in
           (r, mkApp w' (auth a) (stored a) (refreshes a)).

(** [setIsAuthenticated(...)], [setUserToken(...)] and the like. *)
Definition setState (f : AuthState -> AuthState) : A unit :=
  fun a => (Ok tt, mkApp (service a) (f (auth a)) (stored a) (refreshes a)).

(** [await fetch('https://oauth2.googleapis.com/token', ...)] with the grant
    [refresh_token]; the request carries no bearer token. *)
Definition fetch_token (refreshToken : string) : A Response :=
  fun a =>
    let (e', out) := token_endpoint (env (service a)) refreshToken in
    let a' := mkApp (mkWorld (svc (service a)) e' (calls (service a)))
                    (auth a) (stored a) (refreshes a ++ [refreshToken]) in
    match out with
    | Resolves resp => (Ok resp, a')
    | Rejects e => (Throw e, a')
    end.

(** [GoogleDriveService.refreshAccessToken] *)
Definition refreshAccessToken (refreshToken : string) : A JSValue :=
  atry
    (response <- fetch_token refreshToken ;;
     if resp_ok response then
       data <- alift (resp_json response) ;;
       alift (js_get data "access_token")
     else aret JNull)
    (fun error => athrow (Error ("Error refreshing token: " ++ exn_toString error))).

Definition attemptTokenRefresh : A bool :=
  atry
    (refreshToken <- AsyncStorage (GetItem "refreshToken") ;;
     if negb (truthy refreshToken) then aret false
     else
       newToken <- refreshAccessToken (js_toString refreshToken) ;;
       if truthy newToken then
         AsyncStorage (SetItem "userToken" newToken) ;;
         setState (set_userToken newToken) ;;
         aret true
       else aret false)
    (fun _ => aret false).

Definition logout : A unit :=
  atry
    (AsyncStorage (MultiRemove ["userToken"; "refreshToken"; "userInfo"]) ;;
     onService (assign Env clearAccessToken) ;;
     setState (set_userToken JNull) ;;
     setState (set_userInfo JNull) ;;
     setState (set_isAuthenticated false))
    (fun _ => aret tt).

(** [try { await googleDriveService.initializeFolderStructure(); }
     catch (error) { }] *)
Definition initializeFolders : A unit :=
  atry (onService (initializeFolderStructure Env serve) ;; aret tt)
       (fun _ => aret tt).

Definition checkAuthStatus : A unit :=
  afinally
    (atry
       (token <- AsyncStorage (GetItem "userToken") ;;
        storedUserInfo <- AsyncStorage (GetItem "userInfo") ;;
        if truthy token && truthy storedUserInfo then
          atry
            (parsed <- alift (JSON_parse (js_toString storedUserInfo)) ;;
             setState (set_userInfo parsed) ;;
             setState (set_userToken token) ;;
             onService (assign Env (setAccessToken (js_toString token))) ;;
             isValid <- onService (validateToken Env serve) ;;
             refreshed <- (if negb isValid then attemptTokenRefresh else aret true) ;;
             if negb refreshed then logout
             else
               initializeFolders ;;
               setState (set_isAuthenticated true))
            (fun _ => logout)
        else setState (set_isAuthenticated false))
       (fun _ => logout))
    (fun a => mkApp (service a) (set_isLoading false (auth a)) (stored a) (refreshes a)).

(** [refreshToken] and [userInfo] are optional. *)
Definition login (token : string) (refreshToken : option string)
    (info : option JSValue) : A unit :=
  atry
    (AsyncStorage (SetItem "userToken" (JStr token)) ;;
     (match refreshToken with
      | Some r => if negb (String.eqb r "")
                  then AsyncStorage (SetItem "refreshToken" (JStr r)) ;; aret tt
                  else aret tt
      | None => aret tt
      end) ;;
     (match info with
      | Some i => if truthy i
                  then AsyncStorage (SetItem "userInfo" (JStr (JSON_stringify i))) ;;
                       aret tt
                  else aret tt
      | None => aret tt
      end) ;;
     setState (set_userToken (JStr token)) ;;
     (match info with
      | Some i => if truthy i then setState (set_userInfo i) else aret tt
      | None => aret tt
      end) ;;
     setState (set_isAuthenticated true) ;;
     onService (assign Env (setAccessToken token)) ;;
     initializeFolders)
    (fun error => athrow error).

End AuthContext.

Arguments mkApp {Env} service auth stored refreshes.
Arguments service {Env} a.
Arguments auth {Env} a.
Arguments stored {Env} a.
Arguments refreshes {Env} a.
Arguments AsyncStorage : simpl never.
Arguments fetch_token : simpl never.
Arguments refreshAccessToken : simpl never.
Arguments attemptTokenRefresh : simpl never.
Arguments logout : simpl never.
Arguments initializeFolders : simpl never.
Arguments checkAuthStatus : simpl never.
Arguments login : simpl never.

(** ** Outcomes of a request *)

(** A [200] response with a JSON body. *)
Definition json_ok (v : JSValue) : FetchOutcome :=
  Resolves (mkResponse true 200 (Some "application/json; charset=UTF-8") "" (Ok v)).

(** A [204] response without a body. *)
Definition no_content : FetchOutcome :=
  Resolves (mkResponse true 204 None ""
              (Throw (mkExn "SyntaxError" "Unexpected end of JSON input"))).

(** A failure status with a text body. *)
Definition http_error (status : Z) (text : string) : FetchOutcome :=
  Resolves (mkResponse false status (Some "text/plain") text
              (Throw (mkExn "SyntaxError" "Unexpected token in JSON"))).

Definition network_down : FetchOutcome := Rejects (TypeError "Network request failed").

(** A [200] response that declares JSON and whose body does not parse. *)
Definition not_json : FetchOutcome :=
  Resolves (mkResponse true 200 (Some "application/json; charset=UTF-8") "<html>"
              (Throw (mkExn "SyntaxError" "Unexpected token < in JSON at position 0"))).

(** ** A scripted environment

    The outside world as a script: the outcomes of the coming requests, in
    order, whatever the requests are, and a clock that advances by one
    millisecond at each reading.  When the script is used up the network is
    down. *)

Module Scripted.

Record Env : Type := mkEnv {
  script : list FetchOutcome;
  millis : nat
}.


Definition serve (e : Env) (r : Request) : Env * FetchOutcome :=
  match script e with
  | [] => (e, network_down)
  | out :: rest => (mkEnv rest (millis e), out)
  end.

Definition clock (e : Env) : Env * string :=
  (mkEnv (script e) (S (millis e)),
   "2024-01-01T00:00:00.00" ++ string_of_nat (millis e) ++ "Z").

(** An engine that takes 65536 arguments in a call. *)
Definition max_arguments : nat := Nat.pow 2 16.

Definition world (s : Service) (outcomes : list FetchOutcome) : World Env :=
  mkWorld s (mkEnv outcomes 0) [].

(** A service after login, with the four folders resolved. *)
Definition ready : Service :=
  mkService (Some "token") (JStr "root-id") (JStr "docs-id")
            (JStr "meta-id") (JStr "settings-id").

(** A service after login, before any folder is resolved. *)
Definition fresh : Service := setAccessToken "token" new_service.

Definition files_response (files : list JSValue) : JSValue :=
  JObj [("files", JArr files)].

Definition file_entry (id name : string) : JSValue :=
  JObj [("id", JStr id); ("name", JStr name)].

Definition report_pdf : FileInput :=
  mkFileInput "report.pdf" "application/pdf" 10240 (NativeUri "file:///report.pdf").

Definition huge_pdf : FileInput :=
  mkFileInput "huge.pdf" "application/pdf" (101 * 1024 * 1024)
              (NativeUri "file:///huge.pdf").

(** The four searches of the folder bootstrap each find their folder. *)
Definition folders_found : list FetchOutcome :=
  [ json_ok (files_response [file_entry "root-id" "wecare"]);
    json_ok (files_response [file_entry "docs-id" "docs"]);
    json_ok (files_response [file_entry "meta-id" "metadata"]);
    json_ok (files_response [file_entry "settings-id" "settings"]) ].

(** The sidecar of the content file [f1], as stored. *)
Definition stored_record : JSValue :=
  JObj [ ("id", JStr "f1");
         ("name", JStr "report.pdf");
         ("mimeType", JStr "application/pdf");
         ("size", JNum 10240);
         ("createdTime", JStr "2023-12-31T10:00:00.000Z");
         ("modifiedTime", JStr "2023-12-31T10:00:00.000Z");
         ("tags", JArr [JStr "urgent"; JStr "medical"]);
         ("category", JStr "Lab Result") ].

(** An update that goes well: the sidecar is found and read, then found
    again, deleted and written anew. *)
Definition update_goes_well : list FetchOutcome :=
  [ json_ok (files_response [file_entry "m1" "f1_metadata.json"]);
    json_ok stored_record;
    json_ok (files_response [file_entry "m1" "f1_metadata.json"]);
    no_content;
    json_ok (JObj [("id", JStr "m2")]) ].


(** An update in which the old sidecar is deleted and the write of the new
    one is refused. *)
Definition update_write_refused : list FetchOutcome :=
  [ json_ok (files_response [file_entry "m1" "f1_metadata.json"]);
    json_ok stored_record;
    json_ok (files_response [file_entry "m1" "f1_metadata.json"]);
    no_content;
    http_error 507 "Storage quota exceeded" ].

(** Two content files as the provider lists them. *)
Definition listed_f1 : JSValue :=
  JObj [ ("id", JStr "f1"); ("name", JStr "report.pdf");
         ("mimeType", JStr "application/pdf"); ("size", JStr "10240");
         ("createdTime", JStr "2023-12-31T10:00:00.000Z");
         ("modifiedTime", JStr "2023-12-31T10:00:00.000Z");
         ("webViewLink", JStr "https://drive.google.com/file/d/f1/view?usp=drivesdk") ].

Definition listed_f2 : JSValue :=
  JObj [ ("id", JStr "f2"); ("name", JStr "scan.jpg");
         ("mimeType", JStr "image/jpeg");
         ("createdTime", JStr "2024-01-01T09:00:00.000Z");
         ("modifiedTime", JStr "2024-01-01T09:00:00.000Z") ].

(** A listing of one file, whose sidecar is found and holds a page of HTML
    instead of a record. *)
Definition listing_with_garbled_sidecar : list FetchOutcome :=
  [ json_ok (JObj [("user", JObj [("displayName", JStr "A User")])]);
    json_ok (files_response [listed_f1]);
    json_ok (files_response [file_entry "m1" "f1_metadata.json"]);
    not_json ].

(** [n] bytes. *)
Fixpoint padding (n : nat) : string :=
  match n with
  | O => EmptyString
  | S k => String "%"%char (padding k)
  end.

(** A browser file of 150000 bytes. *)
Definition scan_bytes : string := padding (N.to_nat 150000).

Definition scan_pdf : FileInput :=
  mkFileInput "scan.pdf" "application/pdf" 150000 (WebFile (Ok scan_bytes)).

(** A listing in which the token is valid, the sidecar of the first file is
    missing and the search for the sidecar of the second fails. *)
Definition listing_without_sidecars : list FetchOutcome :=
  [ json_ok (JObj [("user", JObj [("displayName", JStr "A User")])]);
    json_ok (files_response [listed_f1; listed_f2]);
    json_ok (files_response []);
    http_error 500 "Backend Error" ].

End Scripted.


(** ** A model of the storage provider

    The provider as the design document describes its file API (section 6):
    a flat collection of objects, each with an identifier, a name, parents
    and a trashed flag.  A search returns, in the collection's order, the
    objects that are not trashed and that the query selects; a create
    appends an object under the identifier the provider chooses
    ([new_id], about which nothing is assumed); a delete removes an object.
    Top-level objects have the parent [root]. *)

Module Drive.

Record DriveFile : Type := mkDriveFile {
  df_id : string;
  df_name : string;
  df_mimeType : string;
  df_parents : list string;
  df_trashed : bool
}.

Record Env : Type := mkEnv {
  files : list DriveFile;
  millis : nat
}.

(** [q] selects [f]: it is the name-and-parent query for [f]'s name and one
    of its parents, or the children query for one of its parents. *)
Definition selects (q : string) (f : DriveFile) : bool :=
  existsb (fun p => String.eqb q (name_in_parent_query (df_name f) p)
                    || String.eqb q (children_query p))
          (df_parents f).

Definition matches (q : string) (f : DriveFile) : bool :=
  negb (df_trashed f) && selects q f.

Definition entry (f : DriveFile) : JSValue :=
  JObj [("id", JStr (df_id f)); ("name", JStr (df_name f))].

Definition parents_of (v : JSValue) : list string :=
  match v with
  | JArr (p :: ps) => map js_toString (p :: ps)
  | _ => ["root"]
  end.

Section Provider.

Variable new_id : list DriveFile -> string.

Definition created (body : JSValue) (fs : list DriveFile) : DriveFile :=
  let o := js_own_fields body in
  mkDriveFile (new_id fs) (js_toString (obj_get o "name"))
              (js_toString (obj_get o "mimeType"))
              (parents_of (obj_get o "parents")) false.

Definition serve (e : Env) (r : Request) : Env * FetchOutcome :=
  match req_url r, req_method r, req_body r with
  | FilesQuery q _, GET, _ =>
      (e, json_ok (JObj [("files", JArr (map entry (filter (matches q) (files e))))]))
  | FilesCollection, POST, JsonBody body =>
      let f := created body (files e) in
      (mkEnv (files e ++ [f]) (millis e), json_ok (entry f))
  | FileById id, DELETE, _ =>
      if existsb (fun f => String.eqb (df_id f) id) (files e) then
        (mkEnv (filter (fun f => negb (String.eqb (df_id f) id)) (files e)) (millis e),
         no_content)
      else (e, http_error 404 "File not found")
  | _, _, _ => (e, http_error 404 "Not Found")
  end.

(** What [findOrCreateFolder] comes to on the provider's collection: the
    identifier of the first folder the search returns, and a new folder only
    when the search returns none. *)
Definition ensure (name : string) (parent : JSValue) (fs : list DriveFile)
  : JSValue * list DriveFile :=
  match filter (matches (folder_query name parent)) fs with
  | f :: _ => (JStr (df_id f), fs)
  | [] =>
      let f := created (folderMetadata name parent) fs in
      (JStr (df_id f), (fs ++ [f])%list)
  end.

(** The requests it sends: the search, and the creation only after a search
    that found nothing. *)
Definition ensure_calls (s : Service) (name : string) (parent : JSValue)
    (fs : list DriveFile) : list Request :=
  folder_search s name parent
  :: match filter (matches (folder_query name parent)) fs with
     | _ :: _ => []
     | [] => [folder_create s name parent]
     end.

(** The four steps of the folder bootstrap on the collection: the four
    identifiers, and the collection afterwards. *)
Definition bootstrap (fs : list DriveFile)
  : (JSValue * JSValue * JSValue * JSValue) * list DriveFile :=
  let r := ensure ROOT_FOLDER_NAME JUndefined fs in
  let d := ensure DOCS_FOLDER_NAME (fst r) (snd r) in
  let m := ensure METADATA_FOLDER_NAME (fst r) (snd d) in
  let t := ensure SETTINGS_FOLDER_NAME (fst r) (snd m) in
  ((fst r, fst d, fst m, fst t), snd t).

(** The requests of the four steps. *)
Definition bootstrap_calls (s : Service) (fs : list DriveFile) : list Request :=
  let r := ensure ROOT_FOLDER_NAME JUndefined fs in
  let d := ensure DOCS_FOLDER_NAME (fst r) (snd r) in
  let m := ensure METADATA_FOLDER_NAME (fst r) (snd d) in
  (ensure_calls s ROOT_FOLDER_NAME JUndefined fs
   ++ ensure_calls s DOCS_FOLDER_NAME (fst r) (snd r)
   ++ ensure_calls s METADATA_FOLDER_NAME (fst r) (snd d)
   ++ ensure_calls s SETTINGS_FOLDER_NAME (fst r) (snd m))%list.

Definition with_folders (s : Service) (ids : JSValue * JSValue * JSValue * JSValue)
  : Service :=
  let '(root, docs, meta, settings) := ids in
  mkService (accessToken s) root docs meta settings.

Definition bootstrap_names : list string :=
  [ROOT_FOLDER_NAME; DOCS_FOLDER_NAME; METADATA_FOLDER_NAME; SETTINGS_FOLDER_NAME].

Definition clock (e : Env) : Env * string :=
  (mkEnv (files e) (S (millis e)),
   "2024-01-01T00:00:00.00" ++ string_of_nat (millis e) ++ "Z").

End Provider.

(** Identifiers in the order of creation. *)
Definition counter_id (fs : list DriveFile) : string :=
  "folder-" ++ string_of_nat (List.length fs).

Definition empty : Env := mkEnv [] 0.

End Drive.

Arguments Drive.ensure : simpl never.
Arguments Drive.ensure_calls : simpl never.
Arguments Drive.bootstrap : simpl never.
Arguments Drive.bootstrap_calls : simpl never.
Arguments Drive.with_folders : simpl never.


(** ** A device

    The environment of the authentication context: the storage provider as
    a script, [AsyncStorage] as a list of items that accepts every
    operation, and the token endpoint as a script of its answers. *)

Module Device.

Record Env : Type := mkEnv {
  remote : Scripted.Env;
  items : list (string * JSValue);
  grants : list FetchOutcome
}.

Definition serve (e : Env) (r : Request) : Env * FetchOutcome :=
  let (remote', out) := Scripted.serve (remote e) r in
  (mkEnv remote' (items e) (grants e), out).

Definition without (keys : list string) (l : list (string * JSValue))
  : list (string * JSValue) :=
  filter (fun item => negb (existsb (String.eqb (fst item)) keys)) l.

Definition storage (e : Env) (op : StorageOp) : Env * Result JSValue :=
  match op with
  | GetItem key =>
      (e, Ok match find (fun item => String.eqb (fst item) key) (items e) with
             | Some (_, value) => value
             | None => JNull
             end)
  | SetItem key value =>
      (mkEnv (remote e) ((key, value) :: without [key] (items e)) (grants e),
       Ok JUndefined)
  | MultiRemove keys =>
      (mkEnv (remote e) (without keys (items e)) (grants e), Ok JUndefined)
  end.

Definition token_endpoint (e : Env) (refreshToken : string) : Env * FetchOutcome :=
  match grants e with
  | [] => (e, network_down)
  | out :: rest => (mkEnv (remote e) (items e) rest, out)
  end.

(** The user of the examples, and the text stored for them. *)
Definition a_user : JSValue :=
  JObj [("name", JStr "A User"); ("email", JStr "user@example.org")].

Definition quoted (s : string) : string :=
  String (ascii_of_nat 34) (s ++ String (ascii_of_nat 34) EmptyString).

Definition a_user_text : string :=
  "{" ++ quoted "name" ++ ":" ++ quoted "A User" ++ ","
      ++ quoted "email" ++ ":" ++ quoted "user@example.org" ++ "}".

(** [JSON.parse] and [JSON.stringify] on the one document the examples
    store. *)
Definition JSON_parse (text : string) : Result JSValue :=
  if String.eqb text a_user_text then Ok a_user
  else Throw (mkExn "SyntaxError" "Unexpected token in JSON").

Definition JSON_stringify (v : JSValue) : string :=
  match v with
  | JObj _ => a_user_text
  | _ => js_toString v
  end.

(** The application when it starts on a device holding [stored] items. *)
Definition app (stored : list (string * JSValue)) (outcomes grants : list FetchOutcome)
  : App Env :=
  mkApp (mkWorld new_service (mkEnv (Scripted.mkEnv outcomes 0) stored grants) [])
        initial_auth [] [].

(** A device on which a user logged in earlier. *)
Definition logged_in : list (string * JSValue) :=
  [ ("userToken", JStr "token");
    ("refreshToken", JStr "refresh");
    ("userInfo", JStr a_user_text) ].

End Device.

(** ** Reading a trace *)

(** The [file] part that [uploadFile] sends for a payload: the file
    reference of a React Native file, the bytes of a browser file (when they
    can be read, and when the engine can turn them into a string). *)
Definition file_part (max_arguments : nat) (file : FileInput) : Result FilePart :=
  match file_source file with
  | NativeUri uri => Ok (NativeFile uri (file_name file) (file_type file))
  | WebFile buffer =>
      let? fileBytes := buffer in
      let? bytes := fromCharCode_apply max_arguments fileBytes in
      Ok (RawBytes bytes)
  end.

(** The message of an exception starts with a prefix. *)
Definition message_starts (prefix : string) (e : Exn) : Prop :=
  exists detail, e = Error (prefix ++ detail).

(** ** Reading an outcome

    What [makeRequest] makes of the outcome of its request: the exception it
    throws, if any. *)

Definition request_failure (out : FetchOutcome) : option Exn :=
  match out with
  | Rejects e => Some e
  | Resolves r =>
      if resp_ok r then None else Some (api_error (resp_status r) (resp_text r))
  end.

(** The value it returns when it does not throw. *)
Definition request_value (method : Method) (out : FetchOutcome) : JSValue :=
  match out with
  | Resolves r => parse_response method r
  | Rejects _ => JUndefined
  end.

(** * Properties *)

(** Entering a method: its sequencing is unfolded and computed. *)
Ltac enter := unfold try_catch, bind, this, lift; cbn.

Section Properties.

Variable Env : Type.
Variable serve : Env -> Request -> Env * FetchOutcome.
Variable clock : Env -> Env * string.
Variable max_arguments : nat.

Lemma fetch_run (r : Request) (w : World Env) e' out :
  serve (env w) r = (e', out) ->
  fetch Env serve r w =
    (match out with Resolves resp => Ok resp | Rejects e => Throw e end, sent w e' r).
Proof.
  intros H. unfold fetch. rewrite H. destruct out; reflexivity.
Qed.

Lemma makeRequest_run url method body (w : World Env) e' out :
  has_token (svc w) = true ->
  serve (env w) (mkRequest url method (bearer (svc w)) body) = (e', out) ->
  makeRequest Env serve url method body w =
    (match request_failure out with
     | Some err => Throw err
     | None => Ok (request_value method out)
     end,
     sent w e' (mkRequest url method (bearer (svc w)) body)).
Proof.
  intros Htok H. unfold makeRequest, bind, this. cbn. rewrite Htok. cbn.
  rewrite (fetch_run _ _ _ _ H).
  destruct out as [r|e]; cbn; [|reflexivity].
  destruct (resp_ok r); reflexivity.
Qed.

(** One request of the goal is answered as [Hs] says. *)
Ltac answer_request Htok Hs :=
  match goal with
  | |- context [makeRequest _ _ ?u ?m ?b ?w] =>
      let Hr := fresh "Hr" in
      pose proof (makeRequest_run u m b w _ _ Htok Hs) as Hr;
      rewrite Hr; clear Hr
  end.

Ltac answer_fetch Hs :=
  match goal with
  | |- context [fetch _ _ ?r ?w] =>
      let Hr := fresh "Hr" in
      pose proof (fetch_run r w _ _ Hs) as Hr;
      rewrite Hr; clear Hr
  end.


(** A request changes nothing in the service object. *)
Lemma makeRequest_svc url method body (w : World Env) :
  svc (snd (makeRequest Env serve url method body w)) = svc w.
Proof.
  unfold makeRequest. enter. destruct (has_token (svc w)); cbn; [|reflexivity].
  unfold fetch. destruct (serve (env w) _) as [e' [r|e]]; cbn; [|reflexivity].
  destruct (resp_ok r); reflexivity.
Qed.

Lemma findOrCreateFolder_svc folderName parentId (w : World Env) :
  svc (snd (findOrCreateFolder Env serve folderName parentId w)) = svc w.
Proof.
  unfold findOrCreateFolder. enter.
  pose proof (makeRequest_svc
    (FilesQuery (folder_query folderName parentId) "files(id,name)") GET NoBody w) as H1.
  destruct (makeRequest Env serve _ GET NoBody w) as [[searchResponse|e] w1];
    cbn in *; [|exact H1].
  destruct (has_files searchResponse) as [[|]|]; cbn; try exact H1.
  pose proof (makeRequest_svc FilesCollection POST
    (JsonBody (folderMetadata folderName parentId)) w1) as H2.
  destruct (makeRequest Env serve FilesCollection POST _ w1) as [[createResponse|e] w2];
    cbn in *; congruence.
Qed.

(** The folder bootstrap leaves the token as it is. *)
Lemma initializeFolderStructure_token (w : World Env) :
  accessToken (svc (snd (initializeFolderStructure Env serve w))) = accessToken (svc w).
Proof.
  unfold initializeFolderStructure. enter.
  destruct (has_token (svc w)); cbn; [|reflexivity].
  repeat
    match goal with
    | |- context [findOrCreateFolder _ _ ?n ?p ?x] =>
        let H := fresh "Hsvc" in
        pose proof (findOrCreateFolder_svc n p x) as H;
        destruct (findOrCreateFolder Env serve n p x) as [[? | ?] ?];
        cbn in *; rewrite ?H; cbn
    end;
  congruence.
Qed.

(** *** Deletion *)

(** C9.  When deleting the content file fails, [deleteFile] fails with the
    remote error (wrapped as [Failed to delete file: ...]); the request that
    deleted the content file is the only one it sent, so the sidecar was
    neither searched for nor deleted, and the service's state is as it
    was. *)
Theorem deleteFile_content_failure fileId (w : World Env) e' out err :
  has_token (svc w) = true ->
  serve (env w) (content_delete (svc w) fileId) = (e', out) ->
  request_failure out = Some err ->
  let (res, w') := deleteFile Env serve fileId w in
  res = Throw (Error ("Failed to delete file: " ++ exn_toString err))
  /\ calls w' = (calls w ++ [content_delete (svc w) fileId])%list
  /\ svc w' = svc w.
Proof.
  intros Htok Hs Hf.
  unfold deleteFile. enter. rewrite Htok. cbn.
  answer_request Htok Hs. rewrite Hf. cbn.
  repeat split.
Qed.

(** C2, amended.  Once the content file is deleted, [deleteFile] returns
    [true] when there is no sidecar to delete (no metadata folder is known,
    or the search finds nothing) and when the sidecar it finds is deleted;
    an error of the sidecar search or of the sidecar deletion is thrown to
    the caller as [Failed to delete file: ...]. *)
Theorem deleteFile_after_content_deleted fileId (w : World Env) e1 out1 :
  has_token (svc w) = true ->
  serve (env w) (content_delete (svc w) fileId) = (e1, out1) ->
  request_failure out1 = None ->
  let w1 := sent w e1 (content_delete (svc w) fileId) in
  let search := sidecar_search (svc w) (JStr fileId) in
  let failed err : Result bool :=
    Throw (Error ("Failed to delete file: " ++ exn_toString err)) in
  (truthy (metadataFolderId (svc w)) = false ->
   deleteFile Env serve fileId w = (Ok true, w1))
  /\
  (truthy (metadataFolderId (svc w)) = true ->
   forall e2 out2, serve e1 search = (e2, out2) ->
   let w2 := sent w1 e2 search in
   let searchResponse := request_value GET out2 in
   (forall err, request_failure out2 = Some err ->
      deleteFile Env serve fileId w = (failed err, w2))
   /\
   (request_failure out2 = None ->
      (has_files searchResponse = Ok false ->
         deleteFile Env serve fileId w = (Ok true, w2))
      /\
      (forall err, has_files searchResponse = Throw err ->
         deleteFile Env serve fileId w = (failed err, w2))
      /\
      (has_files searchResponse = Ok true ->
         (forall err, first_file_id searchResponse = Throw err ->
            deleteFile Env serve fileId w = (failed err, w2))
         /\
         (forall metadataFileId e3 out3,
            first_file_id searchResponse = Ok metadataFileId ->
            let remove := content_delete (svc w) (js_toString metadataFileId) in
            serve e2 remove = (e3, out3) ->
            deleteFile Env serve fileId w =
              (match request_failure out3 with
               | Some err => failed err
               | None => Ok true
               end, sent w2 e3 remove))))).
Proof.
  intros Htok Hs Hf w1 search failed.
  split.
  - intros Hm.
    unfold deleteFile. enter. rewrite Htok. cbn.
    answer_request Htok Hs. rewrite Hf. cbn.
    rewrite Hm. reflexivity.
  - intros Hm e2 out2 Hs2 w2 searchResponse.
    assert (Hsearch :
      deleteFile Env serve fileId w =
        match request_failure out2 with
        | Some err => (failed err, w2)
        | None =>
            match has_files searchResponse with
            | Throw err => (failed err, w2)
            | Ok false => (Ok true, w2)
            | Ok true =>
                match first_file_id searchResponse with
                | Throw err => (failed err, w2)
                | Ok metadataFileId =>
                    match makeRequest Env serve
                            (FileById (js_toString metadataFileId)) DELETE NoBody w2
                    with
                    | (Ok _, w') => (Ok true, w')
                    | (Throw err, w') => (failed err, w')
                    end
                end
            end
        end).
    { unfold deleteFile. enter. rewrite Htok. cbn.
      answer_request Htok Hs. rewrite Hf. cbn.
      rewrite Hm.
      answer_request Htok Hs2.
      destruct (request_failure out2); [reflexivity|].
      fold searchResponse. destruct (has_files searchResponse) as [[|]|]; try reflexivity.
      destruct (first_file_id searchResponse) as [metadataFileId|]; [|reflexivity].
      change (sent (sent w e1 _) e2 _) with w2.
      destruct (makeRequest Env serve (FileById (js_toString metadataFileId))
                  DELETE NoBody w2) as [[|] ?]; reflexivity. }
    rewrite Hsearch.
    split; [intros err Hf2; rewrite Hf2; reflexivity|].
    intros Hf2. rewrite Hf2.
    split; [intros Hh; rewrite Hh; reflexivity|].
    split; [intros err Hh; rewrite Hh; reflexivity|].
    intros Hh. rewrite Hh.
    split; [intros err Hi; rewrite Hi; reflexivity|].
    intros metadataFileId e3 out3 Hi remove Hs3. rewrite Hi.
    answer_request Htok Hs3.
    destruct (request_failure out3); reflexivity.
Qed.

(** *** Listing *)

(** C7.  With a token that the validation call rejects, [listFiles] fails
    with the session-expired error after that one call; its message differs
    from that of every error [makeRequest] raises for a failed request, and
    from the one raised when the validation call itself cannot be made. *)
Theorem listFiles_session_expired (w : World Env) e' r :
  has_token (svc w) = true ->
  serve (env w) (about_request (svc w)) = (e', Resolves r) ->
  resp_ok r = false ->
  listFiles Env serve w =
    (Throw (Error session_expired_message), sent w e' (about_request (svc w)))
  /\ (forall status text, Error session_expired_message <> api_error status text)
  /\ (forall e, Error session_expired_message
                <> Error ("Error validating token: " ++ exn_toString e))
  /\ Error session_expired_message <> Error "No access token available".
Proof.
  intros Htok Hs Hok. split.
  - unfold listFiles, try_catch, bind, this. cbn. rewrite Htok. cbn.
    unfold validateToken, try_catch, bind, this. cbn. rewrite Htok. cbn.
    rewrite (fetch_run _ _ _ _ Hs). cbn. rewrite Hok. reflexivity.
  - repeat split; intros; discriminate.
Qed.

(** *** Upload *)

(** C3, amended.  An upload above the ceiling returns the size-limit
    failure once the folders are there.  When the documents folder is
    already resolved in the session nothing else happens: no request is sent
    and the service is unchanged.  When it is not, the folder bootstrap runs
    first, and the world is the one it leaves. *)
Theorem uploadFile_too_large file metadata (w w0 : World Env) :
  provisioned Env serve w w0 ->
  MAX_FILE_SIZE < file_size file ->
  uploadFile Env serve clock max_arguments file metadata w =
    (Ok (mkUploadResult false JUndefined JUndefined
           (Some "File size exceeds limit of 100MB")), w0)
  /\ (truthy (docsFolderId (svc w)) = true -> w0 = w).
Proof.
  intros Hprov Hsize. apply Z.ltb_lt in Hsize. unfold provisioned in Hprov.
  unfold uploadFile. enter.
  destruct (truthy (docsFolderId (svc w))); cbn.
  - subst w0. cbn in Hsize. rewrite Hsize. split; reflexivity.
  - rewrite Hprov. cbn. cbn in Hsize. rewrite Hsize. split; [reflexivity|discriminate].
Qed.

Lemma saveMetadata_Ok fileId record (w w' : World Env) metadataId :
  saveMetadata Env serve fileId record w = (Ok metadataId, w') ->
  calls w' = (calls w ++ [sidecar_upload (svc w) fileId record])%list
  /\ svc w' = svc w.
Proof.
  unfold saveMetadata. enter. intros H.
  destruct (truthy (metadataFolderId (svc w))); cbn in H; [|discriminate].
  unfold fetch in H.
  destruct (serve (env w) (sidecar_upload (svc w) fileId record)) as [e' [resp|e]];
    [|discriminate].
  destruct (resp_ok resp); cbn in H; [|discriminate].
  destruct (resp_json resp) as [result|]; cbn in H; [|discriminate].
  destruct (js_get result "id"); inversion H; subst. cbn. split; reflexivity.
Qed.

Lemma now_run (w : World Env) :
  exists t e', now Env clock w = (Ok t, mkWorld (svc w) e' (calls w)).
Proof.
  unfold now. destruct (clock (env w)) as [e' t]. eauto.
Qed.

(** What a successful [afterUpload] has done: the response carried a truthy
    [id], which is the result's [fileId], and the last request sent is the
    write of the sidecar made for that identifier. *)
Lemma afterUpload_Ok file metadata resp (w w' : World Env) r :
  afterUpload Env serve clock file metadata resp w = (Ok r, w') ->
  exists uploadedFile created modified,
    resp_json resp = Ok uploadedFile
    /\ js_get uploadedFile "id" = Ok (fileId r)
    /\ truthy (fileId r) = true
    /\ success r = true /\ error r = None
    /\ calls w' =
         (calls w ++ [sidecar_upload (svc w) (fileId r)
                        (fileMetadataObj (fileId r) file metadata created modified)])%list
    /\ svc w' = svc w.
Proof.
  unfold afterUpload. enter. intros H.
  destruct (resp_ok resp); cbn in H; [|discriminate].
  destruct (resp_json resp) as [uploadedFile|]; cbn in H; [|discriminate].
  destruct (js_get uploadedFile "id") as [id|] eqn:Hid; cbn in H; [|discriminate].
  destruct (truthy id) eqn:Htruthy; cbn in H; [|discriminate].
  destruct (now_run w) as (created & e1 & Hc). rewrite Hc in H. cbn in H.
  destruct (now_run (mkWorld (svc w) e1 (calls w))) as (modified & e2 & Hm).
  rewrite Hm in H. cbn in H.
  destruct (saveMetadata Env serve id _ _) as [[metadataId|] w2] eqn:Hsave;
    inversion H; subst; clear H.
  apply saveMetadata_Ok in Hsave. destruct Hsave as [Hcalls Hsvc].
  exists uploadedFile, created, modified. cbn. auto 10.
Qed.

(** What [uploadFile] has done when it returns: either the file is above
    the ceiling and the result is the size-limit failure, or the content was
    uploaded, the provider gave it an identifier, and the sidecar for that
    identifier was written; these two requests are the last two sent. *)
Lemma uploadFile_Ok file metadata (w w' : World Env) r :
  uploadFile Env serve clock max_arguments file metadata w = (Ok r, w') ->
  (MAX_FILE_SIZE < file_size file
   /\ r = mkUploadResult false JUndefined JUndefined (Some size_limit_message))
  \/
  (exists w0 part e1 resp uploadedFile created modified,
     provisioned Env serve w w0
     /\ file_size file <= MAX_FILE_SIZE
     /\ serve (env w0) (content_upload (svc w0) file metadata part) = (e1, Resolves resp)
     /\ resp_json resp = Ok uploadedFile
     /\ js_get uploadedFile "id" = Ok (fileId r)
     /\ truthy (fileId r) = true
     /\ success r = true /\ error r = None
     /\ calls w' =
          (calls w0 ++ [content_upload (svc w0) file metadata part;
                        sidecar_upload (svc w0) (fileId r)
                          (fileMetadataObj (fileId r) file metadata created modified)])%list
     /\ svc w' = svc w0).
Proof.
  unfold uploadFile, try_catch.
  match goal with |- context [bind ?E ?m ?k w] =>
    destruct (bind E m k w) as [[r0|e0] w1] eqn:Hbody end; [|discriminate].
  intros H; inversion H; subst r0 w1; clear H.
  assert (Hprov : exists w0, provisioned Env serve w w0 /\
    (if MAX_FILE_SIZE <? file_size file
     then ret Env (mkUploadResult false JUndefined JUndefined (Some size_limit_message))
     else bind Env (this Env) (fun s =>
       match file_source file with
       | NativeUri uri =>
           bind Env (fetch Env serve (content_upload s file metadata
                      (NativeFile uri (file_name file) (file_type file))))
                (afterUpload Env serve clock file metadata)
       | WebFile buffer =>
           bind Env (lift Env buffer) (fun fileBytes =>
           bind Env (lift Env (fromCharCode_apply max_arguments fileBytes)) (fun bytes =>
           bind Env (fetch Env serve (content_upload s file metadata (RawBytes bytes)))
                (afterUpload Env serve clock file metadata)))
       end)) w0 = (Ok r, w')).
  { unfold provisioned. revert Hbody. enter.
    destruct (truthy (docsFolderId (svc w))); cbn.
    - intros Hbody. exists w. split; [reflexivity|exact Hbody].
    - destruct (initializeFolderStructure Env serve w) as [[[|]|] w0]; cbn;
        try discriminate.
      intros Hbody. exists w0. split; [reflexivity|exact Hbody]. }
  destruct Hprov as (w0 & Hprov & Hrest).
  destruct (MAX_FILE_SIZE <? file_size file) eqn:Hsize.
  - left. apply Z.ltb_lt in Hsize. inversion Hrest. auto.
  - right. apply Z.ltb_ge in Hsize. revert Hrest. enter.
    assert (Hfetch : forall part,
      (let (r1, w1) := fetch Env serve (content_upload (svc w0) file metadata part) w0 in
       match r1 with
       | Ok a => afterUpload Env serve clock file metadata a w1
       | Throw e => (Throw e, w1)
       end) = (Ok r, w') ->
      exists e1 resp uploadedFile created modified,
        serve (env w0) (content_upload (svc w0) file metadata part) = (e1, Resolves resp)
        /\ resp_json resp = Ok uploadedFile
        /\ js_get uploadedFile "id" = Ok (fileId r)
        /\ truthy (fileId r) = true
        /\ success r = true /\ error r = None
        /\ calls w' =
             (calls w0 ++ [content_upload (svc w0) file metadata part;
                           sidecar_upload (svc w0) (fileId r)
                             (fileMetadataObj (fileId r) file metadata created modified)])%list
        /\ svc w' = svc w0).
    { intros part. unfold fetch.
      destruct (serve (env w0) (content_upload (svc w0) file metadata part))
        as [e1 [resp|e]]; [|discriminate].
      intros Hafter. apply afterUpload_Ok in Hafter.
      destruct Hafter as (uploadedFile & created & modified & H1 & H2 & H3 & H4 & H5 & H6 & H7).
      exists e1, resp, uploadedFile, created, modified. cbn in H6, H7.
      rewrite <- app_assoc in H6. cbn in H6. auto 10. }
    destruct (file_source file) as [[fileBytes|e]|uri]; cbn; try discriminate.
    + destruct (fromCharCode_apply max_arguments fileBytes) as [bytes|e]; cbn;
        try discriminate.
      intros Hrest. destruct (Hfetch _ Hrest) as (e1 & resp & u & c & m & Hall).
      exists w0, (RawBytes bytes), e1, resp, u, c, m. auto.
    + intros Hrest. destruct (Hfetch _ Hrest) as (e1 & resp & u & c & m & Hall).
      exists w0, (NativeFile uri (file_name file) (file_type file)), e1, resp, u, c, m.
      auto.
Qed.

(** C1, amended.  [uploadFile] reports one failure as a result: a file
    above the ceiling gives [success: false] with the size-limit message.
    A result with [success: true] carries the new file's identifier and no
    error.  Every other way out is an exception thrown to the caller, an
    [Error] whose message starts with [Upload failed: ]. *)
Theorem uploadFile_outcomes file metadata (w : World Env) :
  match fst (uploadFile Env serve clock max_arguments file metadata w) with
  | Ok r =>
      (success r = true /\ truthy (fileId r) = true /\ error r = None)
      \/ (success r = false
          /\ error r = Some "File size exceeds limit of 100MB"
          /\ MAX_FILE_SIZE < file_size file)
  | Throw e => exists detail, e = Error ("Upload failed: " ++ detail)
  end.
Proof.
  destruct (uploadFile Env serve clock max_arguments file metadata w) as [[r|e] w'] eqn:Hup; cbn.
  - apply uploadFile_Ok in Hup.
    destruct Hup as [[Hsize Hr] | (w0 & part & e1 & resp & u & c & m & Hall)].
    + right. subst r. cbn. auto.
    + left. tauto.
  - revert Hup. unfold uploadFile, try_catch.
    match goal with |- context [bind ?E ?m ?k w] =>
      destruct (bind E m k w) as [[r0|e0] w1] end; [discriminate|].
    unfold throw. intros H; inversion H. eauto.
Qed.

(** C10.  When the metadata carry a document name that is not the file's
    own name, a successful upload has sent the content with the document
    name as its name and the documents folder as its parent, and has then
    written a sidecar whose [name] is the file's own name: the two names
    differ. *)
Theorem uploadFile_documentName file metadata (w w' : World Env) r documentName :
  obj_get metadata "documentName" = JStr documentName ->
  documentName <> "" ->
  documentName <> file_name file ->
  uploadFile Env serve clock max_arguments file metadata w = (Ok r, w') ->
  success r = true ->
  exists w0 part created modified,
    let content := fileMetadata (svc w0) file metadata in
    let record := fileMetadataObj (fileId r) file metadata created modified in
    provisioned Env serve w w0
    /\ calls w' = (calls w0 ++ [ mkRequest UploadMultipart POST (bearer (svc w0))
                                    (Multipart content part);
                                  sidecar_upload (svc w0) (fileId r) record ])%list
    /\ js_get content "name" = Ok (JStr documentName)
    /\ js_get content "parents" = Ok (JArr [docsFolderId (svc w0)])
    /\ js_get record "name" = Ok (JStr (file_name file))
    /\ js_get content "name" <> js_get record "name".
Proof.
  intros Hname Hne Hdiff Hup Hsucc.
  apply uploadFile_Ok in Hup.
  destruct Hup as [[_ Hr] | (w0 & part & e1 & resp & u & c & m & Hp & _ & _ & _
                              & _ & _ & _ & _ & Hcalls & _)].
  { subst r. discriminate. }
  exists w0, part, c, m. cbn.
  assert (Htr : truthy (JStr documentName) = true).
  { cbn. destruct (String.eqb_spec documentName ""); [contradiction|reflexivity]. }
  unfold js_or. rewrite Hname, Htr.
  repeat split; try assumption.
  intros Heq. inversion Heq. contradiction.
Qed.

(** *** Listing: fallback records *)

Lemma js_get_prop v k : nullish v = false -> js_get v k = Ok (js_prop v k).
Proof.
  unfold js_prop. destruct v; cbn; try discriminate; intros _;
    try reflexivity; destruct (String.eqb k "length"); reflexivity.
Qed.

Lemma view_url_run file :
  nullish file = false ->
  view_url file =
    Ok (js_or (js_prop file "webViewLink")
              (JStr ("https://drive.google.com/file/d/"
                     ++ js_toString (js_prop file "id") ++ "/view"))).
Proof.
  intros Hn. unfold view_url, js_or. rewrite !(js_get_prop _ _ Hn). cbn.
  destruct (truthy (js_prop file "webViewLink")); reflexivity.
Qed.

Lemma fallbackMetadata_run file :
  nullish file = false -> fallbackMetadata file = Ok (fallback_record file).
Proof.
  intros Hn. unfold fallbackMetadata.
  rewrite !(js_get_prop _ _ Hn), (view_url_run _ Hn). reflexivity.
Qed.

(** One turn of the loop never throws, and the only requests it sends are
    those of the sidecar read. *)
Lemma processFile_total file (w : World Env) :
  nullish file = false ->
  exists pushed,
    processFile Env serve file w =
      (Ok pushed, snd (getFileMetadata Env serve (js_prop file "id") w)).
Proof.
  intros Hn. unfold processFile. enter.
  rewrite (js_get_prop _ _ Hn). cbn.
  destruct (getFileMetadata Env serve (js_prop file "id") w) as [[metadata|e] w1]; cbn.
  - destruct (truthy metadata); cbn.
    + rewrite (view_url_run _ Hn). cbn.
      destruct (js_set metadata "fileUrl" _); cbn; eauto.
      rewrite (fallbackMetadata_run _ Hn). eauto.
    + rewrite (fallbackMetadata_run _ Hn). eauto.
  - rewrite (fallbackMetadata_run _ Hn). eauto.
Qed.

Lemma processFile_fallback file (w : World Env) :
  nullish file = false ->
  sidecar_unavailable Env serve file w ->
  processFile Env serve file w =
    (Ok (fallback_record file), snd (getFileMetadata Env serve (js_prop file "id") w)).
Proof.
  intros Hn. unfold sidecar_unavailable, processFile. enter.
  rewrite (js_get_prop _ _ Hn). cbn.
  destruct (getFileMetadata Env serve (js_prop file "id") w) as [[metadata|e] w1]; cbn.
  - intros Hm. rewrite Hm. cbn. rewrite (fallbackMetadata_run _ Hn). reflexivity.
  - intros _. rewrite (fallbackMetadata_run _ Hn). reflexivity.
Qed.

(** A sidecar that is found is pushed as it is, with [fileUrl] added. *)
Lemma processFile_found file (w w1 : World Env) fields :
  nullish file = false ->
  getFileMetadata Env serve (js_prop file "id") w = (Ok (JObj fields), w1) ->
  processFile Env serve file w =
    (Ok (JObj (obj_set fields "fileUrl"
                 (js_or (js_prop file "webViewLink")
                        (JStr ("https://drive.google.com/file/d/"
                               ++ js_toString (js_prop file "id") ++ "/view"))))),
     w1).
Proof.
  intros Hn Hget. unfold processFile. enter.
  rewrite (js_get_prop _ _ Hn). cbn. rewrite Hget. cbn.
  rewrite (view_url_run _ Hn). reflexivity.
Qed.

Lemma forEachFile_run entries : forall files (w : World Env),
  forallb (fun file => negb (nullish file)) entries = true ->
  exists pushed,
    forEachFile Env serve entries files w
    = (Ok (files ++ pushed)%list, worldAfter Env serve entries w)
    /\ List.length pushed = List.length entries
    /\ forall i file, nth_error entries i = Some file ->
         exists record,
           nth_error pushed i = Some record
           /\ fst (processFile Env serve file (worldAfter Env serve (firstn i entries) w))
              = Ok record.
Proof.
  induction entries as [|file rest IH]; intros files w Hall.
  - exists []. cbn. rewrite app_nil_r. repeat split.
    intros [|i] f; discriminate.
  - cbn in Hall. apply andb_prop in Hall. destruct Hall as [Hn Hrest].
    apply negb_true_iff in Hn.
    destruct (processFile_total file w Hn) as (record & Hrec).
    cbn. unfold bind at 1. rewrite Hrec.
    destruct (IH (files ++ [record])%list
                 (snd (getFileMetadata Env serve (js_prop file "id") w)) Hrest)
      as (pushed & Hloop & Hlen & Hnth).
    exists (record :: pushed). rewrite Hloop. cbn.
    rewrite <- app_assoc. cbn. repeat split.
    + now rewrite Hlen.
    + intros [|i] f Hf; cbn in *.
      * inversion Hf; subst f. exists record. rewrite Hrec. auto.
      * rewrite Hrec. cbn. apply Hnth. exact Hf.
Qed.

(** The fallback paths of the listing.  A listing whose token is valid and
    whose enumeration request
    returns the content files [entries] returns one record per content file,
    in the order of [entries]: the record at a position is the one the loop
    makes for the file at that position.  Nothing a sidecar read does makes
    the listing throw.  For a file whose sidecar read returns nothing or
    throws when its turn comes, the record is the fallback record: the
    file's native
    attributes, an empty description, no tags, the category [others], and
    as [fileUrl] the provider's view link or else the constructed URL. *)
Theorem listFiles_fallback (w w2 : World Env) e1 r1 e3 out3 entries :
  has_token (svc w) = true ->
  serve (env w) (about_request (svc w)) = (e1, Resolves r1) ->
  resp_ok r1 = true ->
  provisioned Env serve (sent w e1 (about_request (svc w))) w2 ->
  serve (env w2) (list_request (svc w2)) = (e3, out3) ->
  request_failure out3 = None ->
  js_get (request_value GET out3) "files" = Ok (JArr entries) ->
  forallb (fun file => negb (nullish file)) entries = true ->
  let w3 := sent w2 e3 (list_request (svc w2)) in
  exists records,
    listFiles Env serve w = (Ok records, worldAfter Env serve entries w3)
    /\ List.length records = List.length entries
    /\ forall i file, nth_error entries i = Some file ->
         let wi := worldAfter Env serve (firstn i entries) w3 in
         exists record,
           nth_error records i = Some record
           /\ fst (processFile Env serve file wi) = Ok record
           /\ (sidecar_unavailable Env serve file wi ->
               record = fallback_record file
               /\ js_get record "id" = Ok (js_prop file "id")
               /\ js_get record "description" = Ok (JStr "")
               /\ js_get record "tags" = Ok (JArr [])
               /\ js_get record "category" = Ok (JStr "others")
               /\ js_get record "fileUrl" =
                    Ok (js_or (js_prop file "webViewLink")
                              (JStr ("https://drive.google.com/file/d/"
                                     ++ js_toString (js_prop file "id") ++ "/view")))).
Proof.
  intros Htok Hs1 Hok1 Hprov Hs3 Hf3 Hfiles Hall w3.
  destruct (forEachFile_run entries [] w3 Hall) as (records & Hloop & Hlen & Hnth).
  exists records. split; [|split; [exact Hlen|]].
  - assert (Htok2 : has_token (svc w2) = true).
    { unfold provisioned in Hprov. cbn in Hprov.
      destruct (truthy (docsFolderId (svc w))).
      - subst w2. exact Htok.
      - pose proof (initializeFolderStructure_token
                      (sent w e1 (about_request (svc w)))) as Hinit.
        rewrite Hprov in Hinit. cbn in Hinit.
        unfold has_token in *. rewrite Hinit. exact Htok. }
    unfold listFiles. enter. rewrite Htok. cbn.
    unfold validateToken. enter. rewrite Htok. cbn.
    answer_fetch Hs1. cbn. rewrite Hok1. cbn.
    unfold provisioned in Hprov. cbn in Hprov.
    destruct (truthy (docsFolderId (svc w))); cbn.
    + subst w2. answer_request Htok2 Hs3. rewrite Hf3. cbn.
      rewrite Hfiles. cbn.
      change (sent (sent w e1 _) e3 _) with w3. rewrite Hloop. reflexivity.
    + rewrite Hprov. cbn. answer_request Htok2 Hs3. rewrite Hf3. cbn.
      rewrite Hfiles. cbn.
      change (sent w2 e3 _) with w3. rewrite Hloop. reflexivity.
  - intros i file Hi wi. destruct (Hnth i file Hi) as (record & Hrec & Hproc).
    exists record. split; [exact Hrec|split; [exact Hproc|]].
    intros Hun.
    assert (Hn : nullish file = false).
    { apply nth_error_In in Hi. rewrite forallb_forall in Hall.
      apply Hall in Hi. now apply negb_true_iff in Hi. }
    subst wi.
    rewrite (processFile_fallback file _ Hn Hun) in Hproc.
    cbn in Hproc. inversion Hproc. subst record.
    repeat split.
Qed.

(** *** Metadata update *)

Lemma obj_get_set_same o k v : obj_get (obj_set o k v) k = v.
Proof.
  induction o as [|[k' v'] o IH]; cbn.
  - now rewrite String.eqb_refl.
  - destruct (String.eqb k' k) eqn:E; cbn; rewrite E; auto.
Qed.

Lemma obj_get_set_other o k v k' :
  k <> k' -> obj_get (obj_set o k v) k' = obj_get o k'.
Proof.
  intros Hne. induction o as [|[k0 v0] o IH]; cbn.
  - destruct (String.eqb_spec k k'); [contradiction|reflexivity].
  - destruct (String.eqb_spec k0 k); cbn.
    + subst k0. destruct (String.eqb_spec k k'); [contradiction|reflexivity].
    + destruct (String.eqb k0 k'); auto.
Qed.

(** A key that [b] does not have keeps the value it has in [a]. *)
Lemma obj_get_spread_absent b : forall a k,
  obj_has b k = false -> obj_get (obj_spread a b) k = obj_get a k.
Proof.
  unfold obj_spread.
  induction b as [|[k' v'] b IH]; intros a k Hk; cbn in *; [reflexivity|].
  destruct (String.eqb_spec k' k); [discriminate|].
  rewrite IH by exact Hk. now apply obj_get_set_other.
Qed.

(** A property of [b] is, in the spread, as in [b]. *)
Lemma obj_get_spread_present b : forall a k v,
  NoDup (map fst b) -> In (k, v) b -> obj_get (obj_spread a b) k = v.
Proof.
  unfold obj_spread.
  induction b as [|[k' v'] b IH]; intros a k v Hnd Hin; cbn in *; [contradiction|].
  inversion Hnd as [|? ? Hnotin Hnd']; subst.
  destruct Hin as [Heq|Hin].
  - inversion Heq; subst.
    assert (Hk : obj_has b k = false).
    { clear -Hnotin. induction b as [|[k0 v0] b IH]; cbn in *; [reflexivity|].
      destruct (String.eqb_spec k0 k); [subst; tauto|]. apply IH. tauto. }
    pose proof (obj_get_spread_absent b (obj_set a k v) k Hk) as H.
    unfold obj_spread in H. rewrite H. apply obj_get_set_same.
  - now apply IH.
Qed.

Lemma truthy_not_nullish v : truthy v = true -> nullish v = false.
Proof. destruct v; cbn; congruence. Qed.

Lemma getFileMetadata_svc fileId (w : World Env) :
  svc (snd (getFileMetadata Env serve fileId w)) = svc w.
Proof.
  unfold getFileMetadata. enter.
  destruct (truthy (metadataFolderId (svc w))); cbn; [|reflexivity].
  repeat
    match goal with
    | |- context [makeRequest _ _ ?u ?m ?b ?x] =>
        let H := fresh "Hsvc" in
        pose proof (makeRequest_svc u m b x) as H;
        destruct (makeRequest Env serve u m b x) as [[? | ?] ?];
        cbn in *
    | |- context [match no_files ?x with _ => _ end] =>
        destruct (no_files x) as [[|]|]; cbn
    | |- context [match first_file_id ?x with _ => _ end] =>
        destruct (first_file_id x); cbn
    end;
  congruence.
Qed.


(** The rename step never throws.  It sends the rename request when the
    name is being updated, and nothing otherwise. *)
Lemma renameContentFile_run fileId metadata existing (w : World Env) :
  has_token (svc w) = true ->
  truthy existing = true ->
  let name := obj_get metadata "name" in
  let renaming := truthy name && js_strict_neq name (js_prop existing "name") in
  exists w',
    renameContentFile Env serve fileId metadata existing w = (Ok tt, w')
    /\ svc w' = svc w
    /\ calls w' =
         (calls w ++ if renaming then [rename_request (svc w) fileId name] else [])%list.
Proof.
  intros Htok Hex name renaming.
  unfold renameContentFile, name_is_updated. enter. fold name.
  rewrite (js_get_prop _ "name" (truthy_not_nullish _ Hex)).
  subst renaming. destruct (truthy name); cbn.
  - destruct (js_strict_neq name (js_prop existing "name")); cbn.
    + unfold updateFileName. enter.
      destruct (serve (env w) (rename_request (svc w) fileId name)) as [e' out] eqn:Hs.
      answer_request Htok Hs.
      exists (sent w e' (rename_request (svc w) fileId name)).
      destruct (request_failure out); cbn; repeat split.
    + exists w. rewrite app_nil_r. repeat split.
  - exists w. rewrite app_nil_r. repeat split.
Qed.

(** When the replacement of the sidecar succeeds, the last request sent is
    the write of the merged record, stamped with the time read from the clock
    at the start of the step. *)
Lemma replaceSidecar_Ok fileId metadata existing (w w' : World Env) b :
  replaceSidecar Env serve clock fileId metadata existing w = (Ok b, w') ->
  b = true
  /\ exists before,
       calls w' =
         (before ++ [sidecar_upload (svc w) (JStr fileId)
                       (updatedMetadata existing metadata (snd (clock (env w))))])%list.
Proof.
  unfold replaceSidecar. enter. unfold now.
  destruct (clock (env w)) as [e0 modified]. cbn.
  set (w0 := mkWorld (svc w) e0 (calls w)).
  pose proof (makeRequest_svc
    (FilesQuery (sidecar_query (svc w) (JStr fileId)) "files(id,name)") GET NoBody w0) as H1.
  destruct (makeRequest Env serve _ GET NoBody w0) as [[searchResponse|e] w1];
    cbn in *; [|discriminate].
  destruct (has_files searchResponse) as [[|]|]; cbn; try discriminate.
  - destruct (first_file_id searchResponse) as [old|]; cbn; [|discriminate].
    pose proof (makeRequest_svc (FileById (js_toString old)) DELETE NoBody w1) as H2.
    destruct (makeRequest Env serve _ DELETE NoBody w1) as [[?|?] w2];
      cbn in *; [|discriminate].
    unfold fetch. rewrite H2, H1.
    destruct (serve (env w2) _) as [e3 [resp|?]]; [|discriminate].
    destruct (resp_ok resp); cbn; [|discriminate].
    intros H; inversion H; subst. cbn. eauto.
  - unfold fetch. rewrite H1.
    destruct (serve (env w1) _) as [e3 [resp|?]]; [|discriminate].
    destruct (resp_ok resp); cbn; [|discriminate].
    intros H; inversion H; subst. cbn. eauto.
Qed.

(** The shape of an update once the existing record is read. *)
Lemma updateMetadata_run fileId metadata (w w1 : World Env) existing :
  has_token (svc w) = true ->
  truthy (metadataFolderId (svc w)) = true ->
  getFileMetadata Env serve (JStr fileId) w = (Ok existing, w1) ->
  truthy existing = true ->
  exists w2,
    renameContentFile Env serve fileId metadata existing w1 = (Ok tt, w2)
    /\ svc w2 = svc w
    /\ updateMetadata Env serve clock fileId metadata w =
         try_catch Env (replaceSidecar Env serve clock fileId metadata existing)
           (fun error =>
              throw Env (Error ("Failed to update metadata: " ++ exn_toString error)))
           w2.
Proof.
  intros Htok Hm Hget Hex.
  pose proof (getFileMetadata_svc (JStr fileId) w) as Hsvc.
  rewrite Hget in Hsvc. cbn in Hsvc.
  assert (Htok1 : has_token (svc w1) = true) by (rewrite Hsvc; exact Htok).
  destruct (renameContentFile_run fileId metadata existing w1 Htok1 Hex)
    as (w2 & Hren & Hsvc2 & _).
  exists w2. split; [exact Hren|]. split; [congruence|].
  unfold updateMetadata. enter. rewrite Hm. cbn. rewrite Hget. cbn.
  rewrite Hex. cbn. rewrite Hren. reflexivity.
Qed.

(** An update that has read a record: the rename step, and what is then
    written. *)
Lemma updateMetadata_found fileId metadata (w w1 : World Env) existing :
  has_token (svc w) = true ->
  truthy (metadataFolderId (svc w)) = true ->
  getFileMetadata Env serve (JStr fileId) w = (Ok existing, w1) ->
  truthy existing = true ->
  let failed error : M Env bool :=
    throw Env (Error ("Failed to update metadata: " ++ exn_toString error)) in
  let name := obj_get metadata "name" in
  let renaming := truthy name && js_strict_neq name (js_prop existing "name") in
  exists w2,
    renameContentFile Env serve fileId metadata existing w1 = (Ok tt, w2)
    /\ calls w2 =
         (calls w1 ++ if renaming then [rename_request (svc w) fileId name] else [])%list
    /\ let modified := snd (clock (env w2)) in
       let updated := updatedMetadata existing metadata modified in
       updateMetadata Env serve clock fileId metadata w =
         try_catch Env (replaceSidecar Env serve clock fileId metadata existing) failed w2
       /\ (forall b w', updateMetadata Env serve clock fileId metadata w = (Ok b, w') ->
             b = true
             /\ exists before,
                  calls w' = (before ++ [sidecar_upload (svc w) (JStr fileId) updated])%list)
       /\ js_get updated "modifiedTime" = Ok (JStr modified)
       /\ (forall k, k <> "modifiedTime" -> obj_has metadata k = false ->
             js_get updated k = Ok (obj_get (js_own_fields existing) k))
       /\ (NoDup (map fst metadata) ->
           forall k v, k <> "modifiedTime" -> In (k, v) metadata ->
             js_get updated k = Ok v).
Proof.
  intros Htok Hm Hget Hex failed name renaming.
  pose proof (getFileMetadata_svc (JStr fileId) w) as Hsvc.
  rewrite Hget in Hsvc. cbn in Hsvc.
  assert (Htok1 : has_token (svc w1) = true) by (rewrite Hsvc; exact Htok).
  destruct (renameContentFile_run fileId metadata existing w1 Htok1 Hex)
    as (w2 & Hren & Hsvc2 & Hcalls).
  destruct (updateMetadata_run fileId metadata w w1 existing Htok Hm Hget Hex)
    as (w2' & Hren' & _ & Hrun).
  rewrite Hren in Hren'. inversion Hren'; subst w2'.
  exists w2. split; [exact Hren|]. split; [rewrite Hcalls, Hsvc; reflexivity|].
  intros modified updated.
  split; [exact Hrun|]. split; [|split; [|split]].
  - intros b w' Hup. rewrite Hrun in Hup. unfold try_catch in Hup.
    destruct (replaceSidecar Env serve clock fileId metadata existing w2)
      as [[b0|e0] w0] eqn:Hrep; [|discriminate].
    inversion Hup; subst b0 w0.
    apply replaceSidecar_Ok in Hrep. destruct Hrep as (Hb & before & Hlast).
    split; [exact Hb|]. exists before. rewrite Hlast, Hsvc2, Hsvc. reflexivity.
  - cbn. now rewrite obj_get_set_same.
  - intros k Hk Habs. cbn.
    rewrite obj_get_set_other by congruence.
    now rewrite obj_get_spread_absent.
  - intros Hnd k v Hk Hin. cbn.
    rewrite obj_get_set_other by congruence.
    now rewrite (obj_get_spread_present metadata _ k v Hnd Hin).
Qed.


(** C4, amended.  The record that an upload writes has as [id] the
    identifier the provider gave the content file, which is also the
    [fileId] of the result.  The fallback record of a listing has the [id]
    of the content file; a sidecar that is found is listed with the [id] it
    stores.  An update writes back the [id] of the existing record when the
    metadata given have no [id] (an [id] among them replaces it). *)
Theorem record_id_preserved :
  (forall file metadata (w w' : World Env) r,
     uploadFile Env serve clock max_arguments file metadata w = (Ok r, w') ->
     success r = true ->
     exists w0 part e1 resp uploadedFile record before,
       serve (env w0) (content_upload (svc w0) file metadata part) = (e1, Resolves resp)
       /\ resp_json resp = Ok uploadedFile
       /\ js_get uploadedFile "id" = Ok (fileId r)
       /\ calls w' = (before ++ [sidecar_upload (svc w0) (fileId r) record])%list
       /\ js_get record "id" = Ok (fileId r))
  /\
  (forall file (w : World Env),
     nullish file = false ->
     sidecar_unavailable Env serve file w ->
     exists record,
       fst (processFile Env serve file w) = Ok record
       /\ js_get record "id" = Ok (js_prop file "id"))
  /\
  (forall file (w w1 : World Env) fields,
     nullish file = false ->
     getFileMetadata Env serve (js_prop file "id") w = (Ok (JObj fields), w1) ->
     exists record,
       fst (processFile Env serve file w) = Ok record
       /\ js_get record "id" = Ok (obj_get fields "id"))
  /\
  (forall fileId metadata (w w1 w' : World Env) fields b,
     has_token (svc w) = true ->
     getFileMetadata Env serve (JStr fileId) w = (Ok (JObj fields), w1) ->
     updateMetadata Env serve clock fileId metadata w = (Ok b, w') ->
     obj_has metadata "id" = false ->
     exists record before,
       calls w' = (before ++ [sidecar_upload (svc w) (JStr fileId) record])%list
       /\ js_get record "id" = Ok (obj_get fields "id")).
Proof.
  split; [|split; [|split]].
  - intros file metadata w w' r Hup Hsucc.
    apply uploadFile_Ok in Hup.
    destruct Hup as [[_ Hr] | (w0 & part & e1 & resp & u & c & m & _ & _ & Hs & Hj & Hid
                                & _ & _ & _ & Hcalls & _)].
    { subst r. discriminate. }
    exists w0, part, e1, resp, u, (fileMetadataObj (fileId r) file metadata c m),
      (calls w0 ++ [content_upload (svc w0) file metadata part])%list.
    rewrite <- app_assoc. cbn. auto.
  - intros file w Hn Hun. exists (fallback_record file).
    rewrite (processFile_fallback file w Hn Hun). split; reflexivity.
  - intros file w w1 fields Hn Hget.
    rewrite (processFile_found file w w1 fields Hn Hget). cbn.
    eexists. split; [reflexivity|]. cbn.
    rewrite obj_get_set_other by discriminate. reflexivity.
  - intros fileId metadata w w1 w' fields b Htok Hget Hup Hid.
    assert (Hm : truthy (metadataFolderId (svc w)) = true).
    { revert Hup. unfold updateMetadata. enter.
      destruct (truthy (metadataFolderId (svc w))); [reflexivity|discriminate]. }
    destruct (updateMetadata_found fileId metadata w w1 (JObj fields) Htok Hm Hget eq_refl)
      as (w2 & _ & _ & _ & Hwritten & _ & Hkeep & _).
    destruct (Hwritten b w' Hup) as (_ & before & Hcalls).
    eexists. exists before. split; [exact Hcalls|].
    apply Hkeep; [discriminate|exact Hid].
Qed.

End Properties.

(** ** The folder bootstrap against the provider *)

Module DriveProofs.
Import Drive.

Ltac drive_answers new_id Htok Hs :=
  match goal with
  | |- context [makeRequest _ _ ?u ?m ?b ?w] =>
      let Hr := fresh "Hr" in
      pose proof (makeRequest_run Drive.Env (serve new_id) u m b w _ _ Htok Hs) as Hr;
      rewrite Hr; clear Hr
  end.

Section Bootstrap.

Variable new_id : list DriveFile -> string.

Lemma findOrCreateFolder_drive name parent (w : World Drive.Env) :
  has_token (svc w) = true ->
  findOrCreateFolder Drive.Env (serve new_id) name parent w =
    (Ok (fst (ensure new_id name parent (files (env w)))),
     mkWorld (svc w)
             (mkEnv (snd (ensure new_id name parent (files (env w)))) (millis (env w)))
             (calls w ++ ensure_calls (svc w) name parent (files (env w)))%list).
Proof.
  intros Htok. unfold findOrCreateFolder, ensure, ensure_calls. enter.
  assert (Hs : serve new_id (env w) (folder_search (svc w) name parent) =
    (env w, json_ok (JObj [("files",
       JArr (map entry (filter (matches (folder_query name parent)) (files (env w)))))])))
    by reflexivity.
  drive_answers new_id Htok Hs. cbn.
  destruct (filter (matches (folder_query name parent)) (files (env w))) as [|f l]; cbn.
  - assert (Hc : serve new_id (env (sent w (env w) (folder_search (svc w) name parent)))
                   (folder_create (svc w) name parent) =
      (mkEnv (files (env w) ++ [created new_id (folderMetadata name parent) (files (env w))])%list
             (millis (env w)),
       json_ok (entry (created new_id (folderMetadata name parent) (files (env w))))))
      by reflexivity.
    drive_answers new_id Htok Hc. cbn.
    unfold sent. cbn. rewrite <- app_assoc. reflexivity.
  - unfold sent. destruct w as [s [fs ms] cs]. reflexivity.
Qed.

Lemma created_matches name parent fs :
  matches (folder_query name parent) (created new_id (folderMetadata name parent) fs)
  = true.
Proof.
  unfold matches, selects, created, folder_query, folderMetadata.
  destruct (truthy parent); cbn; rewrite String.eqb_refl; reflexivity.
Qed.

(** After [ensure], the search finds the folder [ensure] returned, also
    when objects that the query does not select were added since. *)
Lemma ensure_head name parent fs extra :
  forallb (fun f => negb (matches (folder_query name parent) f)) extra = true ->
  exists f l,
    filter (matches (folder_query name parent)) (snd (ensure new_id name parent fs) ++ extra)
    = f :: l
    /\ JStr (df_id f) = fst (ensure new_id name parent fs).
Proof.
  intros Hextra.
  assert (Hnone : filter (matches (folder_query name parent)) extra = []).
  { induction extra as [|x extra IH]; cbn in *; [reflexivity|].
    apply andb_prop in Hextra. destruct Hextra as [Hx Hrest].
    apply negb_true_iff in Hx. rewrite Hx. auto. }
  unfold ensure.
  destruct (filter (matches (folder_query name parent)) fs) as [|f l] eqn:Hfs;
    cbn [fst snd].
  - rewrite !filter_app, Hfs, Hnone. cbn [filter app].
    rewrite created_matches. cbn [app]. eauto.
  - rewrite filter_app, Hfs, Hnone. rewrite app_nil_r. eauto.
Qed.

Lemma ensure_again name parent fs extra :
  forallb (fun f => negb (matches (folder_query name parent) f)) extra = true ->
  ensure new_id name parent (snd (ensure new_id name parent fs) ++ extra)
  = (fst (ensure new_id name parent fs), (snd (ensure new_id name parent fs) ++ extra)%list).
Proof.
  intros Hextra. destruct (ensure_head name parent fs extra Hextra) as (f & l & Hf & Hid).
  unfold ensure at 1. rewrite Hf, Hid. reflexivity.
Qed.

Lemma ensure_calls_again s name parent fs extra :
  forallb (fun f => negb (matches (folder_query name parent) f)) extra = true ->
  ensure_calls s name parent (snd (ensure new_id name parent fs) ++ extra)
  = [folder_search s name parent].
Proof.
  intros Hextra. destruct (ensure_head name parent fs extra Hextra) as (f & l & Hf & _).
  unfold ensure_calls. rewrite Hf. reflexivity.
Qed.

(** [ensure] adds at most one object, and it has the name asked for. *)
Lemma ensure_extends name parent fs :
  exists extra,
    snd (ensure new_id name parent fs) = (fs ++ extra)%list
    /\ forallb (fun f => String.eqb (df_name f) name) extra = true.
Proof.
  unfold ensure.
  destruct (filter (matches (folder_query name parent)) fs) as [|f l]; cbn.
  - eexists. split; [reflexivity|]. cbn. now rewrite String.eqb_refl.
  - exists []. now rewrite app_nil_r.
Qed.

(** A query for one of the four folders does not select a folder that has
    the name of another. *)
Lemma other_name_not_selected name name' parent f :
  In name bootstrap_names -> In name' bootstrap_names -> name <> name' ->
  df_name f = name' ->
  matches (folder_query name parent) f = false.
Proof.
  intros Hn Hn' Hne Hf. unfold matches, selects. rewrite Hf.
  assert (Hall : forall ps q,
    (forall p, String.eqb q (name_in_parent_query name' p) = false) ->
    (forall p, String.eqb q (children_query p) = false) ->
    existsb (fun p => String.eqb q (name_in_parent_query name' p)
                      || String.eqb q (children_query p)) ps = false).
  { intros ps q H1 H2. induction ps as [|p ps IH]; cbn; [reflexivity|].
    now rewrite H1, H2, IH. }
  rewrite Hall; [apply andb_false_r| |].
  - intros p. unfold folder_query, name_in_parent_query.
    cbn in Hn, Hn'.
    destruct Hn as [<-|[<-|[<-|[<-|[]]]]]; destruct Hn' as [<-|[<-|[<-|[<-|[]]]]];
      try contradiction; destruct (truthy parent); reflexivity.
  - intros p. unfold folder_query, name_in_parent_query, children_query.
    destruct (truthy parent); reflexivity.
Qed.

Lemma others_not_selected name name' parent extra :
  In name bootstrap_names -> In name' bootstrap_names -> name <> name' ->
  forallb (fun f => String.eqb (df_name f) name') extra = true ->
  forallb (fun f => negb (matches (folder_query name parent) f)) extra = true.
Proof.
  intros Hn Hn' Hne. induction extra as [|f extra IH]; cbn; [reflexivity|].
  intros H. apply andb_prop in H. destruct H as [Hf Hrest].
  apply String.eqb_eq in Hf.
  rewrite (other_name_not_selected name name' parent f Hn Hn' Hne Hf). cbn. auto.
Qed.

Lemma initializeFolderStructure_drive (w : World Drive.Env) :
  has_token (svc w) = true ->
  initializeFolderStructure Drive.Env (serve new_id) w =
    (Ok true,
     mkWorld (with_folders (svc w) (fst (bootstrap new_id (files (env w)))))
             (mkEnv (snd (bootstrap new_id (files (env w)))) (millis (env w)))
             (calls w ++ bootstrap_calls new_id (svc w) (files (env w)))).
Proof.
  intros Htok. unfold initializeFolderStructure. enter. rewrite Htok. cbn.
  rewrite (findOrCreateFolder_drive _ _ w Htok). cbn.
  repeat
    match goal with
    | |- context [findOrCreateFolder _ _ ?n ?p ?x] =>
        rewrite (findOrCreateFolder_drive n p x Htok); cbn
    end.
  rewrite <- !app_assoc. reflexivity.
Qed.

(** Running the four steps again on the collection they left finds the same
    four folders, leaves the collection as it is and sends the four searches
    only. *)
Lemma bootstrap_again s fs :
  let ids := fst (bootstrap new_id fs) in
  let root := fst (fst (fst ids)) in
  bootstrap new_id (snd (bootstrap new_id fs)) = bootstrap new_id fs
  /\ bootstrap_calls new_id s (snd (bootstrap new_id fs)) =
       [ folder_search s ROOT_FOLDER_NAME JUndefined;
         folder_search s DOCS_FOLDER_NAME root;
         folder_search s METADATA_FOLDER_NAME root;
         folder_search s SETTINGS_FOLDER_NAME root ].
Proof.
  unfold bootstrap, bootstrap_calls.
  set (r := ensure new_id ROOT_FOLDER_NAME JUndefined fs).
  set (d := ensure new_id DOCS_FOLDER_NAME (fst r) (snd r)).
  set (m := ensure new_id METADATA_FOLDER_NAME (fst r) (snd d)).
  set (t := ensure new_id SETTINGS_FOLDER_NAME (fst r) (snd m)).
  cbn [fst snd].
  destruct (ensure_extends DOCS_FOLDER_NAME (fst r) (snd r)) as (xd & Hd & Hnd).
  destruct (ensure_extends METADATA_FOLDER_NAME (fst r) (snd d)) as (xm & Hm & Hnm).
  destruct (ensure_extends SETTINGS_FOLDER_NAME (fst r) (snd m)) as (xt & Ht & Hnt).
  fold d in Hd. fold m in Hm. fold t in Ht.
  assert (Xr : forallb (fun f => negb (matches (folder_query ROOT_FOLDER_NAME JUndefined) f))
                 (xd ++ xm ++ xt) = true).
  { rewrite !forallb_app.
    rewrite (others_not_selected ROOT_FOLDER_NAME DOCS_FOLDER_NAME _ xd),
            (others_not_selected ROOT_FOLDER_NAME METADATA_FOLDER_NAME _ xm),
            (others_not_selected ROOT_FOLDER_NAME SETTINGS_FOLDER_NAME _ xt);
      cbn; auto; discriminate. }
  assert (Xd : forallb (fun f => negb (matches (folder_query DOCS_FOLDER_NAME (fst r)) f))
                 (xm ++ xt) = true).
  { rewrite !forallb_app.
    rewrite (others_not_selected DOCS_FOLDER_NAME METADATA_FOLDER_NAME _ xm),
            (others_not_selected DOCS_FOLDER_NAME SETTINGS_FOLDER_NAME _ xt);
      cbn; auto; discriminate. }
  assert (Xm : forallb (fun f => negb (matches (folder_query METADATA_FOLDER_NAME (fst r)) f))
                 xt = true).
  { rewrite (others_not_selected METADATA_FOLDER_NAME SETTINGS_FOLDER_NAME _ xt);
      cbn; auto; discriminate. }
  assert (Er : snd t = (snd r ++ (xd ++ xm ++ xt))%list)
    by (rewrite Ht, Hm, Hd, <- !app_assoc; reflexivity).
  assert (Ed : snd t = (snd d ++ (xm ++ xt))%list)
    by (rewrite Ht, Hm, <- !app_assoc; reflexivity).
  assert (Hr' : ensure new_id ROOT_FOLDER_NAME JUndefined (snd t) = (fst r, snd t)).
  { rewrite Er. unfold r. now rewrite ensure_again. }
  assert (Hd' : ensure new_id DOCS_FOLDER_NAME (fst r) (snd t) = (fst d, snd t)).
  { rewrite Ed. unfold d. now rewrite ensure_again. }
  assert (Hm' : ensure new_id METADATA_FOLDER_NAME (fst r) (snd t) = (fst m, snd t)).
  { rewrite Ht. unfold m. now rewrite ensure_again. }
  assert (Ht' : ensure new_id SETTINGS_FOLDER_NAME (fst r) (snd t) = (fst t, snd t)).
  { pose proof (ensure_again SETTINGS_FOLDER_NAME (fst r) (snd m) [] eq_refl) as H.
    rewrite app_nil_r in H. exact H. }
  assert (Ct : ensure_calls s SETTINGS_FOLDER_NAME (fst r) (snd t)
               = [folder_search s SETTINGS_FOLDER_NAME (fst r)]).
  { pose proof (ensure_calls_again s SETTINGS_FOLDER_NAME (fst r) (snd m) [] eq_refl) as H.
    rewrite app_nil_r in H. exact H. }
  rewrite Hr'. cbn [fst snd]. rewrite Hd'. cbn [fst snd].
  rewrite Hm'. cbn [fst snd]. rewrite Ht'. split; [reflexivity|].
  rewrite Er at 1. unfold r at 1. rewrite ensure_calls_again by exact Xr.
  rewrite Ed at 1. unfold d at 1. rewrite ensure_calls_again by exact Xd.
  rewrite Ht at 1. unfold m at 1. rewrite ensure_calls_again by exact Xm.
  rewrite Ct. reflexivity.
Qed.

(** C6.  Against the provider, with a token held: the folder bootstrap
    succeeds, and run a second time in the same session it succeeds again,
    leaves the same four folder identifiers in the session and creates
    nothing: it sends the four searches, each finds the folder of the first
    run, and the provider's collection stays as the first run left it. *)
Theorem initializeFolderStructure_idempotent (w : World Drive.Env) :
  has_token (svc w) = true ->
  let init := initializeFolderStructure Drive.Env (serve new_id) in
  let w1 := snd (init w) in
  let w2 := snd (init w1) in
  let root := rootFolderId (svc w1) in
  fst (init w) = Ok true
  /\ fst (init w1) = Ok true
  /\ getFolderStatus (svc w2) = getFolderStatus (svc w1)
  /\ files (env w2) = files (env w1)
  /\ calls w2 =
       (calls w1 ++ [ folder_search (svc w1) ROOT_FOLDER_NAME JUndefined;
                      folder_search (svc w1) DOCS_FOLDER_NAME root;
                      folder_search (svc w1) METADATA_FOLDER_NAME root;
                      folder_search (svc w1) SETTINGS_FOLDER_NAME root ])%list.
Proof.
  intros Htok init w1 w2 root.
  pose proof (initializeFolderStructure_drive w Htok) as H1.
  assert (Hsvc : svc w1 = with_folders (svc w) (fst (bootstrap new_id (files (env w))))).
  { subst w1 init. rewrite H1. reflexivity. }
  assert (Hfiles : files (env w1) = snd (bootstrap new_id (files (env w)))).
  { subst w1 init. rewrite H1. reflexivity. }
  assert (Htok1 : has_token (svc w1) = true).
  { rewrite Hsvc. unfold with_folders.
    destruct (fst (bootstrap new_id (files (env w)))) as [[[? ?] ?] ?]. exact Htok. }
  pose proof (initializeFolderStructure_drive w1 Htok1) as H2.
  destruct (bootstrap_again (svc w1) (files (env w))) as [Hsame Hcalls].
  cbn zeta in Hcalls.
  assert (Hroot : fst (fst (fst (fst (bootstrap new_id (files (env w)))))) = root).
  { subst root. rewrite Hsvc. unfold with_folders.
    destruct (fst (bootstrap new_id (files (env w)))) as [[[? ?] ?] ?]. reflexivity. }
  rewrite Hroot in Hcalls.
  subst w2. fold init in H1, H2. rewrite H2. cbn [fst snd svc env calls files].
  rewrite Hfiles, Hsame, Hcalls.
  repeat split.
  - rewrite H1. reflexivity.
  - rewrite Hsvc. unfold with_folders.
    destruct (fst (bootstrap new_id (files (env w)))) as [[[? ?] ?] ?]. reflexivity.
Qed.

End Bootstrap.

End DriveProofs.

(** * Further properties of the service *)

(** One request of the goal is answered as [Hs] says. *)
Ltac answered Htok Hs :=
  match goal with
  | |- context [makeRequest ?E ?sv ?u ?m ?b ?w] =>
      let Hr := fresh "Hr" in
      pose proof (makeRequest_run E sv u m b w _ _ Htok Hs) as Hr;
      rewrite Hr; clear Hr
  end.

Ltac fetched Hs :=
  match goal with
  | |- context [fetch ?E ?sv ?r ?w] =>
      let Hr := fresh "Hr" in
      pose proof (fetch_run E sv r w _ _ Hs) as Hr;
      rewrite Hr; clear Hr
  end.

Section Session.

Variable Env : Type.
Variable serve : Env -> Request -> Env * FetchOutcome.
Variable clock : Env -> Env * string.
Variable max_arguments : nat.

(** *** The request executor *)

(** X1.  With a token held, [makeRequest] sends one request, which carries
    the token, and leaves the service as it is.  A success status never
    makes it throw: it returns the success marker for a [DELETE] whatever the
    body, and for any method when the body does not parse; a [PATCH] response
    is parsed only when it declares JSON.  A failure status makes it throw
    the API error with the status and the body text. *)
Theorem makeRequest_contract url method body (w : World Env) e' r :
  has_token (svc w) = true ->
  serve (env w) (mkRequest url method (bearer (svc w)) body) = (e', Resolves r) ->
  let request := mkRequest url method (bearer (svc w)) body in
  let (res, w') := makeRequest Env serve url method body w in
  w' = sent w e' request
  /\ accessToken (svc w') = Some (req_bearer request)
  /\ (resp_ok r = false -> res = Throw (api_error (resp_status r) (resp_text r)))
  /\ (resp_ok r = true ->
      exists value,
        res = Ok value
        /\ (method = DELETE -> value = success_marker)
        /\ (forall err, resp_json r = Throw err -> value = success_marker)
        /\ (forall json, resp_json r = Ok json ->
             method = GET \/ method = POST -> value = json)
        /\ (forall json, resp_json r = Ok json -> method = PATCH ->
             value = match resp_content_type r with
                     | Some contentType =>
                         if includes contentType "application/json"
                         then json else success_marker
                     | None => success_marker
                     end)).
Proof.
  intros Htok Hs request.
  rewrite (makeRequest_run Env serve url method body w e' _ Htok Hs). cbn.
  split; [destruct (resp_ok r); reflexivity|].
  split.
  { destruct (resp_ok r); cbn; unfold has_token, bearer in *;
      destruct (accessToken (svc w)); try discriminate; reflexivity. }
  split; [intros Hok; rewrite Hok; reflexivity|].
  intros Hok. rewrite Hok. eexists. split; [reflexivity|].
  unfold parse_response.
  split; [intros ->; reflexivity|].
  split.
  { intros err Herr. rewrite Herr. destruct method; try reflexivity.
    destruct (resp_content_type r) as [ct|]; [|reflexivity].
    destruct (includes ct "application/json"); reflexivity. }
  split.
  { intros json Hj [-> | ->]; rewrite Hj; reflexivity. }
  intros json Hj ->. rewrite Hj. reflexivity.
Qed.

(** *** The folder bootstrap *)

(** X2.  [findOrCreateFolder] searches first.  When the search returns
    folders it answers the identifier of the first and sends nothing more;
    only when the search returns none does it send the creation, for a
    folder of that name, with the parent given when there is one, and answer
    the identifier the provider gives. *)
Theorem findOrCreateFolder_search_then_create folderName parentId (w : World Env)
    e1 out1 :
  has_token (svc w) = true ->
  serve (env w) (folder_search (svc w) folderName parentId) = (e1, out1) ->
  request_failure out1 = None ->
  let searchResponse := request_value GET out1 in
  let w1 := sent w e1 (folder_search (svc w) folderName parentId) in
  (forall id, has_files searchResponse = Ok true ->
     first_file_id searchResponse = Ok id ->
     findOrCreateFolder Env serve folderName parentId w = (Ok id, w1))
  /\
  (has_files searchResponse = Ok false ->
   forall e2 out2,
     serve e1 (folder_create (svc w) folderName parentId) = (e2, out2) ->
     findOrCreateFolder Env serve folderName parentId w =
       (match request_failure out2 with
        | Some err => Throw err
        | None => js_get (request_value POST out2) "id"
        end,
        sent w1 e2 (folder_create (svc w) folderName parentId))
     /\ js_get (folderMetadata folderName parentId) "name" = Ok (JStr folderName)
     /\ js_get (folderMetadata folderName parentId) "parents"
        = Ok (if truthy parentId then JArr [parentId] else JUndefined)).
Proof.
  intros Htok Hs Hf searchResponse w1. split.
  - intros id Hfound Hid. unfold findOrCreateFolder. enter.
    answered Htok Hs. rewrite Hf. cbn. fold searchResponse.
    rewrite Hfound. cbn. rewrite Hid. reflexivity.
  - intros Hnone e2 out2 Hs2. split; [|split].
    + unfold findOrCreateFolder. enter.
      answered Htok Hs. rewrite Hf. cbn. fold searchResponse.
      rewrite Hnone. cbn.
      answered Htok Hs2. destruct (request_failure out2); reflexivity.
    + reflexivity.
    + unfold folderMetadata. destruct (truthy parentId); reflexivity.
Qed.

(** X3.  [initializeFolderStructure] never returns [false]: it returns
    [true] or throws an error whose message starts with
    [Failed to initialize folder structure: ].  It never touches the
    token. *)
Theorem initializeFolderStructure_outcomes (w : World Env) :
  let (res, w') := initializeFolderStructure Env serve w in
  accessToken (svc w') = accessToken (svc w)
  /\ match res with
     | Ok initSuccess => initSuccess = true
     | Throw e => message_starts "Failed to initialize folder structure: " e
     end.
Proof.
  pose proof (initializeFolderStructure_token Env serve w) as Htoken.
  destruct (initializeFolderStructure Env serve w) as [res w'] eqn:Hinit.
  split; [exact Htoken|].
  revert Hinit. unfold initializeFolderStructure, try_catch.
  match goal with |- context [bind ?E ?m ?k w] =>
    destruct (bind E m k w) as [[b|e0] w0] eqn:Hbody end.
  - intros H; inversion H; subst. revert Hbody. enter.
    destruct (has_token (svc w)); cbn; [|discriminate].
    repeat
      match goal with
      | |- context [findOrCreateFolder _ _ ?n ?p ?x] =>
          destruct (findOrCreateFolder Env serve n p x) as [[? | ?] ?]; cbn;
          try discriminate
      end.
    intros H1; inversion H1; reflexivity.
  - unfold throw. intros H; inversion H; subst. eexists; reflexivity.
Qed.

(** X4.  The bootstrap is not undone when a step fails: when the root
    folder is resolved and the step for the documents folder throws, the
    bootstrap throws, wrapped, and the session keeps the root identifier
    just resolved next to the documents, metadata and settings identifiers
    it had before. *)
Theorem initializeFolderStructure_partial (w w1 w2 : World Env) root e :
  has_token (svc w) = true ->
  findOrCreateFolder Env serve ROOT_FOLDER_NAME JUndefined w = (Ok root, w1) ->
  findOrCreateFolder Env serve DOCS_FOLDER_NAME root
    (mkWorld (set_rootFolderId root (svc w)) (env w1) (calls w1)) = (Throw e, w2) ->
  initializeFolderStructure Env serve w =
    (Throw (Error ("Failed to initialize folder structure: " ++ exn_toString e)), w2)
  /\ svc w2 = mkService (accessToken (svc w)) root (docsFolderId (svc w))
                        (metadataFolderId (svc w)) (settingsFolderId (svc w)).
Proof.
  intros Htok Hroot Hdocs.
  pose proof (findOrCreateFolder_svc Env serve ROOT_FOLDER_NAME JUndefined w) as Hsvc1.
  rewrite Hroot in Hsvc1. cbn in Hsvc1.
  pose proof (findOrCreateFolder_svc Env serve DOCS_FOLDER_NAME root
                (mkWorld (set_rootFolderId root (svc w)) (env w1) (calls w1))) as Hsvc2.
  rewrite Hdocs in Hsvc2. cbn in Hsvc2.
  split; [|exact Hsvc2].
  unfold initializeFolderStructure. enter. rewrite Htok. cbn.
  rewrite Hroot. cbn. rewrite Hsvc1. rewrite Hdocs. reflexivity.
Qed.

(** *** After logout *)

(** X5.  Once [clearAccessToken] has run, no operation sends a request:
    [listFiles], the folder bootstrap, [uploadFile], the metadata and
    profile operations throw, [deleteFile] and [validateToken] return
    [false], and the world stays as it is. *)
Theorem cleared_session_sends_nothing (s : Service) (e : Env) (sentSoFar : list Request)
    fileId file metadata profileData :
  let w := mkWorld (clearAccessToken s) e sentSoFar in
  listFiles Env serve w = (Throw (Error "No access token available"), w)
  /\ validateToken Env serve w = (Ok false, w)
  /\ deleteFile Env serve fileId w = (Ok false, w)
  /\ initializeFolderStructure Env serve w =
       (Throw (Error ("Failed to initialize folder structure: "
                      ++ "Error: No access token available for folder initialization")), w)
  /\ uploadFile Env serve clock max_arguments file metadata w =
       (Throw (Error ("Upload failed: Failed to initialize folder structure: "
                      ++ "Error: No access token available for folder initialization")), w)
  /\ getFileMetadata Env serve (JStr fileId) w =
       (Throw (Error "Failed to get file metadata: Error: Metadata folder not initialized"), w)
  /\ updateMetadata Env serve clock fileId metadata w =
       (Throw (Error "Failed to update metadata: Error: Metadata folder not initialized"), w)
  /\ saveProfile Env serve profileData w =
       (Throw (Error "Failed to save profile: Error: Settings folder not initialized"), w)
  /\ getProfile Env serve w =
       (Throw (Error "Failed to get profile: Error: Settings folder not initialized"), w).
Proof.
  intros w. repeat split.
Qed.

(** *** Operations that only read *)

Lemma reads_only_refl (w : World Env) : reads_only w w.
Proof.
  split; [reflexivity|]. exists []. now rewrite app_nil_r.
Qed.

Lemma reads_only_trans (w1 w2 w3 : World Env) :
  reads_only w1 w2 -> reads_only w2 w3 -> reads_only w1 w3.
Proof.
  intros [Hs1 (a1 & Hc1 & Hg1)] [Hs2 (a2 & Hc2 & Hg2)].
  split; [congruence|]. exists (a1 ++ a2)%list.
  rewrite Hc2, Hc1, <- app_assoc, forallb_app, Hg1, Hg2. auto.
Qed.

Lemma fetch_GET_reads r (w : World Env) :
  is_get r = true -> reads_only w (snd (fetch Env serve r w)).
Proof.
  intros Hget. unfold fetch. destruct (serve (env w) r) as [e' [resp|e]]; cbn;
    (split; [reflexivity|]; exists [r]; cbn; rewrite Hget; auto).
Qed.

Lemma makeRequest_GET_reads url body (w : World Env) :
  reads_only w (snd (makeRequest Env serve url GET body w)).
Proof.
  unfold makeRequest. enter. destruct (has_token (svc w)); cbn;
    [|apply reads_only_refl].
  pose proof (fetch_GET_reads (mkRequest url GET (bearer (svc w)) body) w eq_refl) as H.
  destruct (fetch Env serve _ w) as [[resp|e] w1]; cbn in *; [|exact H].
  destruct (resp_ok resp); exact H.
Qed.

(** The read of a sidecar, like the read of the profile: a search and, when
    something is found, the download of the first object found. *)
Lemma search_and_read_reads query (handler : Exn -> M Env JSValue) (w : World Env) :
  (forall e w0, snd (handler e w0) = w0) ->
  reads_only w
    (snd (try_catch Env
            (bind Env (makeRequest Env serve (FilesQuery query "files(id,name)") GET NoBody)
               (fun searchResponse =>
                  bind Env (lift Env (no_files searchResponse))
                    (fun none : bool =>
                       if none then ret Env JNull
                       else bind Env (lift Env (first_file_id searchResponse))
                              (fun id => makeRequest Env serve
                                           (FileMedia (js_toString id)) GET NoBody))))
            handler w)).
Proof.
  intros Hh. unfold try_catch, bind, lift.
  pose proof (makeRequest_GET_reads (FilesQuery query "files(id,name)") NoBody w) as H1.
  destruct (makeRequest Env serve _ GET NoBody w) as [[searchResponse|e] w1];
    cbn in *; [|rewrite Hh; exact H1].
  destruct (no_files searchResponse) as [[|]|]; cbn; try (rewrite ?Hh; exact H1).
  destruct (first_file_id searchResponse) as [id|]; cbn; [|rewrite Hh; exact H1].
  pose proof (makeRequest_GET_reads (FileMedia (js_toString id)) NoBody w1) as H2.
  destruct (makeRequest Env serve _ GET NoBody w1) as [[v|e] w2]; cbn in *;
    rewrite ?Hh; eapply reads_only_trans; eauto.
Qed.

Lemma getFileMetadata_reads fileId (w : World Env) :
  reads_only w (snd (getFileMetadata Env serve fileId w)).
Proof.
  unfold getFileMetadata.
  unfold try_catch at 1. unfold bind at 1. unfold this. cbn.
  destruct (truthy (metadataFolderId (svc w))); cbn; [|apply reads_only_refl].
  exact (search_and_read_reads (sidecar_query (svc w) fileId)
           (fun error =>
              throw Env (Error ("Failed to get file metadata: " ++ exn_toString error)))
           w (fun _ _ => eq_refl)).
Qed.

(** X6.  [getFileMetadata] only reads: it leaves the service as it is and
    every request it sends is a [GET].  When it fails, what it throws is an
    error whose message starts with [Failed to get file metadata: ]. *)
Theorem getFileMetadata_read_only fileId (w : World Env) :
  let (res, w') := getFileMetadata Env serve fileId w in
  reads_only w w'
  /\ match res with
     | Ok _ => True
     | Throw e => message_starts "Failed to get file metadata: " e
     end.
Proof.
  pose proof (getFileMetadata_reads fileId w) as Hreads.
  destruct (getFileMetadata Env serve fileId w) as [res w'] eqn:Hget.
  split; [exact Hreads|].
  destruct res as [v|e]; [exact I|].
  revert Hget. unfold getFileMetadata, try_catch.
  match goal with |- context [bind ?E ?m ?k w] =>
    destruct (bind E m k w) as [[v0|e0] w0] end; [discriminate|].
  unfold throw. intros H; inversion H. eexists; reflexivity.
Qed.

Lemma processFile_reads file (w : World Env) :
  reads_only w (snd (processFile Env serve file w)).
Proof.
  unfold processFile. enter.
  destruct (js_get file "id") as [id|]; cbn; [|apply reads_only_refl].
  pose proof (getFileMetadata_reads id w) as H.
  destruct (getFileMetadata Env serve id w) as [[metadata|e] w1]; cbn in *; [|exact H].
  destruct (truthy metadata); cbn.
  - destruct (view_url file) as [url|]; cbn; [|exact H].
    destruct (js_set metadata "fileUrl" url); exact H.
  - destruct (fallbackMetadata file); exact H.
Qed.

Lemma forEachFile_reads entries : forall files (w : World Env),
  reads_only w (snd (forEachFile Env serve entries files w)).
Proof.
  induction entries as [|file rest IH]; intros files w; cbn.
  - apply reads_only_refl.
  - unfold bind. pose proof (processFile_reads file w) as H.
    destruct (processFile Env serve file w) as [[pushed|e] w1]; cbn in *; [|exact H].
    eapply reads_only_trans; [exact H|apply IH].
Qed.

Lemma validateToken_reads (w : World Env) :
  reads_only w (snd (validateToken Env serve w)).
Proof.
  unfold validateToken. enter.
  destruct (has_token (svc w)); cbn; [|apply reads_only_refl].
  pose proof (fetch_GET_reads (about_request (svc w)) w eq_refl) as H.
  destruct (fetch Env serve _ w) as [[resp|e] w1]; cbn in *; [|exact H].
  destruct (resp_ok resp); exact H.
Qed.

(** X7.  In a session whose documents folder is resolved, [listFiles] only
    reads: whatever the provider answers and however the listing ends, the
    service is left as it is and every request sent is a [GET]. *)
Theorem listFiles_read_only (w : World Env) :
  truthy (docsFolderId (svc w)) = true ->
  reads_only w (snd (listFiles Env serve w)).
Proof.
  intros Hdocs. unfold listFiles. enter.
  destruct (has_token (svc w)); cbn; [|apply reads_only_refl].
  pose proof (validateToken_reads w) as Hv.
  destruct (validateToken Env serve w) as [[[|]|e] w1]; cbn in *; try exact Hv.
  assert (Hsvc : svc w1 = svc w) by apply Hv.
  destruct w1 as [s1 e1 c1]. cbn in Hsvc. subst s1. cbn.
  rewrite Hdocs. cbn.
  match goal with |- context [makeRequest _ _ ?u GET ?b ?x] =>
    pose proof (makeRequest_GET_reads u b x) as Hl;
    destruct (makeRequest Env serve u GET b x) as [[response|e] w2]
  end; cbn in *; [|eapply reads_only_trans; eauto].
  assert (H12 : reads_only w w2) by (eapply reads_only_trans; eauto).
  destruct (js_get response "files") as [responseFiles|]; cbn; [|exact H12].
  destruct (js_iter responseFiles) as [entries|]; cbn; [|exact H12].
  pose proof (forEachFile_reads entries [] w2) as Hloop.
  destruct (forEachFile Env serve entries [] w2) as [[records|e] w3]; cbn in *;
    eapply reads_only_trans; eauto.
Qed.

(** X8.  [getProfile] only reads, and answers [null], not an error, when
    the search in the settings folder finds no [profile.json].  When it
    fails, what it throws is an error whose message starts with
    [Failed to get profile: ]. *)
Theorem getProfile_contract (w : World Env) :
  (let (res, w') := getProfile Env serve w in
   reads_only w w'
   /\ match res with
      | Ok _ => True
      | Throw e => message_starts "Failed to get profile: " e
      end)
  /\
  (has_token (svc w) = true ->
   truthy (settingsFolderId (svc w)) = true ->
   forall e1 out1,
     serve (env w) (profile_search (svc w)) = (e1, out1) ->
     request_failure out1 = None ->
     no_files (request_value GET out1) = Ok true ->
     getProfile Env serve w = (Ok JNull, sent w e1 (profile_search (svc w)))).
Proof.
  split.
  - assert (Hreads : reads_only w (snd (getProfile Env serve w))).
    { unfold getProfile.
      unfold try_catch at 1. unfold bind at 1. unfold this. cbn.
      destruct (truthy (settingsFolderId (svc w))); cbn; [|apply reads_only_refl].
      exact (search_and_read_reads (profile_query (svc w))
               (fun error =>
                  throw Env (Error ("Failed to get profile: " ++ exn_toString error)))
               w (fun _ _ => eq_refl)). }
    destruct (getProfile Env serve w) as [res w'] eqn:Hget.
    split; [exact Hreads|].
    destruct res as [v|e]; [exact I|].
    revert Hget. unfold getProfile, try_catch.
    match goal with |- context [bind ?E ?m ?k w] =>
      destruct (bind E m k w) as [[v0|e0] w0] end; [discriminate|].
    unfold throw. intros H; inversion H. eexists; reflexivity.
  - intros Htok Hset e1 out1 Hs Hf Hnone.
    unfold getProfile. enter. rewrite Hset. cbn.
    answered Htok Hs. rewrite Hf. cbn. rewrite Hnone. reflexivity.
Qed.

(** X9.  [saveProfile] sends one request, the upload of the data as
    [profile.json] into the settings folder; it looks for no earlier profile
    and deletes none.  It answers [response.ok]: a failure status is
    reported as [false], not thrown.  It throws, wrapped, when the request
    itself cannot be made, and before sending anything when the settings
    folder is not resolved. *)
Theorem saveProfile_contract profileData (w : World Env) :
  (truthy (settingsFolderId (svc w)) = false ->
   saveProfile Env serve profileData w =
     (Throw (Error "Failed to save profile: Error: Settings folder not initialized"), w))
  /\
  (truthy (settingsFolderId (svc w)) = true ->
   forall e' out,
     serve (env w) (profile_upload (svc w) profileData) = (e', out) ->
     saveProfile Env serve profileData w =
       (match out with
        | Resolves response => Ok (resp_ok response)
        | Rejects e => Throw (Error ("Failed to save profile: " ++ exn_toString e))
        end, sent w e' (profile_upload (svc w) profileData))).
Proof.
  split.
  - intros Hset. unfold saveProfile. enter. rewrite Hset. reflexivity.
  - intros Hset e' out Hs. unfold saveProfile. enter. rewrite Hset. cbn.
    fetched Hs. destruct out; reflexivity.
Qed.

(** *** Deletion *)

(** X10.  [deleteFile] returns [false] exactly when no token is held, and
    then sends nothing.  With a token it returns [true] or throws an error
    whose message starts with [Failed to delete file: ]; in every case the
    service is left as it is. *)
Theorem deleteFile_false_iff_no_token fileId (w : World Env) :
  let (res, w') := deleteFile Env serve fileId w in
  svc w' = svc w
  /\ (has_token (svc w) = false -> res = Ok false /\ w' = w)
  /\ (has_token (svc w) = true ->
      match res with
      | Ok deleted => deleted = true
      | Throw e => message_starts "Failed to delete file: " e
      end).
Proof.
  unfold deleteFile. unfold try_catch at 1.
  match goal with |- context [bind ?E ?m ?k w] =>
    destruct (bind E m k w) as [[b|e0] w0] eqn:Hbody end; cbn.
  - revert Hbody. enter. destruct (has_token (svc w)); cbn.
    + pose proof (makeRequest_svc Env serve (FileById fileId) DELETE NoBody w) as H1.
      destruct (makeRequest Env serve _ DELETE NoBody w) as [[?|?] w1];
        cbn in *; [|discriminate].
      rewrite H1.
      destruct (truthy (metadataFolderId (svc w))); cbn.
      * match goal with |- context [makeRequest _ _ ?u GET ?bd w1] =>
          pose proof (makeRequest_svc Env serve u GET bd w1) as H2;
          destruct (makeRequest Env serve u GET bd w1) as [[searchResponse|?] w2]
        end; cbn in *; [|discriminate].
        destruct (has_files searchResponse) as [[|]|]; cbn; try discriminate.
        -- destruct (first_file_id searchResponse) as [id|]; cbn; [|discriminate].
           pose proof (makeRequest_svc Env serve (FileById (js_toString id)) DELETE NoBody w2)
             as H3.
           destruct (makeRequest Env serve _ DELETE NoBody w2) as [[?|?] w3];
             cbn in *; [|discriminate].
           intros H; inversion H; subst. repeat split; congruence.
        -- intros H; inversion H; subst. repeat split; congruence.
      * intros H; inversion H; subst. repeat split; congruence.
    + intros H; inversion H; subst. repeat split; congruence.
  - revert Hbody. enter. destruct (has_token (svc w)); cbn; [|discriminate].
    pose proof (makeRequest_svc Env serve (FileById fileId) DELETE NoBody w) as H1.
    destruct (makeRequest Env serve _ DELETE NoBody w) as [[?|?] w1]; cbn in *.
    2:{ intros H; inversion H; subst. repeat split; try congruence.
        intros _. eexists; reflexivity. }
    rewrite H1.
    destruct (truthy (metadataFolderId (svc w))); cbn; [|discriminate].
    match goal with |- context [makeRequest _ _ ?u GET ?bd w1] =>
      pose proof (makeRequest_svc Env serve u GET bd w1) as H2;
      destruct (makeRequest Env serve u GET bd w1) as [[searchResponse|?] w2]
    end; cbn in *.
    2:{ intros H; inversion H; subst. repeat split; try congruence.
        intros _. eexists; reflexivity. }
    destruct (has_files searchResponse) as [[|]|]; cbn; try discriminate.
    2:{ intros H; inversion H; subst. repeat split; try congruence.
        intros _. eexists; reflexivity. }
    destruct (first_file_id searchResponse) as [id|]; cbn.
    2:{ intros H; inversion H; subst. repeat split; try congruence.
        intros _. eexists; reflexivity. }
    pose proof (makeRequest_svc Env serve (FileById (js_toString id)) DELETE NoBody w2)
      as H3.
    destruct (makeRequest Env serve _ DELETE NoBody w2) as [[?|?] w3];
      cbn in *; [discriminate|].
    intros H; inversion H; subst. repeat split; try congruence.
    intros _. eexists; reflexivity.
Qed.

(** *** Upload, step by step *)

(** An upload in a session whose documents folder is resolved, for a file
    within the ceiling whose part can be built: the content request is sent,
    and the rest depends on its outcome. *)
Lemma uploadFile_content_sent file metadata part (w : World Env) e1 out :
  truthy (docsFolderId (svc w)) = true ->
  file_size file <= MAX_FILE_SIZE ->
  file_part max_arguments file = Ok part ->
  serve (env w) (content_upload (svc w) file metadata part) = (e1, out) ->
  uploadFile Env serve clock max_arguments file metadata w =
    try_catch Env
      (match out with
       | Resolves uploadResponse => afterUpload Env serve clock file metadata uploadResponse
       | Rejects e => throw Env e
       end)
      (fun error => throw Env (Error ("Upload failed: " ++ exn_message error)))
      (sent w e1 (content_upload (svc w) file metadata part)).
Proof.
  intros Hdocs Hsize Hpart Hs. apply Z.ltb_ge in Hsize.
  unfold uploadFile. enter. rewrite Hdocs. cbn. cbn in Hsize. rewrite Hsize.
  unfold file_part in Hpart.
  destruct (file_source file) as [[fileBytes|e]|uri]; cbn in *.
  - destruct (fromCharCode_apply max_arguments fileBytes) as [bytes|e]; cbn in *;
      inversion Hpart; subst part.
    fetched Hs. destruct out; reflexivity.
  - discriminate Hpart.
  - inversion Hpart; subst part. fetched Hs. destruct out; reflexivity.
Qed.

(** The same once the provider has accepted the content and given it an
    identifier: the two timestamps are read and the sidecar is saved. *)
Lemma uploadFile_content_accepted file metadata part (w : World Env)
    e1 r1 uploadedFile id :
  truthy (docsFolderId (svc w)) = true ->
  file_size file <= MAX_FILE_SIZE ->
  file_part max_arguments file = Ok part ->
  serve (env w) (content_upload (svc w) file metadata part) = (e1, Resolves r1) ->
  resp_ok r1 = true ->
  resp_json r1 = Ok uploadedFile ->
  js_get uploadedFile "id" = Ok id ->
  truthy id = true ->
  let created := snd (clock e1) in
  let modified := snd (clock (fst (clock e1))) in
  let w2 := mkWorld (svc w) (fst (clock (fst (clock e1))))
                    (calls w ++ [content_upload (svc w) file metadata part]) in
  uploadFile Env serve clock max_arguments file metadata w =
    match saveMetadata Env serve id (fileMetadataObj id file metadata created modified) w2
    with
    | (Ok metadataId, w3) => (Ok (mkUploadResult true id metadataId None), w3)
    | (Throw e, w3) => (Throw (Error ("Upload failed: " ++ exn_message e)), w3)
    end.
Proof.
  intros Hdocs Hsize Hpart Hs Hok Hjson Hid Htruthy created modified w2.
  rewrite (uploadFile_content_sent file metadata part w e1 _ Hdocs Hsize Hpart Hs).
  unfold afterUpload. enter. rewrite Hok. cbn. rewrite Hjson. cbn.
  rewrite Hid. cbn. rewrite Htruthy. cbn.
  unfold now. cbn. subst created modified w2.
  destruct (clock e1) as [e1' c]. cbn. destruct (clock e1') as [e1'' m]. cbn.
  destruct (saveMetadata Env serve id _ _) as [[mid|e] w3]; reflexivity.
Qed.

(** X11.  An upload whose two requests are accepted returns
    [success: true] with the identifier the provider gave the content file
    and the identifier it gave the sidecar; the content upload and the
    sidecar write are the only requests sent, in that order, and the sidecar
    carries the two timestamps read in between. *)
Theorem uploadFile_succeeds file metadata part (w : World Env)
    e1 r1 uploadedFile id e3 r3 saved metadataId :
  truthy (docsFolderId (svc w)) = true ->
  truthy (metadataFolderId (svc w)) = true ->
  file_size file <= MAX_FILE_SIZE ->
  file_part max_arguments file = Ok part ->
  serve (env w) (content_upload (svc w) file metadata part) = (e1, Resolves r1) ->
  resp_ok r1 = true ->
  resp_json r1 = Ok uploadedFile ->
  js_get uploadedFile "id" = Ok id ->
  truthy id = true ->
  let record := fileMetadataObj id file metadata (snd (clock e1))
                                (snd (clock (fst (clock e1)))) in
  serve (fst (clock (fst (clock e1)))) (sidecar_upload (svc w) id record)
    = (e3, Resolves r3) ->
  resp_ok r3 = true ->
  resp_json r3 = Ok saved ->
  js_get saved "id" = Ok metadataId ->
  uploadFile Env serve clock max_arguments file metadata w =
    (Ok (mkUploadResult true id metadataId None),
     mkWorld (svc w) e3
       (calls w ++ [ content_upload (svc w) file metadata part;
                     sidecar_upload (svc w) id record ])).
Proof.
  intros Hdocs Hmeta Hsize Hpart Hs Hok Hjson Hid Htruthy record Hs3 Hok3 Hjson3 Hid3.
  rewrite (uploadFile_content_accepted file metadata part w e1 r1 uploadedFile id
             Hdocs Hsize Hpart Hs Hok Hjson Hid Htruthy).
  unfold saveMetadata. enter. rewrite Hmeta. cbn.
  fetched Hs3. cbn. rewrite Hok3. cbn. rewrite Hjson3. cbn. rewrite Hid3.
  unfold sent. cbn. rewrite <- app_assoc. reflexivity.
Qed.

(** X12.  Nothing is undone when the sidecar cannot be written.  Once the
    provider has accepted the content: if the metadata folder is not
    resolved, [uploadFile] throws after the content upload alone; if the
    sidecar write is refused, it throws [Upload failed: Failed to save
    metadata] after the two requests.  In both cases the content file stays
    on the provider: no request follows to delete it. *)
Theorem uploadFile_leaves_content_without_sidecar file metadata part (w : World Env)
    e1 r1 uploadedFile id :
  truthy (docsFolderId (svc w)) = true ->
  file_size file <= MAX_FILE_SIZE ->
  file_part max_arguments file = Ok part ->
  serve (env w) (content_upload (svc w) file metadata part) = (e1, Resolves r1) ->
  resp_ok r1 = true ->
  resp_json r1 = Ok uploadedFile ->
  js_get uploadedFile "id" = Ok id ->
  truthy id = true ->
  let upload := content_upload (svc w) file metadata part in
  let e2 := fst (clock (fst (clock e1))) in
  let record := fileMetadataObj id file metadata (snd (clock e1))
                                (snd (clock (fst (clock e1)))) in
  (truthy (metadataFolderId (svc w)) = false ->
   uploadFile Env serve clock max_arguments file metadata w =
     (Throw (Error "Upload failed: Metadata folder not initialized"),
      mkWorld (svc w) e2 (calls w ++ [upload])))
  /\
  (truthy (metadataFolderId (svc w)) = true ->
   forall e3 r3,
     serve e2 (sidecar_upload (svc w) id record) = (e3, Resolves r3) ->
     resp_ok r3 = false ->
     uploadFile Env serve clock max_arguments file metadata w =
       (Throw (Error "Upload failed: Failed to save metadata"),
        mkWorld (svc w) e3 (calls w ++ [upload; sidecar_upload (svc w) id record]))).
Proof.
  intros Hdocs Hsize Hpart Hs Hok Hjson Hid Htruthy upload e2 record.
  rewrite (uploadFile_content_accepted file metadata part w e1 r1 uploadedFile id
             Hdocs Hsize Hpart Hs Hok Hjson Hid Htruthy).
  split.
  - intros Hmeta. unfold saveMetadata. enter. rewrite Hmeta. reflexivity.
  - intros Hmeta e3 r3 Hs3 Hok3. unfold saveMetadata. enter. rewrite Hmeta. cbn.
    fetched Hs3. cbn. rewrite Hok3. cbn.
    unfold sent. cbn. rewrite <- app_assoc. reflexivity.
Qed.

(** X13.  When the provider accepts the content but its answer carries no
    usable identifier, [uploadFile] throws [Upload failed: Upload response
    missing file ID] and writes no sidecar: the content upload is the only
    request sent. *)
Theorem uploadFile_missing_id file metadata part (w : World Env)
    e1 r1 uploadedFile id :
  truthy (docsFolderId (svc w)) = true ->
  file_size file <= MAX_FILE_SIZE ->
  file_part max_arguments file = Ok part ->
  serve (env w) (content_upload (svc w) file metadata part) = (e1, Resolves r1) ->
  resp_ok r1 = true ->
  resp_json r1 = Ok uploadedFile ->
  js_get uploadedFile "id" = Ok id ->
  truthy id = false ->
  uploadFile Env serve clock max_arguments file metadata w =
    (Throw (Error "Upload failed: Upload response missing file ID"),
     sent w e1 (content_upload (svc w) file metadata part)).
Proof.
  intros Hdocs Hsize Hpart Hs Hok Hjson Hid Hfalsy.
  rewrite (uploadFile_content_sent file metadata part w e1 _ Hdocs Hsize Hpart Hs).
  unfold afterUpload. enter. rewrite Hok. cbn. rewrite Hjson. cbn.
  rewrite Hid. cbn. rewrite Hfalsy. reflexivity.
Qed.

(** X26.  A browser file with more bytes than the engine takes arguments
    is not uploaded.  In a session whose documents folder is resolved, for
    a file within the size ceiling, the conversion of the bytes to a string
    throws, and [uploadFile] throws [Upload failed: Maximum call stack size
    exceeded] without having sent any request. *)
Theorem uploadFile_beyond_arguments file metadata fileBytes (w : World Env) :
  truthy (docsFolderId (svc w)) = true ->
  file_size file <= MAX_FILE_SIZE ->
  file_source file = WebFile (Ok fileBytes) ->
  (max_arguments <? String.length fileBytes)%nat = true ->
  uploadFile Env serve clock max_arguments file metadata w =
    (Throw (Error "Upload failed: Maximum call stack size exceeded"), w)
  /\ file_part max_arguments file
     = Throw (mkExn "RangeError" "Maximum call stack size exceeded").
Proof.
  intros Hdocs Hsize Hsource Hlong. apply Z.ltb_ge in Hsize. split.
  - unfold uploadFile. enter. rewrite Hdocs. cbn. cbn in Hsize. rewrite Hsize.
    rewrite Hsource. cbn. unfold fromCharCode_apply. rewrite Hlong.
    destruct w; reflexivity.
  - unfold file_part. rewrite Hsource. cbn. unfold fromCharCode_apply.
    rewrite Hlong. reflexivity.
Qed.

(** *** Metadata update, step by step *)

(** X14.  An update replaces the sidecar by deleting it and creating it
    anew.  Once the existing record is read and the old sidecar is found and
    deleted, the outcome is that of the write of the merged record: [true]
    when the provider accepts it; when it refuses, [updateMetadata] throws
    with the status and the body, and the old sidecar, already deleted, is
    not restored: the refused write is the last request sent. *)
Theorem updateMetadata_replaces fileId metadata (w w1 w2 : World Env) existing
    e4 out4 old e5 out5 e6 r6 :
  has_token (svc w) = true ->
  truthy (metadataFolderId (svc w)) = true ->
  getFileMetadata Env serve (JStr fileId) w = (Ok existing, w1) ->
  truthy existing = true ->
  renameContentFile Env serve fileId metadata existing w1 = (Ok tt, w2) ->
  let updated := updatedMetadata existing metadata (snd (clock (env w2))) in
  let search := sidecar_search (svc w) (JStr fileId) in
  serve (fst (clock (env w2))) search = (e4, out4) ->
  request_failure out4 = None ->
  has_files (request_value GET out4) = Ok true ->
  first_file_id (request_value GET out4) = Ok old ->
  let remove := content_delete (svc w) (js_toString old) in
  serve e4 remove = (e5, out5) ->
  request_failure out5 = None ->
  let write := sidecar_upload (svc w) (JStr fileId) updated in
  serve e5 write = (e6, Resolves r6) ->
  updateMetadata Env serve clock fileId metadata w =
    (if resp_ok r6 then Ok true
     else Throw (Error ("Failed to update metadata: Error: Failed to update metadata: "
                        ++ string_of_Z (resp_status r6) ++ " - " ++ resp_text r6)),
     mkWorld (svc w) e6 (calls w2 ++ [search; remove; write])).
Proof.
  intros Htok Hmeta Hget Hex Hren updated search Hs4 Hf4 Hfound Hold remove Hs5 Hf5
         write Hs6.
  destruct (updateMetadata_run Env serve clock fileId metadata w w1 existing
              Htok Hmeta Hget Hex) as (w2' & Hren' & Hsvc & Hrun).
  rewrite Hren in Hren'. inversion Hren'; subst w2'. rewrite Hrun.
  destruct w2 as [s2 e2 c2]. cbn in Hsvc. subst s2. cbn in *.
  unfold replaceSidecar. enter. unfold now. cbn.
  destruct (clock e2) as [e3 modified] eqn:Hclock. cbn in *.
  answered Htok Hs4. rewrite Hf4. cbn. rewrite Hfound. cbn. rewrite Hold. cbn.
  answered Htok Hs5. rewrite Hf5. cbn.
  fetched Hs6. cbn. unfold sent. cbn. rewrite <- !app_assoc. cbn.
  destruct (resp_ok r6); reflexivity.
Qed.

(** *** Listing: edges *)

(** X15.  A sidecar whose content does not parse as JSON is not taken as
    unreadable.  The read of such a sidecar answers the success marker of
    [makeRequest], and the listing pushes that marker with a [fileUrl]
    added: a record without [id] or [name], not the fallback record. *)
Theorem listFiles_unparseable_sidecar file (w : World Env) e1 out1 found e2 r2 err :
  has_token (svc w) = true ->
  truthy (metadataFolderId (svc w)) = true ->
  nullish file = false ->
  let search := sidecar_search (svc w) (js_prop file "id") in
  serve (env w) search = (e1, out1) ->
  request_failure out1 = None ->
  no_files (request_value GET out1) = Ok false ->
  first_file_id (request_value GET out1) = Ok found ->
  serve e1 (content_download (svc w) found) = (e2, Resolves r2) ->
  resp_ok r2 = true ->
  resp_json r2 = Throw err ->
  let w2 := sent (sent w e1 search) e2 (content_download (svc w) found) in
  let fileUrl := js_or (js_prop file "webViewLink")
                       (JStr ("https://drive.google.com/file/d/"
                              ++ js_toString (js_prop file "id") ++ "/view")) in
  getFileMetadata Env serve (js_prop file "id") w = (Ok success_marker, w2)
  /\ processFile Env serve file w =
       (Ok (JObj [("success", JBool true); ("fileUrl", fileUrl)]), w2)
  /\ JObj [("success", JBool true); ("fileUrl", fileUrl)] <> fallback_record file.
Proof.
  intros Htok Hmeta Hn search Hs1 Hf1 Hnone Hfirst Hs2 Hok2 Hjson2 w2 fileUrl.
  assert (Hget : getFileMetadata Env serve (js_prop file "id") w = (Ok success_marker, w2)).
  { unfold getFileMetadata. enter. rewrite Hmeta. cbn.
    answered Htok Hs1. rewrite Hf1. cbn. rewrite Hnone. cbn. rewrite Hfirst. cbn.
    answered Htok Hs2. cbn. rewrite Hok2. cbn.
    unfold parse_response. rewrite Hjson2. reflexivity. }
  split; [exact Hget|]. split; [|discriminate].
  exact (processFile_found Env serve file w w2 [("success", JBool true)] Hn Hget).
Qed.

(** X16.  When the validation call cannot be made at all, [listFiles] does
    not report an expired session: it throws what [validateToken] throws,
    [Error validating token: ...], after that one request. *)
Theorem listFiles_validation_unreachable (w : World Env) e' rejection :
  has_token (svc w) = true ->
  serve (env w) (about_request (svc w)) = (e', Rejects rejection) ->
  listFiles Env serve w =
    (Throw (Error ("Error validating token: " ++ exn_toString rejection)),
     sent w e' (about_request (svc w)))
  /\ Error ("Error validating token: " ++ exn_toString rejection)
     <> Error session_expired_message.
Proof.
  intros Htok Hs. split; [|discriminate].
  unfold listFiles. enter. rewrite Htok. cbn.
  unfold validateToken. enter. rewrite Htok. cbn.
  fetched Hs. reflexivity.
Qed.

(** X17.  The loop of [listFiles] does not guard against a response without
    a list of files.  When the enumeration request succeeds with a body that
    does not parse, so that [makeRequest] answers its success marker, the
    listing throws a [TypeError] instead of returning an empty list. *)
Theorem listFiles_without_files_array (w : World Env) e1 r1 e2 r2 err :
  has_token (svc w) = true ->
  truthy (docsFolderId (svc w)) = true ->
  serve (env w) (about_request (svc w)) = (e1, Resolves r1) ->
  resp_ok r1 = true ->
  serve e1 (list_request (svc w)) = (e2, Resolves r2) ->
  resp_ok r2 = true ->
  resp_json r2 = Throw err ->
  exists thrown,
    listFiles Env serve w =
      (Throw thrown, sent (sent w e1 (about_request (svc w))) e2 (list_request (svc w)))
    /\ exn_name thrown = "TypeError".
Proof.
  intros Htok Hdocs Hs1 Hok1 Hs2 Hok2 Hjson2.
  unfold listFiles. enter. rewrite Htok. cbn.
  unfold validateToken. enter. rewrite Htok. cbn.
  fetched Hs1. cbn. rewrite Hok1. cbn. rewrite Hdocs. cbn.
  answered Htok Hs2. cbn. rewrite Hok2. cbn.
  unfold parse_response. rewrite Hjson2. cbn.
  eexists. split; reflexivity.
Qed.

End Session.

(** * Properties of the authentication context *)

Ltac aenter :=
  unfold atry, abind, aret, athrow, alift, setState, onService, afinally; cbn.

Section AuthProperties.

Variable Env : Type.
Variable serve : Env -> Request -> Env * FetchOutcome.
Variable storage : Env -> StorageOp -> Env * Result JSValue.
Variable token_endpoint : Env -> string -> Env * FetchOutcome.
Variable JSON_parse : string -> Result JSValue.
Variable JSON_stringify : JSValue -> string.

Lemma AsyncStorage_run op (a : App Env) e' r :
  storage (env (service a)) op = (e', r) ->
  AsyncStorage Env storage op a =
    (r, mkApp (mkWorld (svc (service a)) e' (calls (service a)))
              (auth a) (stored a ++ [op]) (refreshes a)).
Proof.
  intros H. unfold AsyncStorage. rewrite H. reflexivity.
Qed.

(** A storage operation changes neither the service object, nor the state
    of the context, nor the requests sent. *)
Lemma AsyncStorage_keeps op (a : App Env) :
  let a' := snd (AsyncStorage Env storage op a) in
  svc (service a') = svc (service a)
  /\ calls (service a') = calls (service a)
  /\ auth a' = auth a.
Proof.
  unfold AsyncStorage. destruct (storage (env (service a)) op). cbn. auto.
Qed.

Ltac stored_as Hs :=
  match goal with
  | |- context [AsyncStorage ?E ?st ?op ?a] =>
      let Hr := fresh "Hr" in
      pose proof (AsyncStorage_run op a _ _ Hs) as Hr;
      rewrite Hr; clear Hr
  end.

Lemma logout_run (a : App Env) :
  logout Env storage a =
    (Ok tt,
     let (e', r) := storage (env (service a)) removal in
     match r with
     | Ok _ =>
         mkApp (mkWorld new_service e' (calls (service a)))
               (mkAuthState false (isLoading (auth a)) JNull JNull)
               (stored a ++ [removal]) (refreshes a)
     | Throw _ =>
         mkApp (mkWorld (svc (service a)) e' (calls (service a)))
               (auth a) (stored a ++ [removal]) (refreshes a)
     end).
Proof.
  unfold logout. aenter. unfold AsyncStorage. fold removal.
  destruct (storage (env (service a)) removal) as [e' [v|e]]; reflexivity.
Qed.

(** X18.  [logout] never throws.  When the removal from [AsyncStorage]
    succeeds, the service loses its token and its folder identifiers and the
    context shows a logged-out user.  When the removal fails, nothing else
    is done: the service keeps its token and the context its state. *)
Theorem logout_contract (a : App Env) e' r :
  storage (env (service a)) (MultiRemove ["userToken"; "refreshToken"; "userInfo"])
    = (e', r) ->
  let (res, a') := logout Env storage a in
  res = Ok tt
  /\ stored a' = (stored a ++ [MultiRemove ["userToken"; "refreshToken"; "userInfo"]])%list
  /\ calls (service a') = calls (service a)
  /\ match r with
     | Ok _ =>
         svc (service a') = new_service
         /\ auth a' = mkAuthState false (isLoading (auth a)) JNull JNull
     | Throw _ =>
         svc (service a') = svc (service a) /\ auth a' = auth a
     end.
Proof.
  intros Hs. rewrite logout_run. unfold removal. rewrite Hs.
  destruct r; cbn; auto.
Qed.

(** The folder bootstrap as the context runs it: its failure is swallowed,
    and it touches neither the token nor the state of the context. *)
Lemma initializeFolders_run (a : App Env) :
  exists w',
    initializeFolders Env serve a = (Ok tt, mkApp w' (auth a) (stored a) (refreshes a))
    /\ accessToken (svc w') = accessToken (svc (service a)).
Proof.
  unfold initializeFolders. aenter.
  pose proof (initializeFolderStructure_token Env serve (service a)) as Htoken.
  destruct (initializeFolderStructure Env serve (service a)) as [[b|e] w']; cbn in *;
    exists w'; auto.
Qed.

(** X19.  [login] fails only when [AsyncStorage] does, and then rethrows
    before it has touched the service or the state.  When it returns, the
    context shows an authenticated user with the token given, and the
    service holds that token, whether or not the folder bootstrap
    succeeded.  It returns whenever the storage accepts every write. *)
Theorem login_outcomes token refreshToken info (a : App Env) :
  (let (res, a') := login Env serve storage JSON_stringify token refreshToken info a in
   match res with
   | Ok _ =>
       isAuthenticated (auth a') = true
       /\ userToken (auth a') = JStr token
       /\ accessToken (svc (service a')) = Some token
   | Throw _ =>
       auth a' = auth a
       /\ svc (service a') = svc (service a)
       /\ calls (service a') = calls (service a)
   end)
  /\
  ((forall e op, exists e' v, storage e op = (e', Ok v)) ->
   fst (login Env serve storage JSON_stringify token refreshToken info a) = Ok tt).
Proof.
  split.
  - unfold login. aenter. unfold AsyncStorage.
    destruct refreshToken as [r|]; [destruct (negb (String.eqb r ""))|];
      (destruct info as [i|]; [destruct (truthy i)|]); cbn;
      repeat
        match goal with
        | |- context [storage ?e ?op] =>
            destruct (storage e op) as [? [? | ?]]; cbn
        end;
      auto;
      match goal with
      | |- context [initializeFolders _ _ ?x] =>
          destruct (initializeFolders_run x) as (w' & Hinit & Htoken); rewrite Hinit
      end; cbn in *; auto.
  - intros Hall. unfold login. aenter. unfold AsyncStorage.
    destruct refreshToken as [r|]; [destruct (negb (String.eqb r ""))|];
      (destruct info as [i|]; [destruct (truthy i)|]); cbn;
      repeat
        match goal with
        | |- context [storage ?e ?op] =>
            let H := fresh "H" in
            destruct (Hall e op) as (? & ? & H); rewrite H; cbn
        end;
      match goal with
      | |- context [initializeFolders _ _ ?x] =>
          destruct (initializeFolders_run x) as (w' & Hinit & Htoken); rewrite Hinit
      end; reflexivity.
Qed.

(** A block whose handler is [logout] never throws. *)
Lemma atry_logout_returns (m : A Env unit) (a : App Env) :
  fst (atry Env m (fun _ => logout Env storage) a) = Ok tt.
Proof.
  unfold atry. destruct (m a) as [[[] | e] a1]; cbn;
    [reflexivity | rewrite logout_run; reflexivity].
Qed.

(** X20.  [checkAuthStatus] never throws and always ends with the loading
    flag down, whatever the storage, the provider and the token endpoint
    do. *)
Theorem checkAuthStatus_always_ends (a : App Env) :
  let (res, a') :=
    checkAuthStatus Env serve storage token_endpoint JSON_parse a in
  res = Ok tt /\ isLoading (auth a') = false.
Proof.
  unfold checkAuthStatus, afinally.
  match goal with |- context [atry ?E ?m ?h a] =>
    pose proof (atry_logout_returns m a) as Hres;
    destruct (atry E m h a) as [res a1]; cbn in *; auto
  end.
Qed.

(** X21.  With no token or no user information in the storage,
    [checkAuthStatus] shows a logged-out user and leaves the service alone:
    no request is sent and the token endpoint is not called. *)
Theorem checkAuthStatus_without_credentials (a : App Env) e1 token e2 info :
  storage (env (service a)) (GetItem "userToken") = (e1, Ok token) ->
  storage e1 (GetItem "userInfo") = (e2, Ok info) ->
  truthy token && truthy info = false ->
  checkAuthStatus Env serve storage token_endpoint JSON_parse a =
    (Ok tt,
     mkApp (mkWorld (svc (service a)) e2 (calls (service a)))
           (mkAuthState false false (userToken (auth a)) (userInfo (auth a)))
           (stored a ++ [GetItem "userToken"; GetItem "userInfo"])
           (refreshes a)).
Proof.
  intros H1 H2 Hnone. unfold checkAuthStatus. aenter.
  stored_as H1. cbn. stored_as H2. cbn. rewrite Hnone. cbn.
  rewrite <- app_assoc. reflexivity.
Qed.

(** X22.  [checkAuthStatus] only ever gives the service the token read from
    the storage.  Starting from a logged-out context with a token and user
    information stored, whenever it ends authenticated the service holds
    the stored token, also when that token was found invalid and a new one
    was obtained from the token endpoint; and unless the token endpoint was
    called, the context holds the stored token too. *)
Theorem checkAuthStatus_service_token (a : App Env) e1 token e2 info :
  storage (env (service a)) (GetItem "userToken") = (e1, Ok token) ->
  storage e1 (GetItem "userInfo") = (e2, Ok info) ->
  truthy token = true ->
  truthy info = true ->
  isAuthenticated (auth a) = false ->
  let a' := snd (checkAuthStatus Env serve storage token_endpoint JSON_parse a) in
  isAuthenticated (auth a') = true ->
  accessToken (svc (service a')) = Some (js_toString token)
  /\ (refreshes a' = refreshes a -> userToken (auth a') = token).
Proof.
  intros H1 H2 Ht Hi Hout. unfold checkAuthStatus. aenter.
  stored_as H1. cbn. stored_as H2. cbn. rewrite Ht, Hi. cbn.
  destruct (JSON_parse (js_toString info)) as [parsed | e]; cbn.
  2: { rewrite logout_run. cbn.
       destruct (storage e2 removal) as [e3 [v | e']]; cbn; congruence. }
  match goal with
  | |- context [validateToken _ _ ?w] =>
      destruct (validateToken_reads Env serve w) as [Hsvc _];
      destruct (validateToken Env serve w) as [[[|] | e] [s3 e3 c3]];
      cbn in Hsvc; subst s3; cbn
  end.
  - match goal with
    | |- context [initializeFolders _ _ ?x] =>
        destruct (initializeFolders_run x) as (w' & Hinit & Htoken); rewrite Hinit
    end; cbn in *. intros _. split; [exact Htoken | reflexivity].
  - unfold attemptTokenRefresh, refreshAccessToken, fetch_token, AsyncStorage;
      aenter.
    destruct (storage e3 (GetItem "refreshToken")) as [e4 [rt | e]]; cbn.
    2: { rewrite logout_run; cbn.
         destruct (storage e4 removal) as [e5 [v | e']]; cbn; congruence. }
    destruct (truthy rt); cbn.
    2: { rewrite logout_run; cbn.
         destruct (storage e4 removal) as [e5 [v | e']]; cbn; congruence. }
    assert (Hgrow : forall l : list string, (l ++ [js_toString rt])%list <> l).
    { intros l Hl. apply (f_equal (@List.length string)) in Hl.
      rewrite length_app in Hl. cbn in Hl. lia. }
    destruct (token_endpoint e4 (js_toString rt)) as [e5 [resp | e]]; cbn.
    2: { rewrite logout_run; cbn.
         destruct (storage e5 removal) as [e6 [v | e']]; cbn; congruence. }
    destruct (resp_ok resp); cbn.
    2: { rewrite logout_run; cbn.
         destruct (storage e5 removal) as [e6 [v | e']]; cbn; congruence. }
    destruct (resp_json resp) as [data | e]; cbn.
    2: { rewrite logout_run; cbn.
         destruct (storage e5 removal) as [e6 [v | e']]; cbn; congruence. }
    destruct (js_get data "access_token") as [newToken | e]; cbn.
    2: { rewrite logout_run; cbn.
         destruct (storage e5 removal) as [e6 [v | e']]; cbn; congruence. }
    destruct (truthy newToken); cbn.
    2: { rewrite logout_run; cbn.
         destruct (storage e5 removal) as [e6 [v | e']]; cbn; congruence. }
    destruct (storage e5 (SetItem "userToken" newToken)) as [e6 [v | e]]; cbn.
    2: { rewrite logout_run; cbn.
         destruct (storage e6 removal) as [e7 [v | e']]; cbn; congruence. }
    match goal with
    | |- context [initializeFolders _ _ ?x] =>
        destruct (initializeFolders_run x) as (w' & Hinit & Htoken); rewrite Hinit
    end; cbn in *. intros _. split; [exact Htoken |].
    intros Hsame. elim (Hgrow _ Hsame).
  - rewrite logout_run. cbn.
    destruct (storage e3 removal) as [e4 [v | e']]; cbn; congruence.
Qed.

(** [validateToken] with a token set: one request, and its answer read. *)
Lemma validateToken_run (w : World Env) e' out :
  has_token (svc w) = true ->
  serve (env w) (about_request (svc w)) = (e', out) ->
  validateToken Env serve w =
    (match out with
     | Resolves resp => Ok (resp_ok resp)
     | Rejects e => Throw (Error ("Error validating token: " ++ exn_toString e))
     end, sent w e' (about_request (svc w))).
Proof.
  intros Htok Hs. unfold validateToken. enter. rewrite Htok. cbn.
  fetched Hs. destruct out as [resp | e]; cbn; [destruct (resp_ok resp)|];
    reflexivity.
Qed.

(** X23.  A refreshed token does not reach the service.  When the stored
    token is refused by the provider and the token endpoint grants a new
    one, [checkAuthStatus] ends authenticated, the new token is stored and
    shown by the context, one refresh token was sent, and the service still
    holds the token that was refused. *)
Theorem checkAuthStatus_refreshed_token_not_installed
    (a : App Env) e1 token e2 info parsed e3 r3 e4 rt e5 r5 data newToken e6 v6 :
  storage (env (service a)) (GetItem "userToken") = (e1, Ok (JStr token)) ->
  storage e1 (GetItem "userInfo") = (e2, Ok (JStr info)) ->
  truthy (JStr token) = true ->
  truthy (JStr info) = true ->
  JSON_parse info = Ok parsed ->
  serve e2 (about_request (setAccessToken token (svc (service a))))
    = (e3, Resolves r3) ->
  resp_ok r3 = false ->
  storage e3 (GetItem "refreshToken") = (e4, Ok (JStr rt)) ->
  truthy (JStr rt) = true ->
  token_endpoint e4 rt = (e5, Resolves r5) ->
  resp_ok r5 = true ->
  resp_json r5 = Ok data ->
  js_get data "access_token" = Ok newToken ->
  truthy newToken = true ->
  storage e5 (SetItem "userToken" newToken) = (e6, Ok v6) ->
  let (res, a') := checkAuthStatus Env serve storage token_endpoint JSON_parse a in
  res = Ok tt
  /\ auth a' = mkAuthState true false newToken parsed
  /\ accessToken (svc (service a')) = Some token
  /\ refreshes a' = (refreshes a ++ [rt])%list
  /\ stored a' = (stored a ++ [GetItem "userToken"; GetItem "userInfo";
                               GetItem "refreshToken";
                               SetItem "userToken" newToken])%list.
Proof.
  intros H1 H2 Ht Hi Hparse Habout Hrefused H3 Hrt Hgrant Hok Hjson Hget Hnew H4.
  assert (Htok : has_token (setAccessToken token (svc (service a))) = true).
  { unfold has_token. cbn. destruct token; [discriminate Ht | reflexivity]. }
  unfold checkAuthStatus. aenter.
  stored_as H1. cbn. stored_as H2. cbn.
  cbn in Ht, Hi, Hrt. rewrite Ht, Hi. cbn.
  rewrite Hparse. cbn.
  match goal with
  | |- context [validateToken _ _ ?w] =>
      pose proof (validateToken_run w _ _ Htok Habout) as Hv; rewrite Hv; clear Hv
  end.
  cbn. rewrite Hrefused. cbn.
  unfold attemptTokenRefresh, refreshAccessToken, fetch_token, AsyncStorage;
    aenter.
  rewrite H3. cbn. rewrite Hrt. cbn. rewrite Hgrant. cbn.
  rewrite Hok. cbn. rewrite Hjson. cbn. rewrite Hget. cbn. rewrite Hnew. cbn.
  rewrite H4. cbn.
  match goal with
  | |- context [initializeFolders _ _ ?x] =>
      destruct (initializeFolders_run x) as (w' & Hinit & Htoken); rewrite Hinit
  end; cbn in *.
  repeat split; auto.
  repeat rewrite <- app_assoc. reflexivity.
Qed.

(** X24.  [refreshAccessToken] calls the token endpoint once, with the
    refresh token given, and touches neither the service, nor the storage,
    nor the state of the context.  A failure status is answered with
    [null], without reading the body; what it throws is an error whose
    message starts with [Error refreshing token: ]. *)
Theorem refreshAccessToken_contract refreshToken (a : App Env) :
  let (res, a') := refreshAccessToken Env token_endpoint refreshToken a in
  refreshes a' = (refreshes a ++ [refreshToken])%list
  /\ svc (service a') = svc (service a)
  /\ calls (service a') = calls (service a)
  /\ stored a' = stored a
  /\ auth a' = auth a
  /\ match res with
     | Ok _ => True
     | Throw e => message_starts "Error refreshing token: " e
     end
  /\ (forall e' response,
        token_endpoint (env (service a)) refreshToken = (e', Resolves response) ->
        resp_ok response = false ->
        res = Ok JNull).
Proof.
  unfold refreshAccessToken, fetch_token. aenter.
  destruct (token_endpoint (env (service a)) refreshToken) as [e1 [resp | e]]; cbn.
  - destruct (resp_ok resp) eqn:Hok; cbn.
    + destruct (resp_json resp) as [data | e]; cbn;
        [destruct (js_get data "access_token") as [v | e]; cbn|];
        repeat split; auto; try (eexists; reflexivity);
        intros e' response H; inversion H; subst; congruence.
    + repeat split; auto.
  - repeat split; auto; try (eexists; reflexivity).
    intros e' response H; inversion H.
Qed.

(** X25.  [attemptTokenRefresh] never throws and never touches the service:
    neither its token nor the requests sent.  It answers [true] only after
    a new token was granted, written to the storage and set in the context;
    when it answers [false] the state of the context is as it was. *)
Theorem attemptTokenRefresh_contract (a : App Env) :
  let (res, a') := attemptTokenRefresh Env storage token_endpoint a in
  svc (service a') = svc (service a)
  /\ calls (service a') = calls (service a)
  /\ ((res = Ok false /\ auth a' = auth a)
      \/ (res = Ok true
          /\ exists newToken refreshToken,
               truthy newToken = true
               /\ auth a' = set_userToken newToken (auth a)
               /\ stored a' = (stored a ++ [ GetItem "refreshToken";
                                             SetItem "userToken" newToken ])%list
               /\ refreshes a' = (refreshes a ++ [refreshToken])%list)).
Proof.
  unfold attemptTokenRefresh, refreshAccessToken, fetch_token, AsyncStorage. aenter.
  destruct (storage (env (service a)) (GetItem "refreshToken")) as [e1 [rt | e]]; cbn;
    [|auto].
  destruct (truthy rt); cbn; [|auto].
  destruct (token_endpoint e1 (js_toString rt)) as [e2 [resp | e]]; cbn; [|auto].
  destruct (resp_ok resp); cbn; [|auto].
  destruct (resp_json resp) as [data | e]; cbn; [|auto].
  destruct (js_get data "access_token") as [newToken | e]; cbn; [|auto].
  destruct (truthy newToken) eqn:Hnew; cbn; [|auto].
  destruct (storage e2 (SetItem "userToken" newToken)) as [e3 [v | e]]; cbn; [|auto].
  split; [reflexivity|]. split; [reflexivity|]. right. split; [reflexivity|].
  exists newToken, (js_toString rt). rewrite <- app_assoc. auto.
Qed.

End AuthProperties.

(** * Concrete runs *)

Module Runs.
Import Scripted.

(** Against C1 as stated: the upload request is refused, and [uploadFile]
    throws. *)
Lemma uploadFile_throws_when_upload_refused :
  fst (uploadFile Env serve clock max_arguments report_pdf []
         (world ready [http_error 500 "Backend Error"]))
  = Throw (Error "Upload failed: Upload failed: 500 - Backend Error").
Proof. vm_compute. reflexivity. Qed.

(** Against C2 as stated: the content file is deleted, the search for its
    sidecar fails, and [deleteFile] throws. *)
Lemma deleteFile_throws_when_sidecar_search_fails :
  let run := deleteFile Env serve "f1"
               (world ready [no_content; http_error 500 "Backend Error"]) in
  fst run
  = Throw (Error "Failed to delete file: Error: Google Drive API error: 500 - Backend Error")
  /\ map req_method (calls (snd run)) = [DELETE; GET].
Proof. vm_compute. split; reflexivity. Qed.

(** Against C3 as stated: a file above the ceiling, in a session whose
    folders are not resolved yet; four requests are sent before the
    size-limit failure is returned. *)
Lemma uploadFile_too_large_after_four_requests :
  let run := uploadFile Env serve clock max_arguments huge_pdf [] (world fresh folders_found) in
  MAX_FILE_SIZE < file_size huge_pdf
  /\ fst run = Ok (mkUploadResult false JUndefined JUndefined
                     (Some "File size exceeds limit of 100MB"))
  /\ List.length (calls (snd run)) = 4%nat.
Proof. vm_compute. repeat split. Qed.

(** Against C4 as stated: an update whose fields carry an [id]; the record
    written for the content file [f1], whose stored [id] is [f1], has the
    [id] given. *)
Lemma updateMetadata_overwrites_id :
  let run := updateMetadata Env serve clock "f1" [("id", JStr "other")]
               (world ready update_goes_well) in
  js_get stored_record "id" = Ok (JStr "f1")
  /\ fst run = Ok true
  /\ exists before record,
       calls (snd run) = (before ++ [sidecar_upload ready (JStr "f1") record])%list
       /\ js_get record "id" = Ok (JStr "other").
Proof.
  vm_compute. split; [reflexivity|]. split; [reflexivity|].
  eexists [_; _; _; _], _. split; reflexivity.
Qed.

(** C9 at work: the deletion of the content file is refused. *)
Lemma deleteFile_content_failure_run :
  let w := world ready [http_error 404 "File not found"] in
  let run := deleteFile Env serve "f1" w in
  fst run
  = Throw (Error "Failed to delete file: Error: Google Drive API error: 404 - File not found")
  /\ calls (snd run) = [content_delete ready "f1"]
  /\ svc (snd run) = ready.
Proof.
  intros w run.
  pose proof (deleteFile_content_failure Env serve "f1" w _ _ _
                eq_refl eq_refl eq_refl) as H.
  fold run in H. destruct run as [res w']. exact H.
Defined.

(** C2 at work: the content file is deleted and there is no sidecar. *)
Lemma deleteFile_without_sidecar_run :
  fst (deleteFile Env serve "f1"
         (world ready [no_content; json_ok (files_response [])]))
  = Ok true.
Proof.
  pose proof (deleteFile_after_content_deleted Env serve "f1"
                (world ready [no_content; json_ok (files_response [])]) _ _
                eq_refl eq_refl eq_refl) as [_ H].
  destruct (H eq_refl _ _ eq_refl) as (_ & H2).
  destruct (H2 eq_refl) as (H3 & _).
  rewrite (H3 eq_refl). reflexivity.
Defined.

(** C7 at work: the validation call answers [401]. *)
Lemma listFiles_session_expired_run :
  fst (listFiles Env serve (world ready [http_error 401 "Invalid Credentials"]))
  = Throw (Error "Access token is expired or invalid. Please log in again.").
Proof.
  pose proof (listFiles_session_expired Env serve
                (world ready [http_error 401 "Invalid Credentials"]) _ _
                eq_refl eq_refl eq_refl) as [H _].
  rewrite H. reflexivity.
Defined.

(** C3 at work: a file above the ceiling, the folders being resolved. *)
Lemma uploadFile_too_large_run :
  uploadFile Env serve clock max_arguments huge_pdf [] (world ready [])
  = (Ok (mkUploadResult false JUndefined JUndefined
           (Some "File size exceeds limit of 100MB")),
     world ready []).
Proof.
  apply (uploadFile_too_large Env serve clock max_arguments huge_pdf []
           (world ready []) (world ready [])).
  - reflexivity.
  - reflexivity.
Defined.

(** C4 at work, on the end-to-end example of the design document: the
    sidecar written carries the identifier the provider returned. *)
Lemma record_id_preserved_run :
  let metadata := [ ("tags", JArr [JStr "urgent"; JStr "medical"]);
                    ("category", JStr "Lab Result") ] in
  let w := world ready [ json_ok (JObj [("id", JStr "f1")]);
                         json_ok (JObj [("id", JStr "m1")]) ] in
  let run := uploadFile Env serve clock max_arguments report_pdf metadata w in
  fileId_of run = JStr "f1"
  /\ exists s record before,
       calls (snd run) = (before ++ [sidecar_upload s (JStr "f1") record])%list
       /\ js_get record "id" = Ok (JStr "f1").
Proof.
  intros metadata w run.
  destruct record_id_preserved with (Env := Env) (serve := serve) (clock := clock)
    (max_arguments := max_arguments)
    as [Hupload _].
  destruct (Hupload report_pdf metadata w (snd run)
              (mkUploadResult true (JStr "f1") (JStr "m1") None) eq_refl eq_refl)
    as (w0 & part & e1 & resp & uploaded & record & before & _ & _ & _ & Hcalls & Hid).
  split; [reflexivity|].
  exists (svc w0), record, before. split; assumption.
Defined.

(** The fallback paths at work: a listing of two files, one without a
    sidecar and one whose
    sidecar
    cannot be searched for: two records, in the provider's order, both
    fallback records. *)
Lemma listFiles_fallback_run :
  let w := world ready listing_without_sidecars in
  exists first second,
    fst (listFiles Env serve w) = Ok [first; second]
    /\ first = fallback_record listed_f1
    /\ second = fallback_record listed_f2
    /\ js_get first "fileUrl"
       = Ok (JStr "https://drive.google.com/file/d/f1/view?usp=drivesdk")
    /\ js_get second "fileUrl"
       = Ok (JStr "https://drive.google.com/file/d/f2/view").
Proof.
  intros w.
  destruct (listFiles_fallback Env serve w _ _ _ _ _ [listed_f1; listed_f2]
              eq_refl eq_refl eq_refl eq_refl eq_refl eq_refl eq_refl eq_refl)
    as (records & Hlist & Hlen & Hnth).
  destruct (Hnth 0%nat listed_f1 eq_refl) as (first & H0 & _ & Hf0).
  destruct (Hnth 1%nat listed_f2 eq_refl) as (second & H1 & _ & Hf1).
  destruct (Hf0 eq_refl) as (E0 & _ & _ & _ & _ & U0).
  destruct (Hf1 I) as (E1 & _ & _ & _ & _ & U1).
  destruct records as [|r0 [|r1 [|r2 rest]]]; try discriminate Hlen.
  cbn in H0, H1. inversion H0; inversion H1; subst r0 r1.
  exists first, second. rewrite Hlist. cbn. auto.
Defined.


(** C10 at work: an upload under a document name. *)
Lemma uploadFile_documentName_run :
  let metadata := [("documentName", JStr "Blood test, March")] in
  let w := world ready [ json_ok (JObj [("id", JStr "f1")]);
                         json_ok (JObj [("id", JStr "m1")]) ] in
  let run := uploadFile Env serve clock max_arguments report_pdf metadata w in
  exists content part record,
    calls (snd run) = [ mkRequest UploadMultipart POST "token" (Multipart content part);
                        sidecar_upload ready (JStr "f1") record ]
    /\ js_get content "name" = Ok (JStr "Blood test, March")
    /\ js_get record "name" = Ok (JStr "report.pdf").
Proof.
  intros metadata w run.
  destruct (uploadFile_documentName Env serve clock max_arguments report_pdf metadata w (snd run)
              (mkUploadResult true (JStr "f1") (JStr "m1") None) "Blood test, March"
              eq_refl ltac:(discriminate) ltac:(discriminate) eq_refl eq_refl)
    as (w0 & part & created & modified & Hprov & Hcalls & Hcontent & _ & Hrecord & _).
  cbn in Hprov. subst w0.
  eexists _, part, _. split; [exact Hcalls|]. split; assumption.
Defined.

(** C5.  At a listing of one file whose sidecar is found and whose body
    does not parse as JSON, the sidecar is unreadable and the record listed
    is not the fallback record: it is the success marker of [makeRequest]
    with a [fileUrl], without [id], [name] or [category]. *)
Lemma listFiles_garbled_sidecar_not_fallback :
  let run := listFiles Env serve (world ready listing_with_garbled_sidecar) in
  let listed :=
    JObj [ ("success", JBool true);
           ("fileUrl", JStr "https://drive.google.com/file/d/f1/view?usp=drivesdk") ] in
  fst run = Ok [listed]
  /\ listed <> fallback_record listed_f1
  /\ js_get listed "id" = Ok JUndefined
  /\ js_get (fallback_record listed_f1) "id" = Ok (JStr "f1")
  /\ js_get listed "category" = Ok JUndefined
  /\ js_get (fallback_record listed_f1) "category" = Ok (JStr "others").
Proof.
  vm_compute. repeat split. discriminate.
Qed.


End Runs.

(** C6 at work: the folder bootstrap run twice on an empty drive. *)
Lemma initializeFolderStructure_idempotent_run :
  let init := initializeFolderStructure Drive.Env (Drive.serve Drive.counter_id) in
  let w1 := snd (init (mkWorld Scripted.fresh Drive.empty [])) in
  let w2 := snd (init w1) in
  svc w1 = mkService (Some "token") (JStr "folder-0") (JStr "folder-1")
                     (JStr "folder-2") (JStr "folder-3")
  /\ getFolderStatus (svc w2) = getFolderStatus (svc w1)
  /\ Drive.files (env w2) = Drive.files (env w1)
  /\ List.length (Drive.files (env w2)) = 4%nat.
Proof.
  intros init w1 w2.
  destruct (DriveProofs.initializeFolderStructure_idempotent Drive.counter_id
              (mkWorld Scripted.fresh Drive.empty []) eq_refl)
    as (_ & _ & Hstatus & Hfiles & _).
  split; [reflexivity|]. split; [exact Hstatus|]. split; [exact Hfiles|reflexivity].
Defined.

(** * Further runs *)

Module SessionRuns.
Import Scripted.

(** X1 at work: a deletion answered [204] without a body. *)
Lemma makeRequest_contract_run :
  makeRequest Env serve (FileById "f1") DELETE NoBody (world ready [no_content])
  = (Ok success_marker,
     mkWorld ready (mkEnv [] 0) [mkRequest (FileById "f1") DELETE "token" NoBody]).
Proof.
  pose proof (makeRequest_contract Env serve (FileById "f1") DELETE NoBody
                (world ready [no_content]) _ _ eq_refl eq_refl) as H.
  cbv zeta in H.
  destruct (makeRequest Env serve (FileById "f1") DELETE NoBody (world ready [no_content]))
    as [res w'].
  destruct H as (Hw & _ & _ & Hok).
  destruct (Hok eq_refl) as (value & Hres & Hdel & _).
  rewrite Hres, (Hdel eq_refl), Hw. reflexivity.
Defined.

(** X2 at work: the root folder is not found, and is created. *)
Lemma findOrCreateFolder_search_then_create_run :
  let run := findOrCreateFolder Env serve ROOT_FOLDER_NAME JUndefined
               (world fresh [ json_ok (files_response []);
                              json_ok (JObj [("id", JStr "root-id")]) ]) in
  fst run = Ok (JStr "root-id")
  /\ map req_method (calls (snd run)) = [GET; POST].
Proof.
  destruct (findOrCreateFolder_search_then_create Env serve ROOT_FOLDER_NAME JUndefined
              (world fresh [ json_ok (files_response []);
                             json_ok (JObj [("id", JStr "root-id")]) ])
              _ _ eq_refl eq_refl eq_refl) as [_ H].
  destruct (H eq_refl _ _ eq_refl) as (Hrun & _).
  cbv zeta. rewrite Hrun. split; reflexivity.
Defined.

(** X4 at work: the root folder is found, the search for the documents
    folder is refused. *)
Lemma initializeFolderStructure_partial_run :
  let run := initializeFolderStructure Env serve
               (world fresh [ json_ok (files_response [file_entry "root-id" "wecare"]);
                              http_error 500 "Backend Error" ]) in
  fst run = Throw (Error ("Failed to initialize folder structure: "
                          ++ "Error: Google Drive API error: 500 - Backend Error"))
  /\ getFolderStatus (svc (snd run)) = getFolderStatus (set_rootFolderId (JStr "root-id") fresh).
Proof.
  destruct (initializeFolderStructure_partial Env serve
              (world fresh [ json_ok (files_response [file_entry "root-id" "wecare"]);
                             http_error 500 "Backend Error" ])
              _ _ (JStr "root-id") _ eq_refl eq_refl eq_refl) as [Hrun Hsvc].
  cbv zeta. rewrite Hrun. cbn [fst snd]. rewrite Hsvc. split; reflexivity.
Defined.

(** X7 at work: the listing of two files without sidecars. *)
Lemma listFiles_read_only_run :
  let w := world ready listing_without_sidecars in
  reads_only w (snd (listFiles Env serve w)).
Proof.
  exact (listFiles_read_only Env serve (world ready listing_without_sidecars) eq_refl).
Defined.

(** X8 at work: no profile was saved yet. *)
Lemma getProfile_contract_run :
  let run := getProfile Env serve (world ready [json_ok (files_response [])]) in
  fst run = Ok JNull /\ map req_method (calls (snd run)) = [GET].
Proof.
  destruct (getProfile_contract Env serve (world ready [json_ok (files_response [])]))
    as [_ H].
  cbv zeta. rewrite (H eq_refl eq_refl _ _ eq_refl eq_refl eq_refl).
  split; reflexivity.
Defined.

(** X9 at work: the provider refuses the profile. *)
Lemma saveProfile_contract_run :
  let run := saveProfile Env serve (JObj [("name", JStr "A User")])
               (world ready [http_error 403 "Forbidden"]) in
  fst run = Ok false /\ map req_method (calls (snd run)) = [POST].
Proof.
  destruct (saveProfile_contract Env serve (JObj [("name", JStr "A User")])
              (world ready [http_error 403 "Forbidden"])) as [_ H].
  cbv zeta. rewrite (H eq_refl _ _ eq_refl). split; reflexivity.
Defined.

(** X10 at work: a deletion asked of a service that holds no token. *)
Lemma deleteFile_false_iff_no_token_run :
  let w := world new_service [no_content] in
  deleteFile Env serve "f1" w = (Ok false, w).
Proof.
  intros w.
  pose proof (deleteFile_false_iff_no_token Env serve "f1" w) as H.
  destruct (deleteFile Env serve "f1" w) as [res w'].
  destruct H as (_ & Hnone & _).
  destruct (Hnone eq_refl) as [Hres Hw]. rewrite Hres, Hw. reflexivity.
Defined.

(** X11 at work: the end-to-end upload of the design document. *)
Lemma uploadFile_succeeds_run :
  let run := uploadFile Env serve clock max_arguments report_pdf []
               (world ready [ json_ok (JObj [("id", JStr "f1")]);
                              json_ok (JObj [("id", JStr "m1")]) ]) in
  fst run = Ok (mkUploadResult true (JStr "f1") (JStr "m1") None)
  /\ map req_url (calls (snd run)) = [UploadMultipart; UploadMultipart].
Proof.
  cbv zeta.
  rewrite (uploadFile_succeeds Env serve clock max_arguments report_pdf []
             (NativeFile "file:///report.pdf" "report.pdf" "application/pdf")
             (world ready [ json_ok (JObj [("id", JStr "f1")]);
                            json_ok (JObj [("id", JStr "m1")]) ])
             _ _ _ (JStr "f1") _ _ _ (JStr "m1")
             eq_refl eq_refl ltac:(discriminate) eq_refl eq_refl eq_refl eq_refl eq_refl
             eq_refl eq_refl eq_refl eq_refl eq_refl).
  split; reflexivity.
Defined.

(** X12 at work: the content is accepted, the sidecar is refused. *)
Lemma uploadFile_leaves_content_without_sidecar_run :
  let run := uploadFile Env serve clock max_arguments report_pdf []
               (world ready [ json_ok (JObj [("id", JStr "f1")]);
                              http_error 403 "Forbidden" ]) in
  fst run = Throw (Error "Upload failed: Failed to save metadata")
  /\ map req_method (calls (snd run)) = [POST; POST].
Proof.
  destruct (uploadFile_leaves_content_without_sidecar Env serve clock max_arguments report_pdf []
              (NativeFile "file:///report.pdf" "report.pdf" "application/pdf")
              (world ready [ json_ok (JObj [("id", JStr "f1")]);
                             http_error 403 "Forbidden" ])
              _ _ _ (JStr "f1")
              eq_refl ltac:(discriminate) eq_refl eq_refl eq_refl eq_refl eq_refl eq_refl)
    as [_ H].
  cbv zeta. rewrite (H eq_refl _ _ eq_refl eq_refl). split; reflexivity.
Defined.

(** X13 at work: the answer to the content upload has no [id]. *)
Lemma uploadFile_missing_id_run :
  let run := uploadFile Env serve clock max_arguments report_pdf []
               (world ready [json_ok (JObj [("name", JStr "report.pdf")])]) in
  fst run = Throw (Error "Upload failed: Upload response missing file ID")
  /\ map req_method (calls (snd run)) = [POST].
Proof.
  cbv zeta.
  rewrite (uploadFile_missing_id Env serve clock max_arguments report_pdf []
             (NativeFile "file:///report.pdf" "report.pdf" "application/pdf")
             (world ready [json_ok (JObj [("name", JStr "report.pdf")])])
             _ _ _ JUndefined
             eq_refl ltac:(discriminate) eq_refl eq_refl eq_refl eq_refl eq_refl eq_refl).
  split; reflexivity.
Defined.

(** X14 at work: the old sidecar is deleted and the new one is refused. *)
Lemma updateMetadata_replaces_run :
  let run := updateMetadata Env serve clock "f1" [("category", JStr "Imaging")]
               (world ready update_write_refused) in
  fst run = Throw (Error ("Failed to update metadata: Error: Failed to update metadata: "
                          ++ "507 - Storage quota exceeded"))
  /\ map req_method (calls (snd run)) = [GET; GET; GET; DELETE; POST].
Proof.
  cbv zeta.
  rewrite (updateMetadata_replaces Env serve clock "f1" [("category", JStr "Imaging")]
             (world ready update_write_refused) _ _ stored_record
             _ _ (JStr "m1") _ _ _ _
             eq_refl eq_refl eq_refl eq_refl eq_refl eq_refl eq_refl eq_refl eq_refl
             eq_refl eq_refl eq_refl).
  split; reflexivity.
Defined.

(** X15 at work: the sidecar of a listed file holds a page of HTML. *)
Lemma listFiles_unparseable_sidecar_run :
  fst (processFile Env serve listed_f1
         (world ready [ json_ok (files_response [file_entry "m1" "f1_metadata.json"]);
                        not_json ]))
  = Ok (JObj [ ("success", JBool true);
               ("fileUrl", JStr "https://drive.google.com/file/d/f1/view?usp=drivesdk") ]).
Proof.
  destruct (listFiles_unparseable_sidecar Env serve listed_f1
              (world ready [ json_ok (files_response [file_entry "m1" "f1_metadata.json"]);
                             not_json ])
              _ _ (JStr "m1") _ _ _
              eq_refl eq_refl eq_refl eq_refl eq_refl eq_refl eq_refl eq_refl eq_refl
              eq_refl) as (_ & Hrun & _).
  rewrite Hrun. reflexivity.
Defined.

(** X16 at work: the network is down when the listing starts. *)
Lemma listFiles_validation_unreachable_run :
  listFiles Env serve (world ready [network_down])
  = (Throw (Error "Error validating token: TypeError: Network request failed"),
     mkWorld ready (mkEnv [] 0) [about_request ready]).
Proof.
  destruct (listFiles_validation_unreachable Env serve (world ready [network_down])
              _ _ eq_refl eq_refl) as [Hrun _].
  rewrite Hrun. reflexivity.
Defined.

(** X17 at work: the enumeration is answered with a page of HTML. *)
Lemma listFiles_without_files_array_run :
  exists thrown,
    fst (listFiles Env serve (world ready [json_ok (JObj []); not_json])) = Throw thrown
    /\ exn_name thrown = "TypeError".
Proof.
  destruct (listFiles_without_files_array Env serve
              (world ready [json_ok (JObj []); not_json]) _ _ _ _ _
              eq_refl eq_refl eq_refl eq_refl eq_refl eq_refl eq_refl)
    as (thrown & Hrun & Hname).
  exists thrown. rewrite Hrun. split; [reflexivity | exact Hname].
Defined.

(** X26 at work: a browser file of 150000 bytes on an engine that takes
    65536 arguments. *)
Lemma uploadFile_beyond_arguments_run :
  uploadFile Env serve clock max_arguments scan_pdf []
    (world ready [json_ok (JObj [("id", JStr "f1")])])
  = (Throw (Error "Upload failed: Maximum call stack size exceeded"),
     world ready [json_ok (JObj [("id", JStr "f1")])]).
Proof.
  apply (uploadFile_beyond_arguments Env serve clock max_arguments scan_pdf []
           scan_bytes (world ready [json_ok (JObj [("id", JStr "f1")])])).
  - reflexivity.
  - discriminate.
  - reflexivity.
  - vm_compute. reflexivity.
Defined.

End SessionRuns.

Module AuthRuns.
Import Device.

(** X18 at work: logout on a device on which a user logged in. *)
Lemma logout_contract_run :
  let a := mkApp (mkWorld Scripted.ready (mkEnv (Scripted.mkEnv [] 0) logged_in []) [])
                 (mkAuthState true false (JStr "token") a_user) [] [] in
  let a' := snd (logout Env storage a) in
  svc (service a') = new_service
  /\ auth a' = mkAuthState false false JNull JNull
  /\ items (env (service a')) = []
  /\ calls (service a') = [].
Proof.
  intros a a'.
  pose proof (logout_contract Env storage a _ _ eq_refl) as H.
  destruct (logout Env storage a) as [res a1] eqn:Hrun.
  destruct H as (_ & _ & Hcalls & Hsvc & Hauth).
  subst a'. cbn [snd].
  split; [exact Hsvc|]. split; [exact Hauth|]. split; [|exact Hcalls].
  apply (f_equal snd) in Hrun. cbn [snd] in Hrun. rewrite <- Hrun. reflexivity.
Defined.

(** X19 at work: a login with a refresh token and the user's information,
    on a device that accepts every write, while the provider is
    unreachable. *)
Lemma login_outcomes_run :
  let run := login Env serve storage JSON_stringify "token" (Some "refresh")
               (Some a_user) (app [] [] []) in
  fst run = Ok tt
  /\ auth (snd run) = mkAuthState true true (JStr "token") a_user
  /\ items (env (service (snd run))) =
       [ ("userInfo", JStr a_user_text);
         ("refreshToken", JStr "refresh");
         ("userToken", JStr "token") ].
Proof.
  intros run.
  destruct (login_outcomes Env serve storage JSON_stringify "token" (Some "refresh")
              (Some a_user) (app [] [] [])) as [_ H].
  split; [|split; reflexivity].
  apply H. intros e [key | key value | keys]; eexists _, _; reflexivity.
Defined.

(** X21 at work: the first start, with nothing stored. *)
Lemma checkAuthStatus_without_credentials_run :
  let run := checkAuthStatus Env serve storage token_endpoint JSON_parse
               (app [] Scripted.folders_found []) in
  auth (snd run) = mkAuthState false false JNull JNull
  /\ calls (service (snd run)) = []
  /\ refreshes (snd run) = [].
Proof.
  cbv zeta.
  rewrite (checkAuthStatus_without_credentials Env serve storage token_endpoint
             JSON_parse (app [] Scripted.folders_found []) _ _ _ _
             eq_refl eq_refl eq_refl).
  repeat split.
Defined.

(** X22 at work: a start with a token the provider accepts. *)
Lemma checkAuthStatus_service_token_run :
  let a' := snd (checkAuthStatus Env serve storage token_endpoint JSON_parse
                   (app logged_in
                      (json_ok (JObj [("user", a_user)]) :: Scripted.folders_found) [])) in
  accessToken (svc (service a')) = Some "token"
  /\ userToken (auth a') = JStr "token".
Proof.
  intros a'.
  destruct (checkAuthStatus_service_token Env serve storage token_endpoint JSON_parse
              (app logged_in
                 (json_ok (JObj [("user", a_user)]) :: Scripted.folders_found) [])
              _ (JStr "token") _ (JStr a_user_text)
              eq_refl eq_refl eq_refl eq_refl eq_refl eq_refl) as [Hsvc Hctx].
  split; [exact Hsvc | exact (Hctx eq_refl)].
Defined.

(** X23 at work: the stored token is refused with [401] and the token
    endpoint grants a new one; the service keeps the old one. *)
Lemma checkAuthStatus_refreshed_token_not_installed_run :
  let a' := snd (checkAuthStatus Env serve storage token_endpoint JSON_parse
                   (app logged_in
                      (http_error 401 "Invalid Credentials" :: Scripted.folders_found)
                      [json_ok (JObj [("access_token", JStr "new-token")])])) in
  auth a' = mkAuthState true false (JStr "new-token") a_user
  /\ accessToken (svc (service a')) = Some "token"
  /\ find (fun item => String.eqb (fst item) "userToken") (items (env (service a')))
     = Some ("userToken", JStr "new-token").
Proof.
  intros a'.
  pose proof (checkAuthStatus_refreshed_token_not_installed
                Env serve storage token_endpoint JSON_parse
                (app logged_in
                   (http_error 401 "Invalid Credentials" :: Scripted.folders_found)
                   [json_ok (JObj [("access_token", JStr "new-token")])])
                _ "token" _ a_user_text a_user _ _ _ "refresh" _ _ _
                (JStr "new-token") _ _
                eq_refl eq_refl eq_refl eq_refl eq_refl eq_refl eq_refl eq_refl eq_refl
                eq_refl eq_refl eq_refl eq_refl eq_refl eq_refl) as H.
  subst a'.
  destruct (checkAuthStatus Env serve storage token_endpoint JSON_parse _) as [res a1] eqn:Hrun.
  destruct H as (_ & Hauth & Hsvc & _).
  cbn [snd]. split; [exact Hauth|]. split; [exact Hsvc|].
  apply (f_equal snd) in Hrun. cbn [snd] in Hrun. rewrite <- Hrun. reflexivity.
Defined.

(** X24 at work: the token endpoint refuses the refresh token. *)
Lemma refreshAccessToken_contract_run :
  let run := refreshAccessToken Env token_endpoint "refresh"
               (app logged_in [] [http_error 400 "invalid_grant"]) in
  fst run = Ok JNull /\ refreshes (snd run) = ["refresh"].
Proof.
  intros run.
  pose proof (refreshAccessToken_contract Env token_endpoint "refresh"
                (app logged_in [] [http_error 400 "invalid_grant"])) as H.
  fold run in H. destruct run as [res a'].
  destruct H as (Hsent & _ & _ & _ & _ & _ & Hnull).
  split; [exact (Hnull _ _ eq_refl eq_refl) | exact Hsent].
Defined.

End AuthRuns.
